(** * Component-alert pipeline: text normaliser, component matcher,
      target crawl job, crawl orchestrator and alert digest.

    A shallow embedding of the Python sources
      - [scraper.py]                               (class [ComponentScraper]),
      - [src/orchestrator/scraper_orchestrator.py] (class [ScraperOrchestrator]),
      - [src/services/teams_service.py]            (dedup-aware digest),
      - [services/teams_service.py]                (older, dedup-naive digest),
      - [services/report_service.py]               (summary of the latest report),
      - [services/scraper_service.py]              (the shared state around a run),
    followed by the properties established about them. *)

From Stdlib Require Import ZArith NArith String Ascii Lia.
From stdpp Require Import base option list gmap strings pretty.

Set Warnings "-register-all,-clear-no-such-hyp".
Local Open Scope N_scope.

(** ** Python values *)

Module Py.

(** A Python [str] is a sequence of Unicode code points. *)
Abbreviation codepoint := N (only parsing).
Abbreviation pystr := (list N) (only parsing).

(** [u "abc"] is the Python literal ['abc'] (ASCII literals only). *)
Fixpoint u (s : string) : pystr :=
  match s with
  | EmptyString => []
  | String c r => N_of_ascii c :: u r
  end.
Arguments u : simpl never.

(** The built-in exception classes the embedded code can raise by itself. *)
Inductive pyerr : Type :=
  | TypeError
  | AttributeError
  | KeyError
  | ValueError
  | UnicodeDecodeError.

(** Outcome of evaluating a Python expression: a value, or a raised
    exception that unwinds to the nearest handler. *)
Inductive result (A : Type) : Type :=
  | Ok (a : A)
  | Raise (e : pyerr).
Arguments Ok {A} a.
Arguments Raise {A} e.

#[export] Instance result_ret : MRet result := fun A a => Ok a.
#[export] Instance result_bind : MBind result := fun A B f m =>
  match m with
  | Ok a => f a
  | Raise e => Raise e
  end.

(** [for x in xs: acc = body(acc, x)] where the body may raise. *)
Fixpoint for_each {A S : Type} (body : S → A → result S) (acc : S) (xs : list A)
  : result S :=
  match xs with
  | [] => Ok acc
  | x :: rest => acc' ← body acc x; for_each body acc' rest
  end.

(** JSON-like documents as Python sees them after [json.load] or a MongoDB
    read: [None], [bool], [int], [str], [list] and [dict] with [str] keys.
    A [dict] is kept as its items in insertion order; keys are distinct.
    Floats do not occur in the documents handled here. *)
Inductive pyval : Type :=
  | PNone
  | PBool (b : bool)
  | PInt (z : Z)
  | PStr (s : pystr)
  | PList (l : list pyval)
  | PDict (d : list (pystr * pyval)).

Abbreviation pydict := (list (pystr * pyval)) (only parsing).

(** Truth value of an object ([if v:], [not v], [a and b]). *)
Definition truthy (v : pyval) : bool :=
  match v with
  | PNone => false
  | PBool b => b
  | PInt z => negb (Z.eqb z 0)
  | PStr s => negb (bool_decide (s = []))
  | PList l => match l with [] => false | _ => true end
  | PDict d => match d with [] => false | _ => true end
  end.

Definition is_None (v : pyval) : bool :=
  match v with PNone => true | _ => false end.

(** [isinstance(v, dict)] *)
Definition isinstance_dict (v : pyval) : bool :=
  match v with PDict _ => true | _ => false end.

(** Item lookup in a dict's item list. *)
Fixpoint dict_lookup (k : pystr) (d : pydict) : option pyval :=
  match d with
  | [] => None
  | (k', v) :: rest => if bool_decide (k' = k) then Some v else dict_lookup k rest
  end.

(** [k in d] for a dict [d]. *)
Definition dict_has (k : pystr) (d : pydict) : bool :=
  match dict_lookup k d with Some _ => true | None => false end.

(** [d.get(k, default)] for a dict [d]. *)
Definition dict_get (d : pydict) (k : pystr) (default : pyval) : pyval :=
  match dict_lookup k d with Some v => v | None => default end.

(** [v.get(k, default)]: only dicts have a [get] attribute. *)
Definition py_get (v : pyval) (k : pystr) (default : pyval) : result pyval :=
  match v with
  | PDict d => Ok (dict_get d k default)
  | _ => Raise AttributeError
  end.

(** [v.items()]: only dicts have an [items] attribute. *)
Definition py_items (v : pyval) : result (list (pystr * pyval)) :=
  match v with
  | PDict d => Ok d
  | _ => Raise AttributeError
  end.

(** The sequence [for x in v] runs over: the elements of a list, the keys of
    a dict, the one-character strings of a str; other objects are not
    iterable. *)
Definition py_iter (v : pyval) : result (list pyval) :=
  match v with
  | PList l => Ok l
  | PDict d => Ok (map (λ kv, PStr kv.1) d)
  | PStr s => Ok (map (λ c, PStr [c]) s)
  | _ => Raise TypeError
  end.

(** Hashable objects up to Python equality ([True == 1], [False == 0]):
    what can be a dict key or a set element. *)
Inductive hkey : Type :=
  | HNone
  | HInt (z : Z)
  | HStr (s : pystr).

#[export] Instance hkey_eq_dec : EqDecision hkey.
Proof. solve_decision. Defined.

#[export] Instance hkey_countable : Countable hkey.
Proof.
  refine (inj_countable'
    (λ k, match k with
          | HNone => inl ()
          | HInt z => inr (inl z)
          | HStr s => inr (inr s)
          end)
    (λ x, match x with
          | inl _ => HNone
          | inr (inl z) => HInt z
          | inr (inr s) => HStr s
          end) _).
  by intros [].
Defined.

(** [hash(v)]: lists and dicts are unhashable. *)
Definition py_hash (v : pyval) : result hkey :=
  match v with
  | PNone => Ok HNone
  | PBool b => Ok (HInt (if b then 1 else 0)%Z)
  | PInt z => Ok (HInt z)
  | PStr s => Ok (HStr s)
  | PList _ | PDict _ => Raise TypeError
  end.

End Py.
Export Py.

(** ** Text utilities: whitespace, [strip], [split], substring, the normaliser *)

Module Text.

(** [str.isspace] on one code point: the characters [str.strip()] and
    [str.split()] treat as whitespace. *)
Definition is_space (c : codepoint) : bool :=
  ((9 <=? c) && (c <=? 13)) || ((28 <=? c) && (c <=? 32))
  || (c =? 133) || (c =? 160) || (c =? 5760)
  || ((8192 <=? c) && (c <=? 8202))
  || (c =? 8232) || (c =? 8233) || (c =? 8239) || (c =? 8287) || (c =? 12288).

(** [s.lstrip()], [s.rstrip()], [s.strip()] *)
Fixpoint lstrip (s : pystr) : pystr :=
  match s with
  | c :: r => if is_space c then lstrip r else s
  | [] => []
  end.
Definition rstrip (s : pystr) : pystr := rev (lstrip (rev s)).
Definition strip (s : pystr) : pystr := rstrip (lstrip s).

(** [s.split()]: the maximal runs of non-whitespace, in order. [cur] is the
    run being read, reversed. *)
Fixpoint split_aux (cur : pystr) (s : pystr) : list pystr :=
  match s with
  | [] => match cur with [] => [] | _ => [rev cur] end
  | c :: r =>
      if is_space c
      then match cur with [] => split_aux [] r | _ => rev cur :: split_aux [] r end
      else split_aux (c :: cur) r
  end.
Definition split (s : pystr) : list pystr := split_aux [] s.

(** [sep.join(parts)] *)
Fixpoint join (sep : pystr) (parts : list pystr) : pystr :=
  match parts with
  | [] => []
  | [p] => p
  | p :: rest => p ++ sep ++ join sep rest
  end.

(** [s.startswith(p)] and [needle in hay] on strings. *)
Fixpoint starts_with (p s : pystr) : bool :=
  match p, s with
  | [], _ => true
  | _ :: _, [] => false
  | a :: p', b :: s' => (a =? b) && starts_with p' s'
  end.
Fixpoint str_contains (needle hay : pystr) : bool :=
  starts_with needle hay ||
  match hay with
  | [] => false
  | _ :: hay' => str_contains needle hay'
  end.

Definition is_ascii (c : codepoint) : bool := c <? 128.

(** [text.encode('ascii', 'ignore')]: code points outside ASCII are dropped,
    the others become one byte each. *)
Definition encode_ascii_ignore (s : pystr) : list N := filter (λ c, is_ascii c = true) s.

(** [data.decode('ascii')]: strict, any byte above 127 is an error. *)
Definition decode_ascii (data : list N) : result pystr :=
  if forallb is_ascii data then Ok data else Raise UnicodeDecodeError.

(** [str.lower] on one code point of an ASCII string. The normaliser applies
    [lower] after the ASCII round trip, so only A-Z have a lowercase form. *)
Definition lower_cp (c : codepoint) : codepoint :=
  if (65 <=? c) && (c <=? 90) then c + 32 else c.
Definition lower (s : pystr) : pystr := map lower_cp s.

Section Normalizer.
(** [unicodedata.normalize('NFKD', _)]: the compatibility decomposition of
    the Unicode character database, a table outside this code base. *)
Variable nfkd : pystr → pystr.

(** scraper.py, [ComponentScraper._normalize_text] *)
Definition _normalize_text (text : pyval) : result pystr :=
  normalized ← match text with
               | PStr s => Ok (nfkd s)
               | _ => Raise TypeError
               end;
  decoded ← decode_ascii (encode_ascii_ignore normalized);
  Ok (lower decoded).

(** scraper.py, [ComponentScraper._partial_match] *)
Definition _partial_match (text pattern : pyval) : result bool :=
  p ← _normalize_text pattern;
  t ← _normalize_text text;
  Ok (str_contains p t).
End Normalizer.

End Text.
Export Text.

(** ** Alert digest: distinct issues of a target result *)

(** The accumulator [components_issues]: issue label -> set of page types. *)
Module Issues.

(** The two statements both digest implementations use to record an issue:
<<
    if label not in components_issues:
        components_issues[label] = set()
    components_issues[label].add(page_type)
>>
    Hashing [label] comes first, then hashing [page_type]. *)
Definition add_issue (label page_type : pyval)
    (components_issues : gmap hkey (gset hkey)) : result (gmap hkey (gset hkey)) :=
  k ← py_hash label;
  let components_issues :=
    match components_issues !! k with
    | Some _ => components_issues
    | None => <[k := ∅]> components_issues
    end in
  p ← py_hash page_type;
  Ok (<[k := default ∅ (components_issues !! k) ∪ {[p]}]> components_issues).

(** [for strategy_name, found in strategies_found.items():
       if not found: record strategy_name under page_type] *)
Definition add_failing_strategies (page_type : pyval)
    (components_issues : gmap hkey (gset hkey)) (items : list (pystr * pyval))
    : result (gmap hkey (gset hkey)) :=
  for_each (λ components_issues '(strategy_name, found),
      if negb (truthy found)
      then add_issue (PStr strategy_name) page_type components_issues
      else Ok components_issues)
    components_issues items.

End Issues.
Export Issues.

(** src/services/teams_service.py (dedup-aware) *)
Module TeamsService.

(** The test
<<
    has_strategies = (details and isinstance(details, dict)
                      and 'strategies' in details
                      and details.get('strategies') is not None)
>>
    read as a truth value; [and] evaluates its right operand only when the
    left one is true, so the dict operations are applied to dicts only. *)
Definition has_strategies (details : pyval) : bool :=
  truthy details &&
  match details with
  | PDict d => dict_has (u "strategies") d
               && negb (is_None (dict_get d (u "strategies") PNone))
  | _ => false
  end.

(** Body of [for component in components:] *)
Definition component_step (page_type : pyval)
    (components_issues : gmap hkey (gset hkey)) (component : pyval)
    : result (gmap hkey (gset hkey)) :=
  component_name ← py_get component (u "name") (PStr (u "Unknown"));
  component_found ← py_get component (u "found") (PBool false);
  details ← py_get component (u "details") PNone;
  if has_strategies details then
    strategies ← py_get details (u "strategies") (PDict []);
    strategies_found ←
      (if truthy strategies
       then py_get strategies (u "strategies_found") (PDict [])
       else Ok (PDict []));
    items ← py_items strategies_found;
    add_failing_strategies page_type components_issues items
  else if negb (truthy component_found) then
    add_issue component_name page_type components_issues
  else Ok components_issues.

(** Body of [for page in pages:] *)
Definition page_step (components_issues : gmap hkey (gset hkey)) (page : pyval)
    : result (gmap hkey (gset hkey)) :=
  page_type ← py_get page (u "page_type") (PStr (u "N/A"));
  components ← py_get page (u "components") (PList []);
  components ← py_iter components;
  for_each (component_step page_type) components_issues components.

Definition extract_components_issues (alert : pyval)
    : result (gmap hkey (gset hkey)) :=
  pages ← py_get alert (u "pages") (PList []);
  pages ← py_iter pages;
  for_each page_step ∅ pages.

End TeamsService.

(** services/teams_service.py (older, dedup-naive) *)
Module LegacyTeamsService.

Definition component_step (page_type : pyval)
    (components_issues : gmap hkey (gset hkey)) (component : pyval)
    : result (gmap hkey (gset hkey)) :=
  component_name ← py_get component (u "name") (PStr (u "N/A"));
  component_found ← py_get component (u "found") (PBool true);
  components_issues ←
    (if negb (truthy component_found)
     then add_issue component_name page_type components_issues
     else Ok components_issues);
  details ← py_get component (u "details") PNone;
  if truthy details && isinstance_dict details then
    strategies ← py_get details (u "strategies") (PDict []);
    strategies_found ← py_get strategies (u "strategies_found") (PDict []);
    items ← py_items strategies_found;
    add_failing_strategies page_type components_issues items
  else Ok components_issues.

Definition page_step (components_issues : gmap hkey (gset hkey)) (page : pyval)
    : result (gmap hkey (gset hkey)) :=
  page_type ← py_get page (u "page_type") (PStr (u "N/A"));
  components ← py_get page (u "components") (PList []);
  components ← py_iter components;
  for_each (component_step page_type) components_issues components.

Definition extract_components_issues (alert : pyval)
    : result (gmap hkey (gset hkey)) :=
  pages ← py_get alert (u "pages") (PList []);
  pages ← py_iter pages;
  for_each page_step ∅ pages.

End LegacyTeamsService.

(** *** Vocabulary for statements about target results *)

Module ResultDoc.

(** What a loop over [v] visits, and what [v.get(k, default)] yields, for
    the documents on which these operations do not raise. *)
Definition items_of (v : pyval) : list pyval :=
  match py_iter v with Ok l => l | Raise _ => [] end.
Definition field (v : pyval) (k : pystr) (default : pyval) : pyval :=
  match py_get v k default with Ok x => x | Raise _ => default end.

Definition pages_of (alert : pyval) : list pyval :=
  items_of (field alert (u "pages") (PList [])).
Definition components_of (page : pyval) : list pyval :=
  items_of (field page (u "components") (PList [])).
Definition page_type_of (page : pyval) : pyval :=
  field page (u "page_type") (PStr (u "N/A")).
Definition name_of (component : pyval) : pyval :=
  field component (u "name") (PStr (u "Unknown")).
Definition found_of (component : pyval) : pyval :=
  field component (u "found") (PBool false).
Definition details_of (component : pyval) : pyval :=
  field component (u "details") PNone.

(** The non-null [strategies] object of a component's details, if any. *)
Definition strategies_of (component : pyval) : option pyval :=
  match details_of component with
  | PDict d =>
      match dict_lookup (u "strategies") d with
      | Some PNone | None => None
      | Some s => Some s
      end
  | _ => None
  end.

(** The names that [strategies_found] maps to a false value. *)
Definition failing_strategies (strategies : pyval) : list pystr :=
  if truthy strategies then
    match field strategies (u "strategies_found") (PDict []) with
    | PDict sf => map fst (filter (λ kv, truthy kv.2 = false) sf)
    | _ => []
    end
  else [].

(** The issue labels one component stands for in the digest: with a
    non-null [strategies] object its failing strategy names and nothing
    else; without one, its own name when it was not found. *)
Definition issue_labels (component : pyval) : list pyval :=
  match strategies_of component with
  | Some strategies => map PStr (failing_strategies strategies)
  | None => if truthy (found_of component) then [] else [name_of component]
  end.

(** Label [l] occurs on page type [p] in [alert]. *)
Definition occurs (alert : pyval) (l p : hkey) : Prop :=
  ∃ page component label,
    page ∈ pages_of alert ∧ component ∈ components_of page ∧
    label ∈ issue_labels component ∧
    py_hash label = Ok l ∧ py_hash (page_type_of page) = Ok p.

(** Documents of the run-report schema: an object whose [pages], when
    present, is a list of objects; each page's [page_type] is hashable and
    its [components], when present, is a list of objects; a component's
    [name] is hashable and its [strategies], when not null, is empty or an
    object whose [strategies_found], when present, is an object. *)
Definition hashable (v : pyval) : bool :=
  match py_hash v with Ok _ => true | Raise _ => false end.

Definition strategies_wf (strategies : pyval) : bool :=
  negb (truthy strategies) ||
  match strategies with
  | PDict sd => isinstance_dict (dict_get sd (u "strategies_found") (PDict []))
  | _ => false
  end.

Definition component_wf (component : pyval) : bool :=
  isinstance_dict component && hashable (name_of component) &&
  match strategies_of component with
  | Some strategies => strategies_wf strategies
  | None => true
  end.

Definition page_wf (page : pyval) : bool :=
  isinstance_dict page && hashable (page_type_of page) &&
  match field page (u "components") (PList []) with
  | PList cs => forallb component_wf cs
  | _ => false
  end.

Definition target_result_wf (alert : pyval) : bool :=
  isinstance_dict alert &&
  match field alert (u "pages") (PList []) with
  | PList ps => forallb page_wf ps
  | _ => false
  end.

(** The shape [ComponentScraper.check_component] gives a component record:
    keys [name], [found] and [details]; [details] is [None], or - only when
    [found] is true - an object holding a [strategies] object. *)
Definition reachable_component (component : pyval) : bool :=
  match component with
  | PDict d =>
      dict_has (u "name") d && dict_has (u "found") d &&
      match dict_get d (u "details") PNone with
      | PNone => true
      | PDict dd =>
          truthy (dict_get d (u "found") PNone) &&
          isinstance_dict (dict_get dd (u "strategies") PNone)
      | _ => false
      end
  | _ => false
  end.

(** The (label, page type) pairs of a component, a page and a document, in
    the order the extraction meets them. *)
Definition contributions_component (page_type component : pyval)
    : list (pyval * pyval) :=
  map (λ label, (label, page_type)) (issue_labels component).
Definition contributions_page (page : pyval) : list (pyval * pyval) :=
  flat_map (contributions_component (page_type_of page)) (components_of page).
Definition contributions (alert : pyval) : list (pyval * pyval) :=
  flat_map contributions_page (pages_of alert).

(** Recording one (label, page type) pair. *)
Abbreviation record_pair :=
  (λ (m : gmap hkey (gset hkey)) (lp : pyval * pyval), add_issue lp.1 lp.2 m).

(** [records m S]: the sets held by [m] are exactly the relation [S], and
    no label is mapped to an empty set. *)
Definition records (m : gmap hkey (gset hkey)) (S : hkey → hkey → Prop) : Prop :=
  (∀ l p, p ∈ default ∅ (m !! l) ↔ S l p) ∧
  (∀ l, is_Some (m !! l) ↔ ∃ p, S l p).

(** All component records of a target result have that shape. *)
Definition reachable_result (alert : pyval) : bool :=
  forallb (λ page, forallb reachable_component (components_of page))
          (pages_of alert).

(** Reading an extraction outcome: the page types recorded for a label (in
    the set's enumeration order), and the number of distinct labels. *)
Definition pages_for (r : result (gmap hkey (gset hkey))) (label : pyval)
    : option (list hkey) :=
  match r, py_hash label with
  | Ok m, Ok k => elements <$> m !! k
  | _, _ => None
  end.
Definition distinct_count (r : result (gmap hkey (gset hkey))) : option nat :=
  match r with Ok m => Some (size m) | Raise _ => None end.

End ResultDoc.
Export ResultDoc.

(** ** Parsed documents (the BeautifulSoup objects the scraper inspects) *)

Module Soup.

(** A parsed page. A tag carries its [class] attribute the way the parser
    stores it - the list of its whitespace-separated tokens, absent when the
    tag has no [class] - and its other attributes ([id], [data-testid],
    [data-test-id], ...) as single strings. [NString] is visible text;
    [NHidden] stands for the strings [get_text] leaves out (comments,
    script and style bodies, declarations). The document itself is the root
    tag. *)
Inductive node : Type :=
  | NString (s : pystr)
  | NHidden (s : pystr)
  | NTag (name : pystr) (class_ : option (list pystr))
         (attrs : list (pystr * pystr)) (children : list node).

Definition is_tag (n : node) : bool :=
  match n with NTag _ _ _ _ => true | _ => false end.

(** [tag.get('class')] *)
Definition node_class (n : node) : option (list pystr) :=
  match n with NTag _ c _ _ => c | _ => None end.

(** [tag.get(key)] for the single-valued attributes. *)
Fixpoint attr_lookup (key : pystr) (attrs : list (pystr * pystr)) : option pystr :=
  match attrs with
  | [] => None
  | (k, v) :: rest => if bool_decide (k = key) then Some v else attr_lookup key rest
  end.
Definition node_attr (n : node) (key : pystr) : option pystr :=
  match n with NTag _ _ attrs _ => attr_lookup key attrs | _ => None end.

(** [tag.descendants]: every node below the tag, in document order. *)
Fixpoint descendants (n : node) : list node :=
  match n with
  | NTag _ _ _ children => flat_map (λ c, c :: descendants c) children
  | _ => []
  end.

(** The strings [tag.get_text] joins: the visible text nodes below the tag,
    in document order. This is [get_text] on the tags the scraper searches
    text in, which are no [script], [style] or [template] tags; called on
    one of those three, [get_text] would return the tag's own body. *)
Fixpoint strings (n : node) : list pystr :=
  match n with
  | NString s => [s]
  | NHidden _ => []
  | NTag _ _ _ children => flat_map strings children
  end.

(** [tag.get_text(strip=True)]: each string stripped, the empty ones
    dropped, the rest concatenated. *)
Definition get_text_strip (n : node) : pystr :=
  concat (List.filter (λ s, negb (bool_decide (s = []))) (map strip (strings n))).

(** What a search compares an attribute with: one string, or a list of
    strings of which any one may match. *)
Inductive search : Type :=
  | SStr (s : pystr)
  | SList (l : list pystr).

(** [not match_against]: the test by which a search value that is false
    (the empty string, the empty list) matches the tags lacking the
    attribute, as BeautifulSoup does up to 4.12; the statements below are
    about search values that are not false. *)
Definition search_is_false (against : search) : bool :=
  match against with
  | SStr s => bool_decide (s = [])
  | SList l => match l with [] => true | _ => false end
  end.

(** One string value against a search value: equal to the string, or equal
    to some item of the list. *)
Definition matches_str (markup : pystr) (against : search) : bool :=
  match against with
  | SStr s => bool_decide (markup = s)
  | SList l => existsb (λ s, bool_decide (markup = s)) l
  end.

(** A single-valued attribute against a search value. A missing attribute
    matches only a false search value. *)
Definition attr_matches (markup : option pystr) (against : search) : bool :=
  match markup with
  | None => search_is_false against
  | Some s => matches_str s against
  end.

(** The multi-valued [class] attribute against a search value: some class
    token matches, or the tokens joined by one space match. *)
Definition class_matches (markup : option (list pystr)) (against : search) : bool :=
  match markup with
  | None => search_is_false against
  | Some tokens =>
      existsb (λ token, matches_str token against) tokens
      || matches_str (join (u " ") tokens) against
  end.

(** [root.find_all(class_=against)] *)
Definition find_all_class (root : node) (against : search) : list node :=
  List.filter (λ d, is_tag d && class_matches (node_class d) against)
              (descendants root).

(** [root.find(attrs={key: value})], [root.find(id=value)] *)
Definition find_attr (root : node) (key value : pystr) : option node :=
  head (List.filter (λ d, is_tag d && attr_matches (node_attr d key) (SStr value))
                    (descendants root)).

End Soup.
Export Soup.

(** ** scraper.py: the component matcher of [ComponentScraper] *)

Module Scraper.

(** One entry of [carousel_strategies] / [text_strategies]. *)
Record strategy : Type := {
  strategy_name : pystr;
  text_pattern : pystr;
  container_class : option pystr
}.

(** One entry of a page's [components] list. *)
Record component : Type := {
  name : pystr;
  identifier_type : pystr;
  identifier_value : pystr;
  carousel_strategies : option (list strategy);
  text_strategies : option (list strategy)
}.

(** Insertion-ordered dicts with [str] keys and values of one type. *)
Section OrderedDict.
Context {V : Type}.

Fixpoint od_lookup (k : pystr) (d : list (pystr * V)) : option V :=
  match d with
  | [] => None
  | (k', v) :: rest => if bool_decide (k' = k) then Some v else od_lookup k rest
  end.

(** [d[k]] *)
Definition od_getitem (k : pystr) (d : list (pystr * V)) : result V :=
  match od_lookup k d with Some v => Ok v | None => Raise KeyError end.

(** [d[k] = v]: an existing key keeps its position, a new one goes last. *)
Fixpoint od_set (k : pystr) (v : V) (d : list (pystr * V)) : list (pystr * V) :=
  match d with
  | [] => [(k, v)]
  | (k', v') :: rest =>
      if bool_decide (k' = k) then (k, v) :: rest else (k', v') :: od_set k v rest
  end.

(** [{key(s): v for s in xs}] *)
Definition od_comprehension {A} (key : A → pystr) (v : V) (xs : list A)
    : list (pystr * V) :=
  fold_left (λ d x, od_set (key x) v d) xs [].
End OrderedDict.

(** The three dicts [find_strategies_in_elements] builds and returns. For
    [strategies_details] the value kept is the [found_in] list. *)
Record strategy_outcome : Type := {
  strategies_found : list (pystr * bool);
  strategies_details : list (pystr * list pystr);
  potential_matches : list (pystr * list pystr)
}.

(** The details of a found component: the key under which the element
    labels go ([carousels] or [elements]), the labels, the strategy outcome. *)
Record component_details : Type := {
  labels_key : pystr;
  labels : list pystr;
  strategies : strategy_outcome
}.

(** What [check_component] returns. *)
Record match_result : Type := {
  result_name : pystr;
  found : bool;
  details : option component_details
}.

(** Lines printed for a human reader. *)
Inductive diagnostic : Type :=
  | StrategyNotFound (strategy_name : pystr)
  | IdNotFound (identifier_value : pystr).

(** [enumerate(xs)] counting from [start]. *)
Fixpoint enumerate_from {A} (start : nat) (xs : list A) : list (nat * A) :=
  match xs with
  | [] => []
  | x :: rest => (start, x) :: enumerate_from (S start) rest
  end.

(** [el.get('id') or f"{prefix}-{idx+1}"] *)
Definition element_label (prefix : pystr) (idx : nat) (el : node) : pystr :=
  match node_attr el (u "id") with
  | Some ((_ :: _) as i) => i
  | _ => prefix ++ u "-" ++ u (pretty (S idx))
  end.

(** [find_component_by_data_testid] *)
Definition find_component_by_data_testid (soup : node) (value : pystr) : bool :=
  match find_attr soup (u "data-testid") value with
  | Some _ => true
  | None =>
      match find_attr soup (u "data-test-id") value with
      | Some _ => true
      | None => false
      end
  end.

(** [find_elements_by_class] *)
Definition find_elements_by_class (soup : node) (value : pystr) : list node :=
  let classes := split value in
  find_all_class soup (SList classes).

(** [find_component_by_class] *)
Definition find_component_by_class (soup : node) (value : pystr) : bool :=
  match find_elements_by_class soup value with [] => false | _ => true end.

(** [self.find_component_by_id]: the class body defines [__init__],
    [_normalize_text], [_partial_match], [_init_browser], [_close_browser],
    [setup_navigation], [fetch_page], [_scroll_page],
    [find_component_by_data_testid], [find_component_by_class],
    [find_elements_by_class], [_check_component_by_identifier_type],
    [_build_component_details], [_extract_strategies],
    [find_strategies_in_elements], [check_component],
    [_log_component_not_found], [scrape_page], [generate_alerts],
    [_create_error_alert] and [_create_missing_component_alert], and
    [__init__] sets no attribute of that name, so the attribute lookup
    raises. *)
Definition self_find_component_by_id : result (node → pystr → bool) :=
  Raise AttributeError.

(** [_check_component_by_identifier_type]. In the [id] branch the lines
    after the attribute lookup are kept as written; they would run only if
    the lookup returned a method. *)
Definition _check_component_by_identifier_type (soup : node) (c : component)
    : result (bool * option (list node)) :=
  let identifier_type := identifier_type c in
  let identifier_value := identifier_value c in
  if bool_decide (identifier_type = u "data-testid")
     || bool_decide (identifier_type = u "data-test-id") then
    match find_attr soup identifier_type identifier_value with
    | Some element => Ok (true, Some [element])
    | None => Ok (false, None)
    end
  else if bool_decide (identifier_type = u "class") then
    let elements := find_elements_by_class soup identifier_value in
    Ok (match elements with [] => (false, None) | _ => (true, Some elements) end)
  else if bool_decide (identifier_type = u "id") then
    find_component_by_id ← self_find_component_by_id;
    let found : bool := find_component_by_id soup identifier_value in
    let element := if found then find_attr soup (u "id") identifier_value else None in
    Ok (found, if found then Some (option_list element) else None)
  else Ok (false, None).

Section WithNormalizer.
Variable nfkd : pystr → pystr.

(** The body of [for container_idx, container in enumerate(search_in):],
    with its [break]. *)
Fixpoint scan_containers (strat : strategy) (label : pystr)
    (st : strategy_outcome) (search_in : list node) : result strategy_outcome :=
  match search_in with
  | [] => Ok st
  | container :: rest =>
      let name := strategy_name strat in
      let container_text := get_text_strip container in
      normalized_container ← _normalize_text nfkd (PStr container_text);
      normalized_pattern ← _normalize_text nfkd (PStr (text_pattern strat));
      if str_contains normalized_pattern normalized_container then
        let found' := od_set name true (strategies_found st) in
        found_in ← od_getitem name (strategies_details st);
        Ok {| strategies_found := found';
              strategies_details :=
                od_set name (found_in ++ [label]) (strategies_details st);
              potential_matches := potential_matches st |}
      else
        candidates ← od_getitem name (potential_matches st);
        scan_containers strat label
          {| strategies_found := strategies_found st;
             strategies_details := strategies_details st;
             potential_matches :=
               od_set name (candidates ++ [container_text]) (potential_matches st) |}
          rest
  end.

(** [search_in]: the sub-elements of [el] with the strategy's
    [container_class] when it has a non-empty one, else [el] itself. *)
Definition search_scope (strat : strategy) (el : node) : list node :=
  match container_class strat with
  | Some ((_ :: _) as container_class) => find_all_class el (SStr container_class)
  | _ => [el]
  end.

(** The body of [for strat in strategies:] for one element. *)
Definition check_strategy (el : node) (label : pystr)
    (st : strategy_outcome) (strat : strategy) : result strategy_outcome :=
  let name := strategy_name strat in
  already ← od_getitem name (strategies_found st);
  if (already : bool) then Ok st
  else
    let search_in := search_scope strat el in
    scan_containers strat label st search_in.

(** The body of [for idx, el in enumerate(elements):] *)
Definition check_element (strategies : list strategy)
    (st : strategy_outcome) (idx_el : nat * node) : result strategy_outcome :=
  let label := element_label (u "el") idx_el.1 idx_el.2 in
  for_each (check_strategy idx_el.2 label) st strategies.

(** [find_strategies_in_elements], with the lines it prints. *)
Definition find_strategies_in_elements (elements : list node)
    (strategies : list strategy) : result (strategy_outcome * list diagnostic) :=
  let st0 :=
    {| strategies_found := od_comprehension strategy_name false strategies;
       strategies_details := od_comprehension strategy_name [] strategies;
       potential_matches := od_comprehension strategy_name [] strategies |} in
  st ← for_each (check_element strategies) st0 (enumerate_from 0 elements);
  let printed :=
    map (λ kv, StrategyNotFound kv.1)
        (List.filter (λ kv, negb kv.2) (strategies_found st)) in
  Ok (st, printed).

(** [_extract_strategies] *)
Definition _extract_strategies (elements : list node) (strategies : list strategy)
    : result (strategy_outcome * list diagnostic) :=
  find_strategies_in_elements elements strategies.

(** [_build_component_details] *)
Definition _build_component_details (c : component) (elements : option (list node))
    : result (option component_details * list diagnostic) :=
  match elements with
  | None | Some [] => Ok (None, [])
  | Some elements =>
      match carousel_strategies c, text_strategies c with
      | Some strategies, _ =>
          '(strategy_result, printed) ← _extract_strategies elements strategies;
          Ok (Some {| labels_key := u "carousels";
                      labels := map (λ ie, element_label (u "carousel") ie.1 ie.2)
                                    (enumerate_from 0 elements);
                      strategies := strategy_result |}, printed)
      | None, Some strategies =>
          '(strategy_result, printed) ← _extract_strategies elements strategies;
          Ok (Some {| labels_key := u "elements";
                      labels := map (λ ie, element_label (u "el") ie.1 ie.2)
                                    (enumerate_from 0 elements);
                      strategies := strategy_result |}, printed)
      | None, None => Ok (None, [])
      end
  end.

(** [_log_component_not_found] *)
Definition _log_component_not_found (c : component) : list diagnostic :=
  if bool_decide (identifier_type c = u "id")
  then [IdNotFound (identifier_value c)]
  else [].

(** [check_component], with the lines it prints. *)
Definition check_component (soup : node) (c : component)
    : result (match_result * list diagnostic) :=
  '(found, elements) ← _check_component_by_identifier_type soup c;
  if (found : bool) then
    '(details, printed) ← _build_component_details c elements;
    Ok ({| result_name := name c; found := found; details := details |}, printed)
  else
    Ok ({| result_name := name c; found := found; details := None |},
        _log_component_not_found c).
(** *** Vocabulary for statements about the strategy search *)

(** The strategy's pattern is a partial match of the container's text. *)
Definition container_has_pattern (strat : strategy) (container : node) : bool :=
  match _partial_match nfkd (PStr (get_text_strip container))
                       (PStr (text_pattern strat)) with
  | Ok b => b
  | Raise _ => false
  end.

(** The pattern occurs in the element: in some container of its scope. *)
Definition pattern_occurs_in (strat : strategy) (el : node) : bool :=
  existsb (container_has_pattern strat) (search_scope strat el).

(** The containers of a scope that come before the first one holding the
    pattern (all of them when none does). *)
Fixpoint before_first_match (strat : strategy) (scope : list node) : list node :=
  match scope with
  | [] => []
  | container :: rest =>
      if container_has_pattern strat container then []
      else container :: before_first_match strat rest
  end.

(** The candidate texts one element adds for a strategy being searched. *)
Definition candidate_texts (strat : strategy) (el : node) : list pystr :=
  map get_text_strip (before_first_match strat (search_scope strat el)).
End WithNormalizer.

(** The entries of the three dicts under one strategy name. *)
Definition entry_found (o : strategy_outcome) (name : pystr) : option bool :=
  od_lookup name (strategies_found o).
Definition entry_found_in (o : strategy_outcome) (name : pystr) : option (list pystr) :=
  od_lookup name (strategies_details o).
Definition entry_candidates (o : strategy_outcome) (name : pystr) : option (list pystr) :=
  od_lookup name (potential_matches o).

(** Every name of [names] has an entry in each of the three dicts. *)
Definition keys_ok (names : list pystr) (o : strategy_outcome) : Prop :=
  ∀ n, n ∈ names →
    is_Some (entry_found o n) ∧ is_Some (entry_found_in o n) ∧
    is_Some (entry_candidates o n).

(** The entries under [name] are consistent: the strategy is unsatisfied
    with no label, or satisfied with exactly one. *)
Definition entry_consistent (o : strategy_outcome) (name : pystr) : Prop :=
  is_Some (entry_candidates o name) ∧
  ((entry_found o name = Some false ∧ entry_found_in o name = Some []) ∨
   (entry_found o name = Some true ∧ ∃ label, entry_found_in o name = Some [label])).

(** Two outcomes hold the same entries under [name]. *)
Definition same_entries (name : pystr) (o o' : strategy_outcome) : Prop :=
  entry_found o' name = entry_found o name ∧
  entry_found_in o' name = entry_found_in o name ∧
  entry_candidates o' name = entry_candidates o name.

(** The dict a [match_result] is in the page result. *)
Definition bool_dict_to_py (d : list (pystr * bool)) : pyval :=
  PDict (map (λ kv, (kv.1, PBool kv.2)) d).
Definition str_list_to_py (l : list pystr) : pyval := PList (map PStr l).
Definition strategy_outcome_to_py (o : strategy_outcome) : pyval :=
  PDict [(u "strategies_found", bool_dict_to_py (strategies_found o));
         (u "strategies_details",
          PDict (map (λ kv, (kv.1, PDict [(u "found_in", str_list_to_py kv.2)]))
                     (strategies_details o)));
         (u "potential_matches",
          PDict (map (λ kv, (kv.1, str_list_to_py kv.2)) (potential_matches o)))].
Definition component_details_to_py (d : component_details) : pyval :=
  PDict [(labels_key d, str_list_to_py (labels d));
         (u "strategies", strategy_outcome_to_py (strategies d))].
Definition match_result_to_py (r : match_result) : pyval :=
  PDict [(u "name", PStr (result_name r));
         (u "found", PBool (found r));
         (u "details", match details r with
                       | Some d => component_details_to_py d
                       | None => PNone
                       end)].

(** [scrape_page] from the point where [fetch_page] has returned the
    document [soup]: every configured component is checked, and the page
    result is assembled. [timestamp] is the clock reading. *)
Definition scrape_fetched_page (nfkd : pystr → pystr) (soup : node)
    (country page_type url timestamp : pystr) (components : list component)
    : result pyval :=
  results ← for_each (λ results c,
                        '(r, _) ← check_component nfkd soup c;
                        Ok (results ++ [r]))
                     [] components;
  Ok (PDict [(u "country", PStr country);
             (u "page_type", PStr page_type);
             (u "url", PStr url);
             (u "timestamp", PStr timestamp);
             (u "components", PList (map match_result_to_py results))]).

End Scraper.

(** ** scraper.py: alerts for a scraped page *)

Module Alerts.

(** What [scrape_page] returns: the error form [{'error', 'timestamp'}], or
    the page result with the records of its components. *)
Inductive page_result : Type :=
  | PageError (error timestamp : pystr)
  | PageResult (country page_type url timestamp : pystr)
               (components : list Scraper.match_result).

(** The dict of a page result. *)
Definition page_result_to_py (r : page_result) : pyval :=
  match r with
  | PageError error timestamp =>
      PDict [(u "error", PStr error); (u "timestamp", PStr timestamp)]
  | PageResult country page_type url timestamp components =>
      PDict [(u "country", PStr country);
             (u "page_type", PStr page_type);
             (u "url", PStr url);
             (u "timestamp", PStr timestamp);
             (u "components", PList (map Scraper.match_result_to_py components))]
  end.

(** An alert. *)
Record alert : Type := {
  date : pystr;
  country : pystr;
  page_type : pystr;
  component : pystr;
  status : pystr;
  message : pystr
}.

(** [c[:80] + ('...' if len(c) > 80 else '')] *)
Definition truncate_candidate (c : pystr) : pystr :=
  take 80 c ++ (if (80 <? length c)%nat then u "..." else []).

(** ["; ".join([... for c in candidates[:3]])] *)
Definition sample_of (candidates : list pystr) : pystr :=
  join (u "; ") (map truncate_candidate (take 3 candidates)).

(** [_create_error_alert]; the error form has neither [country] nor
    [page_type], so both read as ['Unknown']. *)
Definition _create_error_alert (error timestamp : pystr) : list alert :=
  [{| date := timestamp;
      country := u "Unknown";
      page_type := u "Unknown";
      component := u "N/A";
      status := u "ERROR";
      message := error |}].

(** The alert of one entry of [strategies_found.items()], none when the
    strategy was found. *)
Definition strategy_alert (country page_type timestamp name : pystr)
    (potential_matches : list (pystr * list pystr))
    (item : pystr * bool) : list alert :=
  let '(strategy_name, found) := item in
  if found then []
  else
    let candidates := default [] (Scraper.od_lookup strategy_name potential_matches) in
    let message :=
      match candidates with
      | _ :: _ =>
          u "Se encontraron t" ++ [237] ++ u "tulos diferentes para '" ++ strategy_name
          ++ u "': " ++ sample_of candidates ++ u ". "
          ++ u "Revisar posible cambio de nombre."
      | [] =>
          u "Estrategia '" ++ strategy_name ++ u "' no encontrada en componente '"
          ++ name ++ u "'"
      end in
    [{| date := timestamp;
        country := country;
        page_type := page_type;
        component := name ++ u " - " ++ strategy_name;
        status := u "MISSING_COMPONENT";
        message := message |}].

(** [_create_missing_component_alert]: one alert for an absent component;
    for a present one with details, one alert per strategy not found. *)
Definition _create_missing_component_alert (country page_type timestamp : pystr)
    (c : Scraper.match_result) : list alert :=
  if negb (Scraper.found c) then
    [{| date := timestamp;
        country := country;
        page_type := page_type;
        component := Scraper.result_name c;
        status := u "MISSING_COMPONENT";
        message := u "Componente '" ++ Scraper.result_name c
                   ++ u "' no encontrado en " ++ page_type |}]
  else
    match Scraper.details c with
    | Some d =>
        let strategies := Scraper.strategies d in
        flat_map (strategy_alert country page_type timestamp (Scraper.result_name c)
                    (Scraper.potential_matches strategies))
                 (Scraper.strategies_found strategies)
    | None => []
    end.

(** [generate_alerts] *)
Definition generate_alerts (scrape_results : page_result) : list alert :=
  match scrape_results with
  | PageError error timestamp => _create_error_alert error timestamp
  | PageResult country page_type url timestamp components =>
      flat_map (_create_missing_component_alert country page_type timestamp) components
  end.

(** The records [check_component] builds: details only for a found
    component, under the key [carousels] or [elements]. *)
Definition consistent_result (r : Scraper.match_result) : bool :=
  match Scraper.details r with
  | Some d => Scraper.found r
              && negb (bool_decide (Scraper.labels_key d = u "strategies"))
  | None => true
  end.

Definition consistent_page (r : page_result) : bool :=
  match r with
  | PageError _ _ => true
  | PageResult _ _ _ _ components => forallb consistent_result components
  end.

(** The alerts the job of a target collects for a page: none for the error
    form, for which it does not call [generate_alerts]. *)
Definition page_alert_count (r : page_result) : nat :=
  match r with
  | PageError _ _ => 0
  | PageResult _ _ _ _ _ => length (generate_alerts r)
  end.

(** A target result with the given pages. *)
Definition target_result_doc (country status timestamp : pystr)
    (pages : list page_result) : pyval :=
  PDict [(u "country", PStr country);
         (u "status", PStr status);
         (u "alerts_count", PInt (Z.of_nat (list_sum (map page_alert_count pages))));
         (u "pages", PList (map page_result_to_py pages));
         (u "timestamp", PStr timestamp)].

(** The dict of an alert, its keys in the order of the dict display. *)
Definition alert_to_py (a : alert) : list (pystr * pyval) :=
  [(u "date", PStr (date a));
   (u "country", PStr (country a));
   (u "page_type", PStr (page_type a));
   (u "component", PStr (component a));
   (u "status", PStr (status a));
   (u "message", PStr (message a))].

End Alerts.

(** ** src/orchestrator/scraper_orchestrator.py: [ScraperOrchestrator] *)

Module Orchestrator.

(** A target result, the dict a job returns: the success form carries
    [alerts_count] and [pages], the failure form carries [error]. *)
Record target_result : Type := {
  country : pystr;
  status : pystr;
  alerts_count : option nat;
  pages : option (list (list (pystr * pyval)));
  error : option pystr;
  timestamp : pystr
}.

(** The run report. [execution_time], a rendering of the elapsed wall-clock
    time, is left out. *)
Record report : Type := {
  start_time : pystr;
  end_time : pystr;
  total_countries : nat;
  successful : nat;
  failed : nat;
  total_alerts : nat;
  results : list target_result
}.

(** What lies outside this code - browser sessions, network, the alert
    store, the clock - is a state [world] that its operations read and
    change. [exn] is what they raise, any instance of [BaseException];
    [is_exception e] is [isinstance(e, Exception)], false for the
    exceptions that derive from [BaseException] only ([SystemExit],
    [KeyboardInterrupt], [GeneratorExit]); [str_exn e] is [str(e)], and
    [of_pyerr] makes the exception object of a built-in error raised by the
    job's own statements, an instance of [Exception]. A call into a
    collaborator returns or raises. [print] and the logger are taken to
    complete without effect. *)
Record collaborators : Type := {
  world : Type;
  exn : Type;
  scraper : Type;
  is_exception : exn → bool;
  str_exn : exn → pystr;
  of_pyerr : pyerr → exn;
  of_pyerr_is_exception : ∀ e, is_exception (of_pyerr e) = true;
  (** [ComponentScraper(config_path)] and the methods of the scraper object *)
  new_scraper : pystr → world → world * (exn + scraper);
  fetch_page : scraper → pyval → world → world * (exn + unit);
  scrape_page : scraper → pystr → pystr → pyval →
                world → world * (exn + list (pystr * pyval));
  generate_alerts : scraper → list (pystr * pyval) →
                    world → world * (exn + list (list (pystr * pyval)));
  close_browser : scraper → world → world * (exn + unit);
  (** [self.storage.add_alerts], [self.storage.load_alerts] *)
  add_alerts : list (list (pystr * pyval)) → world → world * (exn + unit);
  load_alerts : world → world * (exn + list (list (pystr * pyval)));
  (** [datetime.now().isoformat()] *)
  now : world → world * pystr
}.

(** The orchestrator's fields set by [__init__]. *)
Record orchestrator : Type := {
  config : list (pystr * pyval);
  config_path : pystr;
  max_workers : Z;
  storage_available : bool
}.

(** [self.max_workers = max_workers or len(self.config)] in [__init__]:
    an argument that is [None] or 0 gives the number of targets. *)
Definition init_max_workers (max_workers : option Z)
    (config : list (pystr * pyval)) : Z :=
  match max_workers with
  | Some n => if (n =? 0)%Z then Z.of_nat (length config) else n
  | None => Z.of_nat (length config)
  end.

Section Job.
Context (C : collaborators) (self : orchestrator).

(** One call into a collaborator. *)
Definition call (A : Type) : Type := world C → world C * (exn C + A).

(** The state a job runs in: the world, the orchestrator's accumulators
    [self.results] and [self.alerts], and the job's two local lists. *)
Record state : Type := {
  the_world : world C;
  self_results : list target_result;
  self_alerts : list (list (pystr * pyval));
  results_by_page : list (list (pystr * pyval));
  country_alerts : list (list (pystr * pyval))
}.

(** Statements: they change the state and complete normally or raise. *)
Definition M (A : Type) : Type := state → state * (exn C + A).

Definition ret {A} (a : A) : M A := λ st, (st, inr a).
Definition bind {A B} (m : M A) (k : A → M B) : M B :=
  λ st, match m st with
        | (st', inr a) => k a st'
        | (st', inl e) => (st', inl e)
        end.
Definition raise {A} (e : exn C) : M A := λ st, (st, inl e).

(** [try: body except Exception as e: handler(e)]: the handler takes the
    instances of [Exception]; what derives from [BaseException] only goes
    on unwinding. *)
Definition try_except {A} (body : M A) (handler : exn C → M A) : M A :=
  λ st, match body st with
        | (st', inr a) => (st', inr a)
        | (st', inl e) => if is_exception C e then handler e st' else (st', inl e)
        end.

(** A collaborator call that raises instances of [Exception] only. *)
Definition only_exceptions {A} (c : call A) : Prop :=
  ∀ w w' e, c w = (w', inl e) → is_exception C e = true.

(** An operation of the job on plain values. *)
Definition lift {A} (r : result A) : M A :=
  match r with
  | Ok a => ret a
  | Raise e => raise (of_pyerr C e)
  end.

(** A collaborator call: only the world changes. *)
Definition perform {A} (c : call A) : M A :=
  λ st, let '(w, r) := c (the_world st) in
        ({| the_world := w;
            self_results := self_results st;
            self_alerts := self_alerts st;
            results_by_page := results_by_page st;
            country_alerts := country_alerts st |}, r).

Definition read_clock : M pystr :=
  λ st, let '(w, t) := now C (the_world st) in
        ({| the_world := w;
            self_results := self_results st;
            self_alerts := self_alerts st;
            results_by_page := results_by_page st;
            country_alerts := country_alerts st |}, inr t).

(** [results_by_page = []; country_alerts = []] *)
Definition init_locals : M unit :=
  λ st, ({| the_world := the_world st;
            self_results := self_results st;
            self_alerts := self_alerts st;
            results_by_page := [];
            country_alerts := [] |}, inr ()).

(** [results_by_page.append(result)] *)
Definition append_page_result (r : list (pystr * pyval)) : M unit :=
  λ st, ({| the_world := the_world st;
            self_results := self_results st;
            self_alerts := self_alerts st;
            results_by_page := results_by_page st ++ [r];
            country_alerts := country_alerts st |}, inr ()).

(** [country_alerts.append(alert)] *)
Definition append_country_alert (a : list (pystr * pyval)) : M unit :=
  λ st, ({| the_world := the_world st;
            self_results := self_results st;
            self_alerts := self_alerts st;
            results_by_page := results_by_page st;
            country_alerts := country_alerts st ++ [a] |}, inr ()).

(** [self.alerts.extend(country_alerts)] *)
Definition extend_self_alerts : M unit :=
  λ st, ({| the_world := the_world st;
            self_results := self_results st;
            self_alerts := self_alerts st ++ country_alerts st;
            results_by_page := results_by_page st;
            country_alerts := country_alerts st |}, inr ()).

(** [self.results.append(result)] *)
Definition append_result (r : target_result) : M unit :=
  λ st, ({| the_world := the_world st;
            self_results := self_results st ++ [r];
            self_alerts := self_alerts st;
            results_by_page := results_by_page st;
            country_alerts := country_alerts st |}, inr ()).

Definition get_country_alerts : M (list (list (pystr * pyval))) :=
  λ st, (st, inr (country_alerts st)).
Definition get_results_by_page : M (list (list (pystr * pyval))) :=
  λ st, (st, inr (results_by_page st)).

(** [for x in xs: body(x)] *)
Fixpoint for_loop {A} (body : A → M unit) (xs : list A) : M unit :=
  match xs with
  | [] => ret ()
  | x :: rest => bind (body x) (λ _, for_loop body rest)
  end.

(** The body of [for alert in page_alerts:] *)
Definition collect_alert (alert : list (pystr * pyval)) : M unit :=
  bind (if dict_has (u "status") alert then ret alert
        else ret (alert ++ [(u "status", PStr (u "MISSING_COMPONENT"))]))
  (λ alert,
  bind (if dict_has (u "timestamp") alert then ret alert
        else bind read_clock (λ t, ret (alert ++ [(u "timestamp", PStr t)])))
  (λ alert,
  append_country_alert alert)).

(** The body of [for page_type, page_config in country_config.items():] *)
Definition scrape_page_type (sc : scraper C) (country : pystr)
    (item : pystr * pyval) : M unit :=
  let '(page_type, page_config) := item in
  if bool_decide (page_type = u "setup_product_url") then ret ()
  else
    bind (lift (py_get page_config (u "url_example") PNone)) (λ url,
    if negb (truthy url) then ret ()
    else
      try_except
        (bind (perform (fetch_page C sc url)) (λ _,
         bind (perform (scrape_page C sc country page_type url)) (λ result,
         bind (append_page_result result) (λ _,
         if truthy (PDict result) && negb (dict_has (u "error") result) then
           try_except
             (bind (perform (generate_alerts C sc result)) (λ page_alerts,
              for_loop collect_alert page_alerts))
             (λ _, ret ())
         else ret ()))))
        (λ _, ret ())).

(** The block that saves the alerts of the job when there are any and the
    store is available; a failure of the store is logged and dropped. *)
Definition save_alerts (alerts : list (list (pystr * pyval))) : M unit :=
  match alerts with
  | [] => ret ()
  | _ => if storage_available self
         then try_except (perform (add_alerts C alerts)) (λ _, ret ())
         else ret ()
  end.

(** The statements of [_scrape_country] inside its [try]. *)
Definition job_body (country : pystr) : M target_result :=
  bind (perform (new_scraper C (config_path self))) (λ sc,
  let country_config := dict_get (config self) country (PDict []) in
  bind init_locals (λ _,
  bind (lift (py_items country_config)) (λ items,
  bind (for_loop (scrape_page_type sc country) items) (λ _,
  bind get_country_alerts (λ alerts,
  bind (save_alerts alerts) (λ _,
  bind extend_self_alerts (λ _,
  bind (perform (close_browser C sc)) (λ _,
  bind get_country_alerts (λ alerts,
  bind get_results_by_page (λ pages,
  bind read_clock (λ t,
  ret {| country := country;
         status := u "success";
         alerts_count := Some (length alerts);
         pages := Some pages;
         error := None;
         timestamp := t |}))))))))))).

(** The result built by the handlers: [{'country', 'status': 'failed',
    'error': str(e), 'timestamp'}]. *)
Definition failed_result (country : pystr) (e : exn C) : M target_result :=
  bind read_clock (λ t,
  ret {| country := country;
         status := u "failed";
         alerts_count := None;
         pages := None;
         error := Some (str_exn C e);
         timestamp := t |}).

(** [_scrape_country] *)
Definition _scrape_country (country : pystr) : M target_result :=
  try_except (job_body country) (failed_result country).

(** The body of [for p_result in as_completed(promise_results):] for the
    job of [country]: the job has run; its outcome is collected. *)
Definition collect_job (country : pystr) : M unit :=
  try_except
    (bind (_scrape_country country) append_result)
    (λ e, bind (failed_result country e) append_result).

(** [status == s] counted over the results. *)
Definition count_status (s : pystr) (rs : list target_result) : nat :=
  length (List.filter (λ r, bool_decide (status r = s)) rs).

(** The sum of the results' [alerts_count], 0 where it is absent. *)
Definition sum_alerts_count (rs : list target_result) : nat :=
  foldr (λ r acc, default 0%nat (alerts_count r) + acc)%nat 0%nat rs.

(** [ThreadPoolExecutor(max_workers=self.max_workers)] raises [ValueError]
    unless the number of workers is positive. *)
Definition new_executor : M unit :=
  if (max_workers self <=? 0)%Z then raise (of_pyerr C ValueError) else ret ().

(** Leaving the [with] block on an exception: the executor's
    [shutdown(wait=True)] lets the jobs not yet collected run to their end;
    what they return or raise stays in their futures. *)
Fixpoint await_jobs (countries : list pystr) : M unit :=
  match countries with
  | [] => ret ()
  | country :: rest => λ st, await_jobs rest (_scrape_country country st).1
  end.

(** [for p_result in as_completed(promise_results): ...] inside the [with]
    block: the jobs are collected in the order they complete; an exception
    the loop body does not handle leaves the block. *)
Fixpoint collect_jobs (order : list pystr) : M unit :=
  match order with
  | [] => ret ()
  | country :: rest =>
      λ st, match collect_job country st with
            | (st', inr _) => collect_jobs rest st'
            | (st', inl e) => ((await_jobs rest st').1, inl e)
            end
  end.

(** The store is read by [_print_summary] when it is available; a failure
    is passed over. *)
Definition print_summary : M unit :=
  if storage_available self
  then try_except (bind (perform (load_alerts C)) (λ _, ret ())) (λ _, ret ())
  else ret ().

(** [run]. The pool runs one job per key of the configuration; [order] is
    the order in which the jobs complete, and each job is taken to run
    without interleaving with the others. *)
Definition run (order : list pystr) : M report :=
  bind read_clock (λ start_time,
  bind new_executor (λ _,
  bind (collect_jobs order) (λ _,
  bind read_clock (λ end_time,
  bind (λ st, (st, inr {| start_time := start_time;
                          end_time := end_time;
                          total_countries := length (config self);
                          successful := count_status (u "success") (self_results st);
                          failed := count_status (u "failed") (self_results st);
                          total_alerts := length (self_alerts st);
                          results := self_results st |})) (λ report,
  bind print_summary (λ _,
  ret report)))))).

(** The state [__init__] leaves: both accumulators empty. *)
Definition initial_state (w : world C) : state :=
  {| the_world := w;
     self_results := [];
     self_alerts := [];
     results_by_page := [];
     country_alerts := [] |}.
End Job.

Arguments the_world {C} _.
Arguments self_results {C} _.
Arguments self_alerts {C} _.
Arguments results_by_page {C} _.
Arguments country_alerts {C} _.
Arguments ret {C A} _.
Arguments bind {C A B} _ _.
Arguments raise {C A} _.
Arguments try_except {C A} _ _.
Arguments lift {C A} _.
Arguments perform {C A} _.
Arguments for_loop {C A} _ _.

(** A statement that leaves the orchestrator's accumulators as they are. *)
Definition keeps_accumulators {C A} (m : M C A) : Prop :=
  ∀ st st' r, m st = (st', r) →
    self_alerts st' = self_alerts st ∧ self_results st' = self_results st.

(** Releasing the browser of a job does not fail. *)
Definition release_never_fails (C : collaborators) : Prop :=
  ∀ sc w, ∃ w', close_browser C sc w = (w', inr ()).

(** Loading a page, scraping it and generating its alerts raise instances
    of [Exception] only; so does saving alerts; so do all the calls of a
    job; so do all the calls of a run. *)
Definition pages_raise_only_exceptions (C : collaborators) : Prop :=
  (∀ sc url, only_exceptions C (fetch_page C sc url)) ∧
  (∀ sc country page_type url,
     only_exceptions C (scrape_page C sc country page_type url)) ∧
  (∀ sc result, only_exceptions C (generate_alerts C sc result)).
Definition store_raises_only_exceptions (C : collaborators) : Prop :=
  ∀ alerts, only_exceptions C (add_alerts C alerts).
Definition job_raises_only_exceptions (C : collaborators) : Prop :=
  (∀ config_path, only_exceptions C (new_scraper C config_path)) ∧
  pages_raise_only_exceptions C ∧
  store_raises_only_exceptions C ∧
  (∀ sc, only_exceptions C (close_browser C sc)).
Definition raises_only_exceptions (C : collaborators) : Prop :=
  job_raises_only_exceptions C ∧ only_exceptions C (load_alerts C).

(** An alert that carries the two keys the job makes sure of. *)
Definition stamped (alert : list (pystr * pyval)) : bool :=
  dict_has (u "status") alert && dict_has (u "timestamp") alert.

(** An entry of a target's configuration the page loop can handle: the
    special key, or a page whose configuration is an object. *)
Definition page_config_ok (item : pystr * pyval) : bool :=
  bool_decide (item.1 = u "setup_product_url") || isinstance_dict item.2.

(** What one pass of the page loop may do to the state of the job: the
    accumulators stay, at most [n] page results and some alerts carrying
    both keys are appended to the job's lists. *)
Definition job_progress {C} (n : nat) (st st' : state C) : Prop :=
  self_results st' = self_results st ∧
  self_alerts st' = self_alerts st ∧
  (∃ ps, results_by_page st' = results_by_page st ++ ps ∧ (length ps ≤ n)%nat) ∧
  (∃ als, country_alerts st' = country_alerts st ++ als ∧
          Forall (λ a, stamped a = true) als).

(** The dict a job returns, its keys in the order of the dict display. *)
Definition target_result_to_py (r : target_result) : pyval :=
  PDict ([(u "country", PStr (country r)); (u "status", PStr (status r))]
         ++ match alerts_count r with
            | Some n => [(u "alerts_count", PInt (Z.of_nat n))]
            | None => []
            end
         ++ match pages r with
            | Some ps => [(u "pages", PList (map PDict ps))]
            | None => []
            end
         ++ match error r with
            | Some e => [(u "error", PStr e)]
            | None => []
            end
         ++ [(u "timestamp", PStr (timestamp r))]).

End Orchestrator.

(** ** services/report_service.py *)

Module ReportService.

(** [v[k]] with a [str] key: a dict yields the item or raises [KeyError];
    on the other objects of a document the subscript raises [TypeError]. *)
Definition py_getitem (v : pyval) (k : pystr) : result pyval :=
  match v with
  | PDict d => match dict_lookup k d with
               | Some x => Ok x
               | None => Raise KeyError
               end
  | _ => Raise TypeError
  end.

(** The dict display of the comprehension in [get_latest_report]; its
    values are evaluated from left to right. *)
Definition country_summary (country : pyval) : result pyval :=
  c ← py_getitem country (u "country");
  a ← py_getitem country (u "alerts_count");
  s ← py_getitem country (u "status");
  t ← py_getitem country (u "timestamp");
  Ok (PDict [(u "country", c); (u "total_alerts", a);
             (u "status", s); (u "timestamp", t)]).

(** The value [get_latest_report] assigns to [latest_result['results']]:
    [[{...} for country in latest_result.get('results', [])]]. *)
Definition results_summary (latest_result : pyval) : result (list pyval) :=
  results ← py_get latest_result (u "results") (PList []);
  results ← py_iter results;
  for_each (λ acc country, x ← country_summary country; Ok (acc ++ [x]))
           [] results.

End ReportService.

(** ** services/scraper_service.py *)

Module ScraperService.
Import Scraper.

(** What [run_scraper] calls: the orchestrator class it is given and the
    clock. [construct] is [orchestrator_class(config_path=..., mongo_uri=...,
    headless=True)], [run_orchestrator] the object's [run]; both return or
    raise some [e], any instance of [BaseException]. [is_exception e] is
    [isinstance(e, Exception)], [str_exn e] is [str(e)], and [of_pyerr]
    makes the exception object of a built-in error, an instance of
    [Exception]. *)
Record environment : Type := {
  world : Type;
  exn : Type;
  orchestrator_object : Type;
  is_exception : exn → bool;
  str_exn : exn → pystr;
  of_pyerr : pyerr → exn;
  of_pyerr_is_exception : ∀ e, is_exception (of_pyerr e) = true;
  construct : pystr → pystr → world → world * (exn + orchestrator_object);
  run_orchestrator : orchestrator_object → world → world * (exn + pyval);
  now : world → world * pystr
}.

Section Service.
Context (E : environment).

(** The statements inside the [try] of [run_scraper]. *)
Definition run_scraper_body (config_path mongo_uri : pystr)
    (scraper_state : list (pystr * pyval)) (w : world E)
    : list (pystr * pyval) * world E * (exn E + pyval) :=
  match construct E config_path mongo_uri w with
  | (w, inl e) => (scraper_state, w, inl e)
  | (w, inr orchestrator) =>
      match run_orchestrator E orchestrator w with
      | (w, inl e) => (scraper_state, w, inl e)
      | (w, inr report) =>
          let '(w, t) := now E w in
          let scraper_state := od_set (u "end_time") (PStr t) scraper_state in
          let scraper_state := od_set (u "results") report scraper_state in
          match py_get report (u "total_alerts") (PInt 0) with
          | Ok n => (od_set (u "alerts_count") n scraper_state, w, inr report)
          | Raise pe => (scraper_state, w, inl (of_pyerr E pe))
          end
      end
  end.

(** [run_scraper]: the shared state dict is written in place; the outcome
    is the report, or what was raised: an instance of [Exception] goes
    through the handler, which records it and raises it again; anything
    else passes the handler by. The [finally] clause runs in every case. *)
Definition run_scraper (config_path mongo_uri : pystr)
    (scraper_state : list (pystr * pyval)) (w : world E)
    : list (pystr * pyval) * world E * (exn E + pyval) :=
  let scraper_state := od_set (u "is_running") (PBool true) scraper_state in
  let '(w, t) := now E w in
  let scraper_state := od_set (u "start_time") (PStr t) scraper_state in
  let scraper_state := od_set (u "error") PNone scraper_state in
  let '(scraper_state, w, outcome) :=
    match run_scraper_body config_path mongo_uri scraper_state w with
    | (scraper_state, w, inr report) => (scraper_state, w, inr report)
    | (scraper_state, w, inl e) =>
        if is_exception E e then
          let scraper_state :=
            od_set (u "error") (PStr (str_exn E e)) scraper_state in
          let '(w, t) := now E w in
          (od_set (u "end_time") (PStr t) scraper_state, w, inl e)
        else (scraper_state, w, inl e)
    end in
  (od_set (u "is_running") (PBool false) scraper_state, w, outcome).

End Service.

(** [get_scraper_status]; the items of the dict display are evaluated in
    order, each subscript raising [KeyError] on a missing key. *)
Definition get_scraper_status (scraper_state : list (pystr * pyval))
    : result (list (pystr * pyval)) :=
  is_running ← od_getitem (u "is_running") scraper_state;
  is_running' ← od_getitem (u "is_running") scraper_state;
  let status := if truthy is_running' then u "running" else u "idle" in
  start_time ← od_getitem (u "start_time") scraper_state;
  end_time ← od_getitem (u "end_time") scraper_state;
  alerts_count ← od_getitem (u "alerts_count") scraper_state;
  error ← od_getitem (u "error") scraper_state;
  results ← od_getitem (u "results") scraper_state;
  Ok [(u "is_running", is_running);
      (u "status", PStr status);
      (u "start_time", start_time);
      (u "end_time", end_time);
      (u "alerts_count", alerts_count);
      (u "error", error);
      (u "results", results)].

(** The six keys the application creates the state with. *)
Definition state_keys : list pystr :=
  [u "is_running"; u "start_time"; u "end_time"; u "results";
   u "alerts_count"; u "error"].

End ScraperService.

(** ** src/services/teams_service.py: [generate_teams_message], its count *)

Module TeamsReport.

(** The first loop of [generate_teams_message]: the results whose digest
    is not empty, each with its digest, and the sum of the digests' sizes
    ([results_with_components] and [total_distinct_components]). *)
Definition results_with_components (filtered_results : list pyval)
    : result (list (pyval * gmap hkey (gset hkey)) * nat) :=
  for_each (λ acc r,
              components_issues ← TeamsService.extract_components_issues r;
              if (0 <? size components_issues)%nat
              then Ok (acc.1 ++ [(r, components_issues)],
                       (acc.2 + size components_issues)%nat)
              else Ok acc)
           ([], 0%nat) filtered_results.

(** Whether the function returns its no-alerts text:
    [total_distinct_components == 0]. *)
Definition says_no_alerts (filtered_results : list pyval) : result bool :=
  '(_, total) ← results_with_components filtered_results;
  Ok (total =? 0)%nat.

(** A target given by its country, status, timestamp and page results; the
    result its job returns, and the alerts the job counted. *)
Definition target_doc (t : pystr * pystr * pystr * list Alerts.page_result) : pyval :=
  Alerts.target_result_doc t.1.1.1 t.1.1.2 t.1.2 t.2.
Definition target_alerts (t : pystr * pystr * pystr * list Alerts.page_result) : nat :=
  list_sum (map Alerts.page_alert_count t.2).

End TeamsReport.

(** ** Sample documents *)

Module Samples.

(** The target result of the repository's quick test: [Cross Sell] absent
    on [PDP]; on [HOME] a present component whose two strategies fail. *)
Definition fixture : pyval :=
  PDict [(u "country", PStr (u "CL")); (u "status", PStr (u "success"));
         (u "alerts_count", PInt 3);
         (u "pages", PList [
            PDict [(u "page_type", PStr (u "PDP"));
                   (u "components", PList [
                      PDict [(u "name", PStr (u "Cross Sell"));
                             (u "found", PBool false);
                             (u "details", PNone)]])];
            PDict [(u "page_type", PStr (u "HOME"));
                   (u "components", PList [
                      PDict [(u "name", PStr (u "Purchased With Recently Purchased"));
                             (u "found", PBool true);
                             (u "details", PDict [(u "strategies",
                                PDict [(u "strategies_found",
                                  PDict [(u "Strategy 1", PBool false);
                                         (u "Strategy 2", PBool false)])])])]])]])].

(** One component with one failed and one passed strategy. *)
Definition one_failed_one_passed : pyval :=
  PDict [(u "pages", PList [
    PDict [(u "page_type", PStr (u "HOME"));
           (u "components", PList [
              PDict [(u "name", PStr (u "Carousel"));
                     (u "found", PBool true);
                     (u "details", PDict [(u "strategies",
                        PDict [(u "strategies_found",
                          PDict [(u "Strategy 1", PBool false);
                                 (u "Strategy 2", PBool true)])])])]])]])].

(** A fragment of the NFKD table, enough for the examples: a few accented
    letters split into base letter and combining mark, one ligature. *)
Definition nfkd_sample_cp (c : codepoint) : pystr :=
  if c =? 233 then [101; 769]
  else if c =? 201 then [69; 769]
  else if c =? 241 then [110; 771]
  else if c =? 64257 then [102; 105]
  else [c].
Definition nfkd_sample (s : pystr) : pystr := flat_map nfkd_sample_cp s.

(** The text "Café OLÉ". *)
Definition cafe_ole : pystr := u "Caf" ++ [233] ++ u " OL" ++ [201].

(** A page whose only element has the classes [a] and [b], and a component
    identified by the class value ["a c"]. *)
Definition page_a_b : node :=
  NTag (u "[document]") None []
    [NTag (u "div") (Some [u "a"; u "b"]) [] [NString (u "Offers")]].
Definition component_a_c : Scraper.component :=
  {| Scraper.name := u "Banner";
     Scraper.identifier_type := u "class";
     Scraper.identifier_value := u "a c";
     Scraper.carousel_strategies := None;
     Scraper.text_strategies := None |}.

(** A page that marks its element with [data-test-id], and a component
    specification that names [data-testid]. *)
Definition page_test_id : node :=
  NTag (u "[document]") None []
    [NTag (u "section") None [(u "data-test-id", u "hero")] [NString (u "Welcome")]].
Definition component_testid : Scraper.component :=
  {| Scraper.name := u "Hero";
     Scraper.identifier_type := u "data-testid";
     Scraper.identifier_value := u "hero";
     Scraper.carousel_strategies := None;
     Scraper.text_strategies := None |}.

(** A page with an element of id [cart], and a component identified by it. *)
Definition page_with_id : node :=
  NTag (u "[document]") None []
    [NTag (u "div") None [(u "id", u "cart")] [NString (u "Cart")]].
Definition component_by_id : Scraper.component :=
  {| Scraper.name := u "Cart";
     Scraper.identifier_type := u "id";
     Scraper.identifier_value := u "cart";
     Scraper.carousel_strategies := None;
     Scraper.text_strategies := None |}.

(** Three matched elements; only the second, which has an id, and the
    third hold the text "Recomendados para ti". *)
Definition el_sellers : node :=
  NTag (u "div") (Some [u "carousel"]) [] [NString (u " Top sellers ")].
Definition el_recommended : node :=
  NTag (u "div") (Some [u "carousel"]) [(u "id", u "recs")]
    [NTag (u "h2") (Some [u "title"]) [] [NString (u "RECOMENDADOS para ti")];
     NTag (u "p") None [] [NString (u "...")]].
Definition el_recommended_again : node :=
  NTag (u "div") (Some [u "carousel"]) [] [NString (u "Recomendados para ti")].

Definition strategy_recommended : Scraper.strategy :=
  {| Scraper.strategy_name := u "Strategy 1";
     Scraper.text_pattern := u "recomendados";
     Scraper.container_class := None |}.
Definition strategy_sellers : Scraper.strategy :=
  {| Scraper.strategy_name := u "Strategy 2";
     Scraper.text_pattern := u "top sellers";
     Scraper.container_class := None |}.

(** Two strategies declared under one name. *)
Definition strategy_sellers_same_name : Scraper.strategy :=
  {| Scraper.strategy_name := u "Strategy 1";
     Scraper.text_pattern := u "top sellers";
     Scraper.container_class := None |}.

(** Reading the outcome of a strategy search. *)
Definition found_in_after (r : result (Scraper.strategy_outcome * list Scraper.diagnostic))
    (name : pystr) : option (list pystr) :=
  match r with
  | Ok (out, _) => Scraper.entry_found_in out name
  | Raise _ => None
  end.

(** A one-target configuration and collaborators for it: every page yields
    one alert; [release] tells whether closing the browser succeeds. The
    world is the number of clock readings, used as the timestamp. *)
Definition one_target : Orchestrator.orchestrator :=
  {| Orchestrator.config :=
       [(u "CL", PDict [(u "setup_product_url", PStr (u "https://shop.test/p/1"));
                        (u "PDP", PDict [(u "url_example", PStr (u "https://shop.test/p/2"));
                                         (u "components", PList [])])])];
     Orchestrator.config_path := u "config_components.json";
     Orchestrator.max_workers := 1;
     Orchestrator.storage_available := false |}.

Definition sample_alert : list (pystr * pyval) :=
  [(u "component", PStr (u "Cross Sell")); (u "status", PStr (u "MISSING_COMPONENT"))].

(** What the sample collaborators raise: an instance of [Exception] with
    its message, or [SystemExit]. *)
Inductive sample_exn : Type :=
  | SampleError (message : pystr)
  | SampleExit.
Definition sample_is_exception (e : sample_exn) : bool :=
  match e with SampleError _ => true | SampleExit => false end.
Definition sample_str (e : sample_exn) : pystr :=
  match e with SampleError message => message | SampleExit => [] end.

Definition sample_collaborators (release : bool) : Orchestrator.collaborators :=
  {| Orchestrator.world := nat;
     Orchestrator.exn := sample_exn;
     Orchestrator.scraper := unit;
     Orchestrator.is_exception := sample_is_exception;
     Orchestrator.str_exn := sample_str;
     Orchestrator.of_pyerr := λ _, SampleError (u "error");
     Orchestrator.of_pyerr_is_exception := λ _, eq_refl;
     Orchestrator.new_scraper := λ _ w, (w, inr ());
     Orchestrator.fetch_page := λ _ _ w, (w, inr ());
     Orchestrator.scrape_page := λ _ country page_type _ w,
       (w, inr [(u "country", PStr country); (u "page_type", PStr page_type);
                (u "components", PList [])]);
     Orchestrator.generate_alerts := λ _ _ w, (w, inr [sample_alert]);
     Orchestrator.close_browser := λ _ w,
       (w, if release then inr () else inl (SampleError (u "Target closed")));
     Orchestrator.add_alerts := λ _ w, (w, inr ());
     Orchestrator.load_alerts := λ w, (w, inr []);
     Orchestrator.now := λ w, (S w, u (pretty w)) |}.

(** Collaborators whose [scrape_page] ends the interpreter: it raises
    [SystemExit]. *)
Definition exiting_collaborators : Orchestrator.collaborators :=
  {| Orchestrator.world := nat;
     Orchestrator.exn := sample_exn;
     Orchestrator.scraper := unit;
     Orchestrator.is_exception := sample_is_exception;
     Orchestrator.str_exn := sample_str;
     Orchestrator.of_pyerr := λ _, SampleError (u "error");
     Orchestrator.of_pyerr_is_exception := λ _, eq_refl;
     Orchestrator.new_scraper := λ _ w, (w, inr ());
     Orchestrator.fetch_page := λ _ _ w, (w, inr ());
     Orchestrator.scrape_page := λ _ _ _ _ w, (w, inl SampleExit);
     Orchestrator.generate_alerts := λ _ _ w, (w, inr [sample_alert]);
     Orchestrator.close_browser := λ _ w, (w, inr ());
     Orchestrator.add_alerts := λ _ w, (w, inr ());
     Orchestrator.load_alerts := λ w, (w, inr []);
     Orchestrator.now := λ w, (S w, u (pretty w)) |}.

(** Collaborators none of whose pages can be loaded: [fetch_page] raises
    an instance of [Exception]. *)
Definition unreachable_collaborators : Orchestrator.collaborators :=
  {| Orchestrator.world := nat;
     Orchestrator.exn := sample_exn;
     Orchestrator.scraper := unit;
     Orchestrator.is_exception := sample_is_exception;
     Orchestrator.str_exn := sample_str;
     Orchestrator.of_pyerr := λ _, SampleError (u "error");
     Orchestrator.of_pyerr_is_exception := λ _, eq_refl;
     Orchestrator.new_scraper := λ _ w, (w, inr ());
     Orchestrator.fetch_page := λ _ _ w, (w, inl (SampleError (u "Timeout 30000ms")));
     Orchestrator.scrape_page := λ _ country page_type _ w,
       (w, inr [(u "country", PStr country); (u "page_type", PStr page_type);
                (u "components", PList [])]);
     Orchestrator.generate_alerts := λ _ _ w, (w, inr [sample_alert]);
     Orchestrator.close_browser := λ _ w, (w, inr ());
     Orchestrator.add_alerts := λ _ w, (w, inr ());
     Orchestrator.load_alerts := λ w, (w, inr []);
     Orchestrator.now := λ w, (S w, u (pretty w)) |}.

(** An orchestrator built on an empty configuration, with the default
    number of workers. *)
Definition no_target : Orchestrator.orchestrator :=
  {| Orchestrator.config := [];
     Orchestrator.config_path := u "config_components.json";
     Orchestrator.max_workers := Orchestrator.init_max_workers None [];
     Orchestrator.storage_available := false |}.

(** Reading the outcome of a run. *)
Definition report_of (C : Orchestrator.collaborators)
    (r : Orchestrator.state C * (Orchestrator.exn C + Orchestrator.report))
    : option Orchestrator.report :=
  match r.2 with inr rep => Some rep | inl _ => None end.

(** The end-to-end scenario: on [PDP] the component [Cross Sell] (no
    strategies) is absent; on [HOME] the component [Purchased With Recently
    Purchased] is present and declares two strategies, both failing. *)
Definition page_pdp : node :=
  NTag (u "[document]") None []
    [NTag (u "div") None [(u "data-testid", u "product-title")]
       [NString (u "Taladro")]].
Definition page_home : node :=
  NTag (u "[document]") None [] [el_sellers; el_recommended].
Definition component_cross_sell : Scraper.component :=
  {| Scraper.name := u "Cross Sell";
     Scraper.identifier_type := u "data-testid";
     Scraper.identifier_value := u "cross-sell";
     Scraper.carousel_strategies := None;
     Scraper.text_strategies := None |}.
Definition component_purchased_with : Scraper.component :=
  {| Scraper.name := u "Purchased With Recently Purchased";
     Scraper.identifier_type := u "class";
     Scraper.identifier_value := u "carousel";
     Scraper.carousel_strategies :=
       Some [{| Scraper.strategy_name := u "Strategy 1";
                Scraper.text_pattern := u "comprados juntos";
                Scraper.container_class := Some (u "title") |};
             {| Scraper.strategy_name := u "Strategy 2";
                Scraper.text_pattern := u "vistos recientemente";
                Scraper.container_class := None |}];
     Scraper.text_strategies := None |}.
Definition scenario : result pyval :=
  pdp ← Scraper.scrape_fetched_page nfkd_sample page_pdp (u "CL") (u "PDP")
          (u "https://shop.test/p/2") (u "2026-02-09T17:33:00") [component_cross_sell];
  home ← Scraper.scrape_fetched_page nfkd_sample page_home (u "CL") (u "HOME")
           (u "https://shop.test/") (u "2026-02-09T17:34:00") [component_purchased_with];
  Ok (PDict [(u "country", PStr (u "CL")); (u "status", PStr (u "success"));
             (u "alerts_count", PInt 3); (u "pages", PList [pdp; home]);
             (u "timestamp", PStr (u "2026-02-09T17:35:00"))]).

(** The component [Cart] identified by its id under another type name. *)
Definition component_of_type (identifier_type : pystr) : Scraper.component :=
  {| Scraper.name := u "Cart";
     Scraper.identifier_type := identifier_type;
     Scraper.identifier_value := u "cart";
     Scraper.carousel_strategies := None;
     Scraper.text_strategies := None |}.

(** An absent component whose record still carries a failing strategy. *)
Definition absent_with_strategies : pyval :=
  PDict [(u "pages", PList [
    PDict [(u "page_type", PStr (u "HOME"));
           (u "components", PList [
              PDict [(u "name", PStr (u "Carousel"));
                     (u "found", PBool false);
                     (u "details", PDict [(u "strategies",
                        PDict [(u "strategies_found",
                          PDict [(u "Strategy 1", PBool false)])])])]])]])].

(** Component records of a scraped page: an absent banner, and a carousel
    one of whose two strategies was not found. *)
Definition banner_absent : Scraper.match_result :=
  {| Scraper.result_name := u "Banner";
     Scraper.found := false;
     Scraper.details := None |}.
Definition carousel_partly_found : Scraper.match_result :=
  {| Scraper.result_name := u "Carousel";
     Scraper.found := true;
     Scraper.details :=
       Some {| Scraper.labels_key := u "carousels";
               Scraper.labels := [u "carousel-1"];
               Scraper.strategies :=
                 {| Scraper.strategies_found :=
                      [(u "Recommended", true); (u "Top sellers", false)];
                    Scraper.strategies_details :=
                      [(u "Recommended", [u "carousel-1"])];
                    Scraper.potential_matches :=
                      [(u "Top sellers", [u "Best sellers"])] |} |} |}.

(** The pages of a target: one scraped, one that could not be loaded. *)
Definition scraped_pages : list Alerts.page_result :=
  [Alerts.PageResult (u "CL") (u "pdp") (u "https://example.test/p")
     (u "2025-01-01T00:00:00") [banner_absent; carousel_partly_found];
   Alerts.PageError (u "timeout") (u "2025-01-01T00:00:05")].

(** A target one of whose entries is a note, not a page. *)
Definition malformed_target : Orchestrator.orchestrator :=
  {| Orchestrator.config :=
       [(u "CL", PDict [(u "PDP", PDict [(u "url_example", PStr (u "https://shop.test/p/2"));
                                         (u "components", PList [])]);
                        (u "notes", PStr (u "pending"))])];
     Orchestrator.config_path := u "config_components.json";
     Orchestrator.max_workers := 1;
     Orchestrator.storage_available := false |}.

(** The results of a run whose only target failed. *)
Definition one_failed_target : list Orchestrator.target_result :=
  [{| Orchestrator.country := u "CL";
      Orchestrator.status := u "failed";
      Orchestrator.alerts_count := None;
      Orchestrator.pages := None;
      Orchestrator.error := Some (u "Target closed");
      Orchestrator.timestamp := u "2025-01-01T00:00:09" |}].

(** The state dict [app.py] starts with, after an earlier run that found
    three alerts; an environment whose orchestrator cannot be built; one whose
    run reports two alerts. The world counts the clock readings. *)
Definition state_after_earlier_run : list (pystr * pyval) :=
  [(u "is_running", PBool false);
   (u "start_time", PStr (u "2025-01-01T00:00:00"));
   (u "end_time", PStr (u "2025-01-01T00:05:00"));
   (u "results", PDict [(u "total_alerts", PInt 3)]);
   (u "alerts_count", PInt 3);
   (u "error", PNone)].

Definition service_environment (available : bool) : ScraperService.environment :=
  {| ScraperService.world := nat;
     ScraperService.exn := sample_exn;
     ScraperService.orchestrator_object := unit;
     ScraperService.is_exception := sample_is_exception;
     ScraperService.str_exn := sample_str;
     ScraperService.of_pyerr := λ _, SampleError (u "error");
     ScraperService.of_pyerr_is_exception := λ _, eq_refl;
     ScraperService.construct := λ _ _ w,
       (w, if available then inr () else inl (SampleError (u "config not found")));
     ScraperService.run_orchestrator := λ _ w,
       (w, inr (PDict [(u "total_alerts", PInt 2)]));
     ScraperService.now := λ w, (S w, u (pretty w)) |}.

(** An environment whose orchestrator run ends the interpreter. *)
Definition exiting_environment : ScraperService.environment :=
  {| ScraperService.world := nat;
     ScraperService.exn := sample_exn;
     ScraperService.orchestrator_object := unit;
     ScraperService.is_exception := sample_is_exception;
     ScraperService.str_exn := sample_str;
     ScraperService.of_pyerr := λ _, SampleError (u "error");
     ScraperService.of_pyerr_is_exception := λ _, eq_refl;
     ScraperService.construct := λ _ _ w, (w, inr ());
     ScraperService.run_orchestrator := λ _ w, (w, inl SampleExit);
     ScraperService.now := λ w, (S w, u (pretty w)) |}.

End Samples.

(* ================================================================== *)
(** * Properties *)
(* ================================================================== *)

(** ** The result monad and loops *)

Lemma for_each_app {A S : Type} (body : S → A → result S) acc xs ys :
  for_each body acc (xs ++ ys) = (acc' ← for_each body acc xs; for_each body acc' ys).
Proof.
  revert acc. induction xs as [|x xs IH]; intros acc; simpl; [done|].
  destruct (body acc x) as [acc'|e]; simpl; [apply IH | done].
Qed.

Lemma for_each_ext {A S : Type} (f g : S → A → result S) acc xs :
  (∀ a x, x ∈ xs → f a x = g a x) → for_each f acc xs = for_each g acc xs.
Proof.
  revert acc. induction xs as [|x xs IH]; intros acc Hfg; simpl; [done|].
  rewrite Hfg by left. destruct (g acc x) as [acc1|]; simpl; [|done].
  apply IH. intros acc2 y Hy. apply Hfg. by right.
Qed.

(** A loop whose body runs an inner loop over [inner x] is one loop over the
    concatenation. *)
Lemma for_each_nested {A B S : Type} (inner : A → list B) (body : S → B → result S)
    acc xs :
  for_each (λ acc x, for_each body acc (inner x)) acc xs
  = for_each body acc (flat_map inner xs).
Proof.
  revert acc. induction xs as [|x xs IH]; intros acc; simpl; [done|].
  rewrite for_each_app. destruct (for_each body acc (inner x)); simpl; [apply IH | done].
Qed.

(** ** Digest: recording issues *)

Section IssueRecording.
Implicit Types (m : gmap hkey (gset hkey)) (l p : hkey).

Lemma add_issue_hashed label page_type l p m :
  py_hash label = Ok l → py_hash page_type = Ok p →
  add_issue label page_type m = Ok (<[l := default ∅ (m !! l) ∪ {[p]}]> m).
Proof.
  intros Hl Hp. unfold add_issue. rewrite Hl, Hp. simpl.
  destruct (m !! l) as [s|] eqn:E; simpl.
  - by rewrite E.
  - rewrite lookup_insert_eq. simpl. by rewrite insert_insert_eq.
Qed.

Lemma records_empty : records ∅ (λ _ _, False).
Proof.
  split; intros l.
  - intros p. rewrite lookup_empty. simpl. set_solver.
  - rewrite lookup_empty. split; [by intros [? ?] | by intros [? []]].
Qed.

Lemma records_insert m S l p :
  records m S →
  records (<[l := default ∅ (m !! l) ∪ {[p]}]> m) (λ l' p', S l' p' ∨ (l' = l ∧ p' = p)).
Proof.
  intros [Hm Hd]. split.
  - intros l' p'. destruct (decide (l' = l)) as [->|Hne].
    + rewrite lookup_insert_eq. simpl. rewrite elem_of_union, elem_of_singleton, Hm.
      naive_solver.
    + rewrite lookup_insert_ne by done. rewrite Hm. naive_solver.
  - intros l'. destruct (decide (l' = l)) as [->|Hne].
    + rewrite lookup_insert_eq. split; [|by eauto]. intros _. exists p. by right.
    + rewrite lookup_insert_ne by done. rewrite Hd. naive_solver.
Qed.

Lemma records_iff m S S' :
  (∀ l p, S l p ↔ S' l p) → records m S → records m S'.
Proof.
  intros HS [Hm Hd]. split.
  - intros l p. by rewrite Hm.
  - intros l. rewrite Hd. split; intros [p Hp]; exists p; by apply HS.
Qed.

(** Recording a list of hashable (label, page type) pairs. *)
Lemma record_all (pairs : list (pyval * pyval)) m S :
  Forall (λ lp, hashable lp.1 = true ∧ hashable lp.2 = true) pairs →
  records m S →
  ∃ m', for_each (λ m lp, add_issue lp.1 lp.2 m) m pairs = Ok m' ∧
        records m' (λ l p, S l p ∨
          ∃ lp, lp ∈ pairs ∧ py_hash lp.1 = Ok l ∧ py_hash lp.2 = Ok p).
Proof.
  intros Hh. revert m S. induction Hh as [|[lab pt] pairs [H1 H2] _ IH]; intros m S Hm.
  - exists m. split; [done|]. eapply records_iff; [|done].
    intros l p. split; [by left|]. intros [?|(? & Hin & _)]; [done|]. by apply elem_of_nil in Hin.
  - simpl in H1, H2. unfold hashable in H1, H2.
    destruct (py_hash lab) as [l0|] eqn:El; [|done].
    destruct (py_hash pt) as [p0|] eqn:Ep; [|done].
    simpl. rewrite (add_issue_hashed _ _ l0 p0) by done. simpl.
    destruct (IH _ _ (records_insert _ _ l0 p0 Hm)) as (m' & Hrun & Hrec).
    exists m'. split; [done|]. eapply records_iff; [|done].
    intros l p. simpl. split.
    + intros [[?|[-> ->]]|(lp & Hin & ?)]; [by left| |].
      * right. exists (lab, pt). split; [by left|done].
      * right. exists lp. split; [by right|done].
    + intros [?|(lp & Hin & Hl & Hp)]; [by left; left|].
      apply elem_of_cons in Hin as [->|Hin].
      * simpl in Hl, Hp. left; right. split; congruence.
      * right. by exists lp.
Qed.
End IssueRecording.

(** ** Digest: the dedup-aware extraction as one pass over the contributions *)

Lemma add_failing_strategies_flat page_type m (items : list (pystr * pyval)) :
  add_failing_strategies page_type m items
  = for_each record_pair m
      (map (λ label, (label, page_type))
           (map PStr (map fst (filter (λ kv, truthy kv.2 = false) items)))).
Proof.
  unfold add_failing_strategies. revert m.
  induction items as [|[name found] items IH]; intros m; simpl; [done|].
  destruct (truthy found) eqn:E; simpl.
  - rewrite filter_cons_False by (simpl; congruence). apply IH.
  - rewrite filter_cons_True by done. simpl.
    destruct (add_issue _ _ m); simpl; [apply IH | done].
Qed.

Lemma has_strategies_of (d : list (list N * pyval)) :
  TeamsService.has_strategies (dict_get d (u "details") PNone)
  = bool_decide (is_Some (strategies_of (PDict d))).
Proof.
  unfold strategies_of, details_of, field, TeamsService.has_strategies. simpl.
  destruct (dict_get d (u "details") PNone) as [| | | |?|dd]; simpl;
    try (by rewrite ?andb_false_r).
  unfold dict_has, dict_get.
  destruct dd as [|kv dd]; [done|]. cbn [truthy andb].
  destruct (dict_lookup (u "strategies") (kv :: dd)) as [[]|]; simpl; try done;
    by (symmetry; apply bool_decide_eq_true; eauto).
Qed.

Lemma component_step_flat page_type m component :
  component_wf component = true →
  TeamsService.component_step page_type m component
  = for_each record_pair m (contributions_component page_type component).
Proof.
  unfold component_wf. destruct component as [| | | | |d]; try done. simpl.
  intros [_ Hwf]%andb_prop.
  unfold TeamsService.component_step, contributions_component, issue_labels.
  simpl. rewrite has_strategies_of.
  destruct (strategies_of (PDict d)) as [strategies|] eqn:Es.
  - rewrite bool_decide_eq_true_2 by eauto.
    assert (py_get (dict_get d (u "details") PNone) (u "strategies") (PDict [])
            = Ok strategies) as ->.
    { unfold strategies_of, details_of, field in Es. simpl in Es.
      destruct (dict_get d (u "details") PNone) as [| | | |?|dd]; try done.
      simpl. unfold dict_get.
      destruct (dict_lookup (u "strategies") dd) as [[]|]; congruence. }
    simpl. unfold failing_strategies, strategies_wf in *.
    destruct (truthy strategies) eqn:Et; simpl in *.
    + destruct strategies as [| | | | |sd]; try done. simpl. unfold field. simpl.
      destruct (dict_get sd (u "strategies_found") (PDict [])) as [| | | | |sf];
        try done.
      simpl. apply add_failing_strategies_flat.
    + done.
  - rewrite bool_decide_eq_false_2 by (intros [? ?]; done).
    unfold found_of, name_of, field. simpl.
    destruct (truthy (dict_get d (u "found") (PBool false))); simpl; [done|].
    by destruct (add_issue _ _ m).
Qed.

Lemma page_step_flat m page :
  page_wf page = true →
  TeamsService.page_step m page = for_each record_pair m (contributions_page page).
Proof.
  unfold page_wf. destruct page as [| | | | |d]; try done. simpl.
  intros [_ Hcs]%andb_prop.
  unfold TeamsService.page_step, contributions_page, components_of, page_type_of, field
    in *.
  simpl in *.
  destruct (dict_get d (u "components") (PList [])) as [| | | |cs|]; try done.
  simpl. unfold items_of. simpl.
  rewrite <- for_each_nested. apply for_each_ext.
  intros acc c Hc. apply component_step_flat.
  rewrite forallb_forall in Hcs. apply Hcs. by apply list_elem_of_In.
Qed.

Lemma extract_components_issues_flat alert :
  target_result_wf alert = true →
  TeamsService.extract_components_issues alert
  = for_each record_pair ∅ (contributions alert).
Proof.
  unfold target_result_wf. destruct alert as [| | | | |d]; try done. simpl.
  unfold TeamsService.extract_components_issues, contributions, pages_of, field.
  simpl.
  destruct (dict_get d (u "pages") (PList [])) as [| | | |ps|]; try done.
  simpl. unfold items_of. simpl. intros Hps.
  rewrite <- for_each_nested. apply for_each_ext.
  intros acc page Hpage. apply page_step_flat.
  rewrite forallb_forall in Hps. apply Hps. by apply list_elem_of_In.
Qed.

Lemma contributions_hashable alert :
  target_result_wf alert = true →
  Forall (λ lp, hashable lp.1 = true ∧ hashable lp.2 = true) (contributions alert).
Proof.
  unfold target_result_wf. destruct alert as [| | | | |d]; try done. simpl.
  unfold contributions, pages_of, field. simpl.
  destruct (dict_get d (u "pages") (PList [])) as [| | | |ps|]; try done.
  unfold items_of. simpl. rewrite forallb_forall. intros Hps.
  apply Forall_forall. intros [label pt] Hin.
  apply list_elem_of_In, in_flat_map in Hin as (page & Hpage & Hin).
  specialize (Hps _ Hpage). unfold page_wf in Hps.
  destruct page as [| | | | |pd]; try done. simpl in Hps.
  apply andb_prop in Hps as [Hpt Hcs].
  unfold contributions_page, components_of, field in Hin, Hcs. simpl in Hin, Hcs.
  destruct (dict_get pd (u "components") (PList [])) as [| | | |cs|]; try done.
  unfold items_of in Hin. simpl in Hin.
  apply in_flat_map in Hin as (c & Hc & Hin).
  rewrite forallb_forall in Hcs. specialize (Hcs _ Hc).
  unfold contributions_component in Hin. apply in_map_iff in Hin as (lab & [= <- <-] & Hlab).
  simpl. split; [|done].
  unfold component_wf in Hcs. apply andb_prop in Hcs as [[_ Hname]%andb_prop _].
  unfold issue_labels in Hlab.
  destruct (strategies_of c).
  - apply in_map_iff in Hlab as (? & <- & _). done.
  - destruct (truthy (found_of c)); [done|]. by destruct Hlab as [<-|[]].
Qed.

Lemma occurs_contributions alert l p :
  occurs alert l p ↔
  ∃ lp, lp ∈ contributions alert ∧ py_hash lp.1 = Ok l ∧ py_hash lp.2 = Ok p.
Proof.
  unfold occurs, contributions, contributions_page, contributions_component. split.
  - intros (page & c & label & Hpage & Hc & Hlab & Hl & Hp).
    exists (label, page_type_of page). split; [|done].
    apply list_elem_of_In, in_flat_map. exists page. split; [by apply list_elem_of_In|].
    apply in_flat_map. exists c. split; [by apply list_elem_of_In|].
    apply in_map_iff. exists label. split; [done|]. by apply list_elem_of_In.
  - intros ([label pt] & Hin & Hl & Hp). simpl in *.
    apply list_elem_of_In, in_flat_map in Hin as (page & Hpage & Hin).
    apply in_flat_map in Hin as (c & Hc & Hin).
    apply in_map_iff in Hin as (lab & [= <- <-] & Hlab).
    exists page, c, lab. by rewrite !list_elem_of_In.
Qed.

Lemma extract_components_issues_records (alert : pyval) :
  target_result_wf alert = true →
  ∃ m, TeamsService.extract_components_issues alert = Ok m ∧
       records m (occurs alert).
Proof.
  intros Hwf. rewrite extract_components_issues_flat by done.
  destruct (record_all (contributions alert) ∅ (λ _ _, False)
              (contributions_hashable _ Hwf) records_empty) as (m & Hrun & Hrec).
  exists m. split; [done|].
  apply (records_iff _ _ (occurs alert)) in Hrec; [exact Hrec|].
  intros l p. rewrite occurs_contributions. naive_solver.
Qed.

(** C1. For every target result of the run-report schema the dedup-aware
    [extract_components_issues] returns a mapping that holds exactly the
    issue labels of the components, each mapped to the set of page types
    where it occurs: a component with a non-null [strategies] object stands
    for its failing strategy names only (its own name is not recorded on its
    behalf, whether or not it was found and however many strategies
    failed), and a component without one stands for its own name exactly
    when it was not found. *)
Theorem extract_components_issues_dedup (alert : pyval) :
  target_result_wf alert = true →
  ∃ m, TeamsService.extract_components_issues alert = Ok m ∧
       (∀ l p, p ∈ default ∅ (m !! l) ↔ occurs alert l p) ∧
       (∀ l, is_Some (m !! l) ↔ ∃ p, occurs alert l p).
Proof.
  intros Hwf. destruct (extract_components_issues_records alert Hwf) as (m & Hm & Hrec).
  exists m. split; [done|]. exact Hrec.
Qed.

(** Corollary of C1 on the quick-test fixture: three distinct labels, the
    strategy names under [HOME], the absent component under [PDP], and no
    entry for the present component's own name. *)
Lemma extract_components_issues_fixture :
  let r := TeamsService.extract_components_issues Samples.fixture in
  pages_for r (PStr (u "Cross Sell")) = Some [HStr (u "PDP")] ∧
  pages_for r (PStr (u "Strategy 1")) = Some [HStr (u "HOME")] ∧
  pages_for r (PStr (u "Strategy 2")) = Some [HStr (u "HOME")] ∧
  pages_for r (PStr (u "Purchased With Recently Purchased")) = None ∧
  distinct_count r = Some 3%nat.
Proof. vm_compute. done. Qed.

(** One failed and one passed strategy: exactly the failed strategy's name. *)
Lemma extract_components_issues_one_failed :
  let r := TeamsService.extract_components_issues Samples.one_failed_one_passed in
  pages_for r (PStr (u "Strategy 1")) = Some [HStr (u "HOME")] ∧
  pages_for r (PStr (u "Strategy 2")) = None ∧
  pages_for r (PStr (u "Carousel")) = None ∧
  distinct_count r = Some 1%nat.
Proof. vm_compute. done. Qed.

Lemma extract_components_issues_dedup_witness :
  ∃ m, TeamsService.extract_components_issues Samples.fixture = Ok m ∧
       (∀ l p, p ∈ default ∅ (m !! l) ↔ occurs Samples.fixture l p) ∧
       (∀ l, is_Some (m !! l) ↔ ∃ p, occurs Samples.fixture l p).
Proof. apply (extract_components_issues_dedup Samples.fixture). vm_compute. reflexivity. Defined.

(** ** Digest: the two extractions on reachable component records *)

Lemma dict_get_present (d : list (list N * pyval)) k x y :
  dict_has k d = true → dict_get d k x = dict_get d k y.
Proof. unfold dict_has, dict_get. by destruct (dict_lookup k d). Qed.

Lemma result_bind_ret {A} (m : result A) : (x ← m; Ok x) = m.
Proof. by destruct m. Qed.

Lemma component_step_agree page_type m component :
  reachable_component component = true →
  LegacyTeamsService.component_step page_type m component
  = TeamsService.component_step page_type m component.
Proof.
  destruct component as [| | | | |d]; try done. simpl.
  intros [[Hname Hfound]%andb_prop Hdet]%andb_prop.
  unfold LegacyTeamsService.component_step, TeamsService.component_step. simpl.
  rewrite (dict_get_present d (u "name") (PStr (u "N/A")) (PStr (u "Unknown"))) by done.
  rewrite (dict_get_present d (u "found") (PBool true) (PBool false)) by done.
  rewrite (dict_get_present d (u "found") PNone (PBool false)) in Hdet by done.
  destruct (dict_get d (u "details") PNone) as [| | | | |dd] eqn:Ed; try done.
  - (* details is None *)
    simpl. destruct (truthy (dict_get d (u "found") (PBool false))); simpl; [done|].
    by destruct (add_issue _ _ m).
  - (* details holds a strategies object; the component was found *)
    apply andb_prop in Hdet as [-> Hs]. simpl.
    unfold TeamsService.has_strategies, dict_has, dict_get in *.
    destruct (dict_lookup (u "strategies") dd) as [strategies|] eqn:El; [|done].
    destruct strategies as [| | | | |sd]; try done.
    destruct dd as [|kv dd]; [done|]. simpl.
    destruct sd as [|kv' sd]; done.
Qed.

Lemma page_step_agree m page :
  (∀ c, c ∈ components_of page → reachable_component c = true) →
  LegacyTeamsService.page_step m page = TeamsService.page_step m page.
Proof.
  intros Hc. unfold LegacyTeamsService.page_step, TeamsService.page_step.
  destruct page as [| | | | |d]; try done. simpl.
  unfold components_of, field, items_of in Hc. simpl in Hc.
  destruct (py_iter (dict_get d (u "components") (PList []))) as [cs|]; [|done].
  simpl. apply for_each_ext. intros acc c Hin. by apply component_step_agree, Hc.
Qed.

(** C10. On target results whose component records have the shape
    [check_component] produces - keys [name], [found], [details], with
    [details] either [None] or, only for a found component, an object
    holding a [strategies] object - the dedup-naive and the dedup-aware
    [extract_components_issues] give the same outcome, hence the same
    mapping from issue labels to page-type sets. *)
Theorem extract_components_issues_agree (alert : pyval) :
  reachable_result alert = true →
  LegacyTeamsService.extract_components_issues alert
  = TeamsService.extract_components_issues alert.
Proof.
  intros Hr.
  assert (∀ page c, page ∈ pages_of alert → c ∈ components_of page →
                    reachable_component c = true) as Hc.
  { intros page c Hpage Hin. unfold reachable_result in Hr.
    rewrite forallb_forall in Hr. apply list_elem_of_In, Hr in Hpage.
    rewrite forallb_forall in Hpage. by apply Hpage, list_elem_of_In. }
  clear Hr.
  unfold LegacyTeamsService.extract_components_issues,
    TeamsService.extract_components_issues.
  destruct alert as [| | | | |d]; try done. simpl.
  unfold pages_of, field, items_of in Hc. simpl in Hc.
  destruct (py_iter (dict_get d (u "pages") (PList []))) as [ps|]; [|done].
  simpl. apply for_each_ext. intros acc page Hin. apply page_step_agree.
  intros c. by apply Hc.
Qed.

Lemma extract_components_issues_agree_witness :
  LegacyTeamsService.extract_components_issues Samples.fixture
  = TeamsService.extract_components_issues Samples.fixture.
Proof.
  apply (extract_components_issues_agree Samples.fixture). vm_compute. reflexivity.
Defined.

(** Outside that shape the two differ: for an absent component that still
    carries failing strategies the older extraction also records the
    component's own name. *)
Lemma extract_components_issues_differ :
  let legacy := LegacyTeamsService.extract_components_issues Samples.absent_with_strategies in
  let aware := TeamsService.extract_components_issues Samples.absent_with_strategies in
  pages_for legacy (PStr (u "Carousel")) = Some [HStr (u "HOME")] ∧
  pages_for aware (PStr (u "Carousel")) = None ∧
  pages_for legacy (PStr (u "Strategy 1")) = Some [HStr (u "HOME")] ∧
  pages_for aware (PStr (u "Strategy 1")) = Some [HStr (u "HOME")].
Proof. vm_compute. done. Qed.

(** ** Text normaliser *)

Lemma is_ascii_lower_cp c : is_ascii c = true → is_ascii (lower_cp c) = true.
Proof.
  unfold is_ascii, lower_cp. intros H%N.ltb_lt.
  destruct ((65 <=? c) && (c <=? 90)) eqn:E; apply N.ltb_lt; [|done].
  apply andb_prop in E as [_ E%N.leb_le]. lia.
Qed.

Lemma lower_cp_idem c : lower_cp (lower_cp c) = lower_cp c.
Proof.
  unfold lower_cp. destruct ((65 <=? c) && (c <=? 90)) eqn:E; [|by rewrite E].
  apply andb_prop in E as [E1%N.leb_le E2%N.leb_le].
  destruct (65 <=? c + 32) eqn:E3; [|done]. simpl.
  destruct (c + 32 <=? 90) eqn:E4; [|done]. apply N.leb_le in E4. lia.
Qed.

Lemma lower_idem s : lower (lower s) = lower s.
Proof.
  unfold lower. rewrite map_map. apply map_ext. intros c. apply lower_cp_idem.
Qed.

Lemma forallb_is_ascii_lower s :
  forallb is_ascii s = true → forallb is_ascii (lower s) = true.
Proof.
  induction s as [|c s IH]; simpl; [done|].
  intros [Hc Hs]%andb_prop. by rewrite is_ascii_lower_cp, IH.
Qed.

Lemma forallb_is_ascii_encode s : forallb is_ascii (encode_ascii_ignore s) = true.
Proof.
  unfold encode_ascii_ignore. induction s as [|c s IH]; simpl; [done|].
  destruct (is_ascii c) eqn:E.
  - rewrite filter_cons_True by done. simpl. by rewrite E.
  - rewrite filter_cons_False by congruence. done.
Qed.

Lemma encode_ascii_ignore_ascii s :
  forallb is_ascii s = true → encode_ascii_ignore s = s.
Proof.
  unfold encode_ascii_ignore. induction s as [|c s IH]; simpl; [done|].
  intros [Hc Hs]%andb_prop. rewrite filter_cons_True by done. by rewrite IH.
Qed.

Lemma decode_encode_ascii s :
  decode_ascii (encode_ascii_ignore s) = Ok (encode_ascii_ignore s).
Proof. unfold decode_ascii. by rewrite forallb_is_ascii_encode. Qed.

Section NormalizerFacts.
Variable nfkd : list N → list N.

(** The value [_normalize_text] returns on a string. *)
Lemma normalize_text_str s :
  _normalize_text nfkd (PStr s) = Ok (lower (encode_ascii_ignore (nfkd s))).
Proof. unfold _normalize_text. simpl. by rewrite decode_encode_ascii. Qed.

Lemma normalize_text_ascii s r :
  _normalize_text nfkd (PStr s) = Ok r → forallb is_ascii r = true.
Proof.
  rewrite normalize_text_str. intros [= <-].
  apply forallb_is_ascii_lower, forallb_is_ascii_encode.
Qed.

(** No ASCII character has a decomposition: NFKD leaves ASCII text as it is. *)
Hypothesis nfkd_ascii : ∀ s, forallb is_ascii s = true → nfkd s = s.

(** C8, as amended. [_normalize_text] is a function of its argument alone
    and returns on every string; the empty string is mapped to the empty
    string. On an argument that is not a string it does not return: the
    call to [unicodedata.normalize] raises [TypeError]. *)
Theorem normalize_text_total_on_str (text : pyval) :
  match text with
  | PStr s => ∃ r, _normalize_text nfkd text = Ok r ∧ (s = [] → r = [])
  | _ => _normalize_text nfkd text = Raise TypeError
  end.
Proof.
  destruct text as [| | |s| |]; try done.
  rewrite normalize_text_str. eexists. split; [done|].
  intros ->. by rewrite nfkd_ascii.
Qed.

(** C9. Normalisation is idempotent: normalising the result of a
    normalisation returns it unchanged. *)
Theorem normalize_text_idempotent (s : list N) :
  ∃ r, _normalize_text nfkd (PStr s) = Ok r ∧
       _normalize_text nfkd (PStr r) = Ok r.
Proof.
  exists (lower (encode_ascii_ignore (nfkd s))).
  split; [apply normalize_text_str|].
  pose proof (normalize_text_ascii s _ (normalize_text_str s)) as Hascii.
  rewrite normalize_text_str, nfkd_ascii, encode_ascii_ignore_ascii by done.
  by rewrite lower_idem.
Qed.
End NormalizerFacts.

Lemma nfkd_sample_ascii s :
  forallb is_ascii s = true → Samples.nfkd_sample s = s.
Proof.
  unfold Samples.nfkd_sample. induction s as [|c s IH]; simpl; [done|].
  intros [Hc Hs]%andb_prop. rewrite IH by done.
  unfold Samples.nfkd_sample_cp, is_ascii in *. apply N.ltb_lt in Hc.
  repeat match goal with
         | |- context [?a =? ?b] => destruct (N.eqb_spec a b); [lia|]
         end.
  done.
Qed.

Lemma normalize_text_total_on_str_witness :
  ∃ r, _normalize_text Samples.nfkd_sample (PStr (u "")) = Ok r ∧ (u "" = [] → r = []).
Proof.
  exact (normalize_text_total_on_str Samples.nfkd_sample nfkd_sample_ascii (PStr (u ""))).
Defined.

(** The claim as first stated fails on a non-string: [None] is not mapped to
    the empty string, the call raises. *)
Lemma normalize_text_none_raises :
  _normalize_text Samples.nfkd_sample PNone = Raise TypeError.
Proof. reflexivity. Qed.

Lemma normalize_text_idempotent_witness :
  ∃ r, _normalize_text Samples.nfkd_sample (PStr Samples.cafe_ole) = Ok r ∧
       _normalize_text Samples.nfkd_sample (PStr r) = Ok r.
Proof.
  exact (normalize_text_idempotent Samples.nfkd_sample nfkd_sample_ascii Samples.cafe_ole).
Defined.

(** "Café OLÉ" normalises to "cafe ole". *)
Lemma normalize_text_sample :
  _normalize_text Samples.nfkd_sample (PStr Samples.cafe_ole) = Ok (u "cafe ole").
Proof. vm_compute. reflexivity. Qed.

(** ** Component matcher: identifier types *)

(** What the [class] branch computes: a component is reported found as soon
    as some tag matches one of the tokens of [identifier_value]. *)
Lemma check_by_class_found (soup : node) (c : Scraper.component) :
  Scraper.identifier_type c = u "class" →
  ∃ elements,
    Scraper._check_component_by_identifier_type soup c
    = Ok (bool_decide (elements ≠ []), if bool_decide (elements ≠ []) then Some elements else None) ∧
    ∀ d, d ∈ elements ↔
         d ∈ descendants soup ∧ is_tag d = true ∧
         class_matches (node_class d) (SList (split (Scraper.identifier_value c))) = true.
Proof.
  intros Ht. exists (Scraper.find_elements_by_class soup (Scraper.identifier_value c)).
  split.
  - unfold Scraper._check_component_by_identifier_type. rewrite Ht.
    change (bool_decide (u "class" = u "data-testid")) with false.
    change (bool_decide (u "class" = u "data-test-id")) with false.
    change (bool_decide (u "class" = u "class")) with true. simpl.
    by destruct (Scraper.find_elements_by_class _ _).
  - intros d. unfold Scraper.find_elements_by_class, find_all_class.
    rewrite list_elem_of_In, filter_In, <- list_elem_of_In, andb_true_iff. tauto.
Qed.

(** C2 at the input of the claim: a page whose only element has the classes
    [a] and [b] is searched for a component identified by class ["a c"].
    The list of tokens is handed to [find_all] as a list, which matches a
    tag carrying any one of them: the component is reported found. *)
Theorem check_component_class_matches_any_token :
  Scraper.check_component Samples.nfkd_sample Samples.page_a_b Samples.component_a_c
  = Ok ({| Scraper.result_name := u "Banner";
           Scraper.found := true;
           Scraper.details := None |}, []).
Proof. vm_compute. reflexivity. Qed.

(** What the attribute branch computes: the first tag carrying the one
    attribute the specification names, with the given value. *)
Lemma check_by_attribute_found (soup : node) (c : Scraper.component) :
  Scraper.identifier_type c = u "data-testid" ∨
  Scraper.identifier_type c = u "data-test-id" →
  Scraper._check_component_by_identifier_type soup c
  = Ok match find_attr soup (Scraper.identifier_type c) (Scraper.identifier_value c) with
       | Some element => (true, Some [element])
       | None => (false, None)
       end.
Proof.
  unfold Scraper._check_component_by_identifier_type.
  intros [-> | ->].
  - change (bool_decide (u "data-testid" = u "data-testid")) with true. simpl.
    by destruct (find_attr _ _ _).
  - change (bool_decide (u "data-test-id" = u "data-testid")) with false.
    change (bool_decide (u "data-test-id" = u "data-test-id")) with true. simpl.
    by destruct (find_attr _ _ _).
Qed.

(** C3 at a failing input: the page marks its element with [data-test-id],
    the specification names [data-testid] with the same value. The helper
    [find_component_by_data_testid] accepts either alias; [check_component]
    looks for the named attribute only and reports the component absent. *)
Theorem check_component_attribute_named_alias_only :
  Scraper.find_component_by_data_testid Samples.page_test_id (u "hero") = true ∧
  Scraper.check_component Samples.nfkd_sample Samples.page_test_id Samples.component_testid
  = Ok ({| Scraper.result_name := u "Hero";
           Scraper.found := false;
           Scraper.details := None |}, []).
Proof. split; vm_compute; reflexivity. Qed.

(** C4: for a component identified by [id], [check_component] reaches
    [self.find_component_by_id], an attribute the class does not have: the
    call raises [AttributeError] whatever the page holds, and neither a
    result nor the diagnostic line is produced. *)
Theorem check_component_id_raises (nfkd : list N → list N) (soup : node)
    (c : Scraper.component) :
  Scraper.identifier_type c = u "id" →
  Scraper.check_component nfkd soup c = Raise AttributeError.
Proof.
  intros Ht. unfold Scraper.check_component, Scraper._check_component_by_identifier_type.
  rewrite Ht.
  change (bool_decide (u "id" = u "data-testid")) with false.
  change (bool_decide (u "id" = u "data-test-id")) with false.
  change (bool_decide (u "id" = u "class")) with false.
  change (bool_decide (u "id" = u "id")) with true.
  reflexivity.
Qed.

Lemma check_component_id_raises_witness :
  Scraper.check_component Samples.nfkd_sample Samples.page_with_id Samples.component_by_id
  = Raise AttributeError.
Proof.
  apply (check_component_id_raises Samples.nfkd_sample Samples.page_with_id
           Samples.component_by_id).
  reflexivity.
Defined.

(** ** Strategy search *)

Section OrderedDictFacts.
Context {V : Type}.
Implicit Types (d : list (list N * V)) (k : list N).

Lemma od_lookup_set_eq k v d : Scraper.od_lookup k (Scraper.od_set k v d) = Some v.
Proof.
  induction d as [|[k' v'] d IH]; simpl.
  - by rewrite bool_decide_eq_true_2.
  - destruct (bool_decide (k' = k)) eqn:E; simpl.
    + by rewrite bool_decide_eq_true_2.
    + by rewrite E.
Qed.

Lemma od_lookup_set_ne k k' v d :
  k ≠ k' → Scraper.od_lookup k' (Scraper.od_set k v d) = Scraper.od_lookup k' d.
Proof.
  intros Hne. induction d as [|[k0 v0] d IH]; simpl.
  - by rewrite bool_decide_eq_false_2.
  - destruct (bool_decide (k0 = k)) eqn:E; simpl.
    + apply bool_decide_eq_true in E as ->.
      by rewrite !bool_decide_eq_false_2.
    + by rewrite IH.
Qed.

Lemma od_lookup_set k k' v d :
  Scraper.od_lookup k' (Scraper.od_set k v d)
  = if bool_decide (k = k') then Some v else Scraper.od_lookup k' d.
Proof.
  case_bool_decide as E.
  - subst. apply od_lookup_set_eq.
  - by apply od_lookup_set_ne.
Qed.

Lemma od_comprehension_lookup {A} (key : A → list N) (v : V) (xs : list A) k :
  Scraper.od_lookup k (Scraper.od_comprehension key v xs)
  = if bool_decide (k ∈ map key xs) then Some v else None.
Proof.
  unfold Scraper.od_comprehension.
  assert (∀ d0, Scraper.od_lookup k (fold_left (λ d x, Scraper.od_set (key x) v d) xs d0)
                = if bool_decide (k ∈ map key xs) then Some v
                  else Scraper.od_lookup k d0) as H; [|apply H].
  induction xs as [|x xs IH]; intros d0; simpl.
  - done.
  - rewrite IH, od_lookup_set. repeat case_bool_decide; set_solver.
Qed.
End OrderedDictFacts.

Section StrategySearch.
Import Scraper.
Variable nfkd : list N → list N.

Lemma container_has_pattern_eq strat container :
  container_has_pattern nfkd strat container
  = str_contains (lower (encode_ascii_ignore (nfkd (text_pattern strat))))
                 (lower (encode_ascii_ignore (nfkd (get_text_strip container)))).
Proof.
  unfold container_has_pattern, _partial_match. by rewrite !normalize_text_str.
Qed.

Lemma same_entries_refl name o : same_entries name o o.
Proof. by repeat split. Qed.

Lemma same_entries_trans name o1 o2 o3 :
  same_entries name o1 o2 → same_entries name o2 o3 → same_entries name o1 o3.
Proof. intros (?&?&?) (?&?&?). repeat split; congruence. Qed.

Lemma keys_ok_same names o o' :
  keys_ok names o → (∀ n, n ∈ names → same_entries n o o') → keys_ok names o'.
Proof.
  intros Hk Hs n Hn. destruct (Hs n Hn) as (-> & -> & ->). by apply Hk.
Qed.

(** The inner loop over one scope: the entries of the strategy's own name
    after it, and nothing else touched. *)
Lemma scan_containers_effect strat label scope st fi cands :
  entry_found_in st (strategy_name strat) = Some fi →
  entry_candidates st (strategy_name strat) = Some cands →
  ∃ st', scan_containers nfkd strat label st scope = Ok st' ∧
    entry_found st' (strategy_name strat)
      = (if existsb (container_has_pattern nfkd strat) scope then Some true
         else entry_found st (strategy_name strat)) ∧
    entry_found_in st' (strategy_name strat)
      = Some (if existsb (container_has_pattern nfkd strat) scope
              then fi ++ [label] else fi) ∧
    entry_candidates st' (strategy_name strat)
      = Some (cands ++ map get_text_strip (before_first_match nfkd strat scope)) ∧
    (∀ n, n ≠ strategy_name strat → same_entries n st st').
Proof.
  revert st cands. induction scope as [|container scope IH]; intros st cands Hfi Hc.
  - exists st. simpl. rewrite app_nil_r. repeat split; done.
  - simpl. rewrite !normalize_text_str. simpl.
    rewrite container_has_pattern_eq.
    destruct (str_contains _ _) eqn:Hm; simpl.
    + unfold entry_found_in in Hfi. unfold od_getitem. rewrite Hfi. simpl.
      eexists. split; [done|].
      unfold entry_found, entry_found_in, entry_candidates, same_entries. simpl.
      rewrite !od_lookup_set_eq, app_nil_r. repeat split; try done.
      all: unfold entry_found, entry_found_in, entry_candidates; simpl;
        by rewrite ?od_lookup_set_ne.
    + unfold entry_candidates in Hc. unfold od_getitem. rewrite Hc. simpl.
      match goal with
      | |- ∃ st', scan_containers _ _ _ ?s _ = _ ∧ _ => set (st1 := s)
      end.
      destruct (IH st1 (cands ++ [get_text_strip container]))
        as (st' & Hrun & Hf & Hd & Hp & Hother).
      * exact Hfi.
      * unfold entry_candidates. simpl. apply od_lookup_set_eq.
      * exists st'. split; [done|]. rewrite Hf, Hd, Hp, <- app_assoc.
        repeat split; try done.
        all: destruct (Hother n) as (? & ? & ?); [done|];
          unfold entry_found, entry_found_in, entry_candidates in *; simpl in *;
          rewrite ?od_lookup_set_ne in * by done; congruence.
Qed.

(** One strategy on one element never raises, keeps every entry present
    and leaves the other names alone. *)
Lemma check_strategy_ok names el label st s :
  keys_ok names st → strategy_name s ∈ names →
  ∃ st', check_strategy nfkd el label st s = Ok st' ∧ keys_ok names st' ∧
         ∀ n, n ≠ strategy_name s → same_entries n st st'.
Proof.
  intros Hk Hs. destruct (Hk _ Hs) as ([b Hb] & [fi Hfi] & [cands Hc]).
  unfold check_strategy, od_getitem. unfold entry_found in Hb. rewrite Hb. simpl.
  destruct b.
  - exists st. split; [done|]. split; [done|]. intros. apply same_entries_refl.
  - destruct (scan_containers_effect s label (search_scope s el) st fi cands)
      as (st' & Hrun & Hf & Hd & Hp & Hother); [done..|].
    exists st'. split; [done|]. split; [|done].
    intros n Hn. destruct (decide (n = strategy_name s)) as [->|Hne].
    + rewrite Hf, Hd, Hp. unfold entry_found. rewrite Hb.
      destruct (existsb _ _); eauto.
    + destruct (Hother n Hne) as (-> & -> & ->). by apply Hk.
Qed.

(** Strategies of other names leave the entries of [name] as they are. *)
Lemma check_others names name el label ss st :
  keys_ok names st →
  (∀ s, s ∈ ss → strategy_name s ∈ names ∧ strategy_name s ≠ name) →
  ∃ st', for_each (check_strategy nfkd el label) st ss = Ok st' ∧
         keys_ok names st' ∧ same_entries name st st'.
Proof.
  revert st. induction ss as [|s ss IH]; intros st Hk Hss.
  - exists st. split; [done|]. split; [done|]. apply same_entries_refl.
  - destruct (Hss s) as [Hin Hne]; [by left|].
    destruct (check_strategy_ok names el label st s Hk Hin) as (st1 & Hrun & Hk1 & Ho).
    destruct (IH st1 Hk1) as (st' & Hrun' & Hk' & Hsame).
    { intros s' Hs'. apply Hss. by right. }
    exists st'. simpl. rewrite Hrun. simpl. split; [done|]. split; [done|].
    eapply same_entries_trans; [|done]. apply Ho. congruence.
Qed.

(** Any list of strategies on one element: no exception, entries kept. *)
Lemma check_element_ok strategies st idx_el :
  keys_ok (map strategy_name strategies) st →
  ∃ st', check_element nfkd strategies st idx_el = Ok st' ∧
         keys_ok (map strategy_name strategies) st'.
Proof.
  unfold check_element. generalize (element_label (u "el") idx_el.1 idx_el.2).
  intros label.
  assert (∀ ss, (∀ s, s ∈ ss → strategy_name s ∈ map strategy_name strategies) →
            ∀ st, keys_ok (map strategy_name strategies) st →
            ∃ st', for_each (check_strategy nfkd idx_el.2 label) st ss = Ok st' ∧
                   keys_ok (map strategy_name strategies) st') as H.
  { induction ss as [|s ss IH]; intros Hss st1 Hk1; [by exists st1|].
    destruct (check_strategy_ok _ idx_el.2 label st1 s Hk1) as (st2 & Hrun & Hk2 & _).
    { apply Hss. by left. }
    destruct (IH (λ s' Hs', Hss s' (list_elem_of_further _ _ _ Hs')) st2 Hk2)
      as (st' & Hrun' & Hk').
    exists st'. simpl. by rewrite Hrun. }
  intros Hk. apply H; [|done]. intros s Hs. by apply list_elem_of_fmap_2.
Qed.

Lemma enumerate_from_app {A} (k : nat) (xs ys : list A) :
  enumerate_from k (xs ++ ys)
  = enumerate_from k xs ++ enumerate_from (k + length xs) ys.
Proof.
  revert k. induction xs as [|x xs IH]; intros k; simpl.
  - by rewrite Nat.add_0_r.
  - rewrite IH. do 3 f_equal. lia.
Qed.

Section OneStrategy.
Variables (before after : list strategy) (strat : strategy).
Local Abbreviation strategies := (before ++ strat :: after).
Local Abbreviation names := (map strategy_name strategies).
Hypothesis others :
  ∀ s, s ∈ before ++ after → strategy_name s ≠ strategy_name strat.

Lemma others_in_names s :
  s ∈ before ++ after →
  strategy_name s ∈ names ∧ strategy_name s ≠ strategy_name strat.
Proof.
  intros Hs. split; [|by apply others].
  apply list_elem_of_fmap_2. set_solver.
Qed.

(** One element, followed through the entries of [strat]'s name. *)
Lemma check_element_tracked st idx el (b : bool) fi cands :
  keys_ok names st →
  entry_found st (strategy_name strat) = Some b →
  entry_found_in st (strategy_name strat) = Some fi →
  entry_candidates st (strategy_name strat) = Some cands →
  ∃ st', check_element nfkd strategies st (idx, el) = Ok st' ∧
    keys_ok names st' ∧
    entry_found st' (strategy_name strat)
      = Some (b || pattern_occurs_in nfkd strat el) ∧
    entry_found_in st' (strategy_name strat)
      = Some (if negb b && pattern_occurs_in nfkd strat el
              then fi ++ [element_label (u "el") idx el] else fi) ∧
    entry_candidates st' (strategy_name strat)
      = Some (if b then cands else cands ++ candidate_texts nfkd strat el).
Proof.
  intros Hk Hb Hfi Hc. unfold check_element. simpl.
  set (label := element_label (u "el") idx el).
  rewrite for_each_app.
  destruct (check_others names (strategy_name strat) el label before st Hk)
    as (st1 & Hrun1 & Hk1 & (Hb1 & Hfi1 & Hc1)).
  { intros s Hs. apply others_in_names. set_solver. }
  rewrite Hrun1. simpl.
  rewrite Hb in Hb1. rewrite Hfi in Hfi1. rewrite Hc in Hc1.
  destruct (check_strategy_ok names el label st1 strat Hk1)
    as (st2 & Hrun2 & Hk2 & _).
  { apply list_elem_of_fmap_2. set_solver. }
  rewrite Hrun2. simpl.
  destruct (check_others names (strategy_name strat) el label after st2 Hk2)
    as (st' & Hrun' & Hk' & (Hb' & Hfi' & Hc')).
  { intros s Hs. apply others_in_names. set_solver. }
  exists st'. split; [done|]. split; [done|].
  rewrite Hb', Hfi', Hc'. clear Hrun' Hb' Hfi' Hc' Hk'.
  unfold check_strategy, od_getitem in Hrun2.
  unfold entry_found in Hb1. rewrite Hb1 in Hrun2. simpl in Hrun2.
  destruct b; simpl.
  - injection Hrun2 as <-. done.
  - destruct (scan_containers_effect strat label (search_scope strat el)
                st1 fi cands Hfi1 Hc1) as (st2' & Hscan & Hf & Hd & Hp & _).
    rewrite Hscan in Hrun2. injection Hrun2 as ->.
    rewrite Hf, Hd, Hp. unfold pattern_occurs_in, candidate_texts, entry_found.
    rewrite Hb1. by destruct (existsb _ _).
Qed.

(** Elements in which the pattern does not occur: the strategy stays
    unsatisfied and collects their candidate texts. *)
Lemma elements_without_pattern els k st fi cands :
  Forall (λ e, pattern_occurs_in nfkd strat e = false) els →
  keys_ok names st →
  entry_found st (strategy_name strat) = Some false →
  entry_found_in st (strategy_name strat) = Some fi →
  entry_candidates st (strategy_name strat) = Some cands →
  ∃ st', for_each (check_element nfkd strategies) st (enumerate_from k els) = Ok st' ∧
    keys_ok names st' ∧
    entry_found st' (strategy_name strat) = Some false ∧
    entry_found_in st' (strategy_name strat) = Some fi ∧
    entry_candidates st' (strategy_name strat)
      = Some (cands ++ flat_map (candidate_texts nfkd strat) els).
Proof.
  intros Hno. revert k st cands.
  induction Hno as [|e els He _ IH]; intros k st cands Hk Hb Hfi Hc.
  - exists st. simpl. by rewrite app_nil_r.
  - destruct (check_element_tracked st k e false fi cands Hk Hb Hfi Hc)
      as (st1 & Hrun & Hk1 & Hb1 & Hfi1 & Hc1).
    rewrite He in Hb1, Hfi1. simpl in Hb1, Hfi1, Hc1.
    destruct (IH (S k) st1 _ Hk1 Hb1 Hfi1 Hc1)
      as (st' & Hrun' & Hk' & Hb' & Hfi' & Hc').
    exists st'. split; [simpl; by rewrite Hrun|].
    split; [done|]. split; [done|]. split; [done|].
    rewrite Hc'. simpl. by rewrite <- app_assoc.
Qed.

(** Once the strategy is satisfied no further element changes its
    entries: later elements are not searched for it. *)
Lemma elements_after_match els k st fi cands :
  keys_ok names st →
  entry_found st (strategy_name strat) = Some true →
  entry_found_in st (strategy_name strat) = Some fi →
  entry_candidates st (strategy_name strat) = Some cands →
  ∃ st', for_each (check_element nfkd strategies) st (enumerate_from k els) = Ok st' ∧
    keys_ok names st' ∧
    entry_found st' (strategy_name strat) = Some true ∧
    entry_found_in st' (strategy_name strat) = Some fi ∧
    entry_candidates st' (strategy_name strat) = Some cands.
Proof.
  revert k st. induction els as [|e els IH]; intros k st Hk Hb Hfi Hc.
  - by exists st.
  - destruct (check_element_tracked st k e true fi cands Hk Hb Hfi Hc)
      as (st1 & Hrun & Hk1 & Hb1 & Hfi1 & Hc1).
    simpl in Hb1, Hfi1, Hc1.
    destruct (IH (S k) st1 Hk1 Hb1 Hfi1 Hc1) as (st' & Hrun' & ?).
    exists st'. simpl. rewrite Hrun. done.
Qed.

Lemma find_strategies_first_match_split pre el post :
  Forall (λ e, pattern_occurs_in nfkd strat e = false) pre →
  pattern_occurs_in nfkd strat el = true →
  ∃ out printed,
    find_strategies_in_elements nfkd (pre ++ el :: post) strategies
    = Ok (out, printed) ∧
    entry_found out (strategy_name strat) = Some true ∧
    entry_found_in out (strategy_name strat)
      = Some [element_label (u "el") (length pre) el] ∧
    entry_candidates out (strategy_name strat)
      = Some (flat_map (candidate_texts nfkd strat) (pre ++ [el])).
Proof.
  intros Hpre Hel. unfold find_strategies_in_elements.
  set (st0 := {| strategies_found := _ |}).
  assert (strategy_name strat ∈ names) as Hin.
  { apply list_elem_of_fmap_2. set_solver. }
  assert (keys_ok names st0) as Hk0.
  { intros n Hn. unfold entry_found, entry_found_in, entry_candidates. simpl.
    rewrite !od_comprehension_lookup, !bool_decide_eq_true_2 by done. eauto. }
  assert (entry_found st0 (strategy_name strat) = Some false ∧
          entry_found_in st0 (strategy_name strat) = Some [] ∧
          entry_candidates st0 (strategy_name strat) = Some []) as (Hb0 & Hfi0 & Hc0).
  { unfold entry_found, entry_found_in, entry_candidates. simpl.
    by rewrite !od_comprehension_lookup, !bool_decide_eq_true_2. }
  rewrite enumerate_from_app, for_each_app. simpl.
  destruct (elements_without_pattern pre 0 st0 [] [] Hpre Hk0 Hb0 Hfi0 Hc0)
    as (st1 & Hrun1 & Hk1 & Hb1 & Hfi1 & Hc1).
  rewrite Hrun1. simpl.
  destruct (check_element_tracked st1 (length pre) el false [] _ Hk1 Hb1 Hfi1 Hc1)
    as (st2 & Hrun2 & Hk2 & Hb2 & Hfi2 & Hc2).
  rewrite Hrun2. simpl. rewrite Hel in Hb2, Hfi2. simpl in Hb2, Hfi2, Hc2.
  destruct (elements_after_match post (S (length pre)) st2 _ _ Hk2 Hb2 Hfi2 Hc2)
    as (st' & Hrun' & _ & Hb' & Hfi' & Hc').
  rewrite Hrun'. simpl. eexists _, _. split; [done|].
  split; [done|]. split; [done|].
  rewrite Hc', flat_map_app. simpl. by rewrite app_nil_r.
Qed.
End OneStrategy.

(** C5, as amended. Strategy names are distinct; the pattern of [strat]
    occurs in [el] and in no element before it. Then the search returns,
    [strat] is marked found, its [found_in] is the one label of [el], and
    its candidate texts come from the elements up to [el] only: whatever
    follows [el] is not searched for it. *)
Theorem find_strategies_first_match
    (pre post : list node) (el : node) (strategies : list strategy)
    (strat : strategy) :
  strat ∈ strategies →
  NoDup (map strategy_name strategies) →
  Forall (λ e, pattern_occurs_in nfkd strat e = false) pre →
  pattern_occurs_in nfkd strat el = true →
  ∃ out printed,
    find_strategies_in_elements nfkd (pre ++ el :: post) strategies
    = Ok (out, printed) ∧
    entry_found out (strategy_name strat) = Some true ∧
    entry_found_in out (strategy_name strat)
      = Some [element_label (u "el") (length pre) el] ∧
    entry_candidates out (strategy_name strat)
      = Some (flat_map (candidate_texts nfkd strat) (pre ++ [el])).
Proof.
  intros Hin Hnd Hpre Hel.
  apply list_elem_of_split in Hin as (before & after & ->).
  apply find_strategies_first_match_split; [|done..].
  intros s Hs Heq.
  rewrite map_app in Hnd. simpl in Hnd.
  apply NoDup_app in Hnd as (Hnd1 & Hdisj & Hnd2).
  apply NoDup_cons in Hnd2 as [Hnotin _].
  apply elem_of_app in Hs as [Hs|Hs].
  - apply (Hdisj (strategy_name strat)).
    + rewrite <- Heq. by apply list_elem_of_fmap_2.
    + by left.
  - apply Hnotin. rewrite <- Heq. by apply list_elem_of_fmap_2.
Qed.
End StrategySearch.

Lemma find_strategies_first_match_witness :
  ∃ out printed,
    Scraper.find_strategies_in_elements Samples.nfkd_sample
      ([Samples.el_sellers] ++ Samples.el_recommended :: [Samples.el_recommended_again])
      [Samples.strategy_sellers; Samples.strategy_recommended]
    = Ok (out, printed) ∧
    Scraper.entry_found out (u "Strategy 1") = Some true ∧
    Scraper.entry_found_in out (u "Strategy 1")
      = Some [Scraper.element_label (u "el") 1 Samples.el_recommended] ∧
    Scraper.entry_candidates out (u "Strategy 1")
      = Some (flat_map (Scraper.candidate_texts Samples.nfkd_sample
                          Samples.strategy_recommended)
                       ([Samples.el_sellers] ++ [Samples.el_recommended])).
Proof.
  apply (find_strategies_first_match Samples.nfkd_sample
           [Samples.el_sellers] [Samples.el_recommended_again] Samples.el_recommended
           [Samples.strategy_sellers; Samples.strategy_recommended]
           Samples.strategy_recommended).
  - right. left.
  - apply (bool_decide_unpack _). vm_compute. exact I.
  - repeat constructor.
  - vm_compute. reflexivity.
Defined.

(** Two elements of which only the second holds the pattern: [found_in] is
    the second element's label alone (here its id). *)
Lemma find_strategies_second_element :
  Samples.found_in_after
    (Scraper.find_strategies_in_elements Samples.nfkd_sample
       [Samples.el_sellers; Samples.el_recommended] [Samples.strategy_recommended])
    (u "Strategy 1")
  = Some [u "recs"].
Proof. vm_compute. reflexivity. Qed.

(** The claim as first stated fails when two strategies share a name. The
    pattern of the second strategy occurs in exactly one element, the
    second; but the entry of the shared name is already satisfied by the
    first strategy in the first element, so [found_in] holds the first
    element's label and not the second's. *)
Lemma find_strategies_shared_name :
  Scraper.pattern_occurs_in Samples.nfkd_sample Samples.strategy_recommended
    Samples.el_sellers = false ∧
  Scraper.pattern_occurs_in Samples.nfkd_sample Samples.strategy_recommended
    Samples.el_recommended = true ∧
  Samples.found_in_after
    (Scraper.find_strategies_in_elements Samples.nfkd_sample
       [Samples.el_sellers; Samples.el_recommended]
       [Samples.strategy_sellers_same_name; Samples.strategy_recommended])
    (u "Strategy 1")
  = Some [u "el-1"] ∧
  Scraper.element_label (u "el") 1 Samples.el_recommended = u "recs".
Proof. vm_compute. done. Qed.

(** ** Target crawl job and orchestrator *)

(** ** Dicts as item lists *)

Lemma dict_lookup_app k (d d' : list (list N * pyval)) :
  dict_lookup k (d ++ d')
  = match dict_lookup k d with Some v => Some v | None => dict_lookup k d' end.
Proof.
  induction d as [|[k' v] d IH]; simpl; [done|].
  by case_bool_decide.
Qed.

Lemma dict_has_app k (d d' : list (list N * pyval)) :
  dict_has k (d ++ d') = dict_has k d || dict_has k d'.
Proof.
  unfold dict_has. rewrite dict_lookup_app. by destruct (dict_lookup k d).
Qed.

Lemma dict_has_added k v (d : list (list N * pyval)) :
  dict_has k (d ++ [(k, v)]) = true.
Proof.
  rewrite (dict_has_app k d). unfold dict_has at 2. cbn [dict_lookup].
  rewrite bool_decide_eq_true_2 by reflexivity. apply orb_true_r.
Qed.

Lemma dict_has_kept k k' v (d : list (list N * pyval)) :
  dict_has k d = true → dict_has k (d ++ [(k', v)]) = true.
Proof. intros H. by rewrite (dict_has_app k d), H. Qed.

Lemma dict_lookup_kept k k' v v' (d : list (list N * pyval)) :
  dict_lookup k d = Some v → dict_lookup k (d ++ [(k', v')]) = Some v.
Proof. intros H. by rewrite (dict_lookup_app k d), H. Qed.

(** ** The job of a target and the run *)

Section JobFacts.
Import Orchestrator.
Context (C : collaborators) (self : orchestrator).

Lemma bind_run {A B} (m : M C A) (k : A → M C B) st :
  bind m k st = match m st with
                | (st', inr a) => k a st'
                | (st', inl e) => (st', inl e)
                end.
Proof. reflexivity. Qed.

Lemma keeps_ret {A} (a : A) : keeps_accumulators (ret (C:=C) a).
Proof. by intros st st' r [= <- <-]. Qed.

Lemma keeps_raise {A} e : keeps_accumulators (raise (C:=C) (A:=A) e).
Proof. by intros st st' r [= <- <-]. Qed.

Lemma keeps_lift {A} (r : result A) : keeps_accumulators (lift (C:=C) r).
Proof. destruct r; [apply keeps_ret | apply keeps_raise]. Qed.

Lemma keeps_perform {A} (c : call C A) : keeps_accumulators (perform c).
Proof.
  intros st st' r. unfold perform. destruct (c _) as [w r']. by intros [= <- <-].
Qed.

Lemma keeps_read_clock : keeps_accumulators (read_clock C).
Proof.
  intros st st' r. unfold read_clock. destruct (now _ _) as [w t]. by intros [= <- <-].
Qed.

Lemma keeps_init_locals : keeps_accumulators (init_locals C).
Proof. by intros st st' r [= <- <-]. Qed.

Lemma keeps_append_page_result x : keeps_accumulators (append_page_result C x).
Proof. by intros st st' r [= <- <-]. Qed.

Lemma keeps_append_country_alert x : keeps_accumulators (append_country_alert C x).
Proof. by intros st st' r [= <- <-]. Qed.

Lemma keeps_get_country_alerts : keeps_accumulators (get_country_alerts C).
Proof. by intros st st' r [= <- <-]. Qed.

Lemma keeps_get_results_by_page : keeps_accumulators (get_results_by_page C).
Proof. by intros st st' r [= <- <-]. Qed.

Lemma keeps_bind {A B} (m : M C A) (k : A → M C B) :
  keeps_accumulators m → (∀ a, keeps_accumulators (k a)) →
  keeps_accumulators (bind m k).
Proof.
  intros Hm Hk st st' r. rewrite bind_run.
  destruct (m st) as [st1 [e|a]] eqn:E; destruct (Hm _ _ _ E) as [<- <-].
  - by intros [= <- <-].
  - apply Hk.
Qed.

Lemma try_except_run {A} (body : M C A) (handler : exn C → M C A) st :
  try_except body handler st
  = match body st with
    | (st', inr a) => (st', inr a)
    | (st', inl e) => if is_exception C e then handler e st' else (st', inl e)
    end.
Proof. reflexivity. Qed.

Lemma keeps_try_except {A} (body : M C A) handler :
  keeps_accumulators body → (∀ e, keeps_accumulators (handler e)) →
  keeps_accumulators (try_except body handler).
Proof.
  intros Hm Hh st st' r. unfold try_except.
  destruct (body st) as [st1 [e|a]] eqn:E; destruct (Hm _ _ _ E) as [<- <-].
  - destruct (is_exception C e); [apply Hh|by intros [= <- <-]].
  - by intros [= <- <-].
Qed.

Lemma keeps_for_loop {A} (body : A → M C unit) xs :
  (∀ x, keeps_accumulators (body x)) → keeps_accumulators (for_loop body xs).
Proof.
  intros Hb. induction xs as [|x xs IH]; simpl.
  - apply keeps_ret.
  - apply keeps_bind; [apply Hb | by intros _].
Qed.

Create HintDb keeps.
Hint Resolve keeps_ret keeps_raise keeps_lift keeps_perform keeps_read_clock
  keeps_init_locals keeps_append_page_result keeps_append_country_alert
  keeps_get_country_alerts keeps_get_results_by_page : keeps.

Lemma keeps_collect_alert alert : keeps_accumulators (collect_alert C alert).
Proof.
  unfold collect_alert.
  apply keeps_bind; [destruct (dict_has _ _); auto with keeps|]. intros a1.
  apply keeps_bind; [|auto with keeps].
  destruct (dict_has _ _); [auto with keeps|].
  apply keeps_bind; auto with keeps.
Qed.

Lemma keeps_scrape_page_type sc country item :
  keeps_accumulators (scrape_page_type C sc country item).
Proof.
  destruct item as [page_type page_config]. unfold scrape_page_type.
  case_bool_decide; [auto with keeps|].
  apply keeps_bind; [auto with keeps|]. intros url.
  destruct (negb (truthy url)); [auto with keeps|].
  apply keeps_try_except; [|auto with keeps].
  apply keeps_bind; [auto with keeps|]. intros _.
  apply keeps_bind; [auto with keeps|]. intros result.
  apply keeps_bind; [auto with keeps|]. intros _.
  destruct (_ && _); [|auto with keeps].
  apply keeps_try_except; [|auto with keeps].
  apply keeps_bind; [auto with keeps|]. intros page_alerts.
  apply keeps_for_loop, keeps_collect_alert.
Qed.

Lemma keeps_failed_result country e :
  keeps_accumulators (failed_result C country e).
Proof. unfold failed_result. apply keeps_bind; auto with keeps. Qed.

Lemma failed_result_returns country e st :
  ∃ st' t, failed_result C country e st
           = (st', inr {| country := country; status := u "failed";
                          alerts_count := None; pages := None;
                          error := Some (str_exn C e); timestamp := t |}).
Proof.
  unfold failed_result. rewrite bind_run. unfold read_clock.
  destruct (now _ _) as [w t]. by eexists _, _.
Qed.

Lemma keeps_save_alerts alerts : keeps_accumulators (save_alerts C self alerts).
Proof.
  unfold save_alerts. destruct alerts; [auto with keeps|].
  destruct (storage_available self); [|auto with keeps].
  apply keeps_try_except; auto with keeps.
Qed.


(** What a raising collaborator call raised. *)
Lemma perform_only_exceptions {A} (c : call C A) st st' e :
  only_exceptions C c → perform c st = (st', inl e) → is_exception C e = true.
Proof.
  intros Hc. unfold perform. destruct (c (the_world st)) as [w r] eqn:E.
  intros [= _ ->]. by eapply Hc.
Qed.

Lemma job_progress_refl n (st : state C) : job_progress n st st.
Proof.
  repeat split; [exists []|exists []]; rewrite app_nil_r;
    (split; [done|]); [simpl; lia|constructor].
Qed.

Lemma job_progress_trans n1 n2 (st1 st2 st3 : state C) :
  job_progress n1 st1 st2 → job_progress n2 st2 st3 →
  job_progress (n1 + n2) st1 st3.
Proof.
  intros (Hr1 & Ha1 & (ps1 & Hp1 & Hl1) & (al1 & Hc1 & Hs1))
         (Hr2 & Ha2 & (ps2 & Hp2 & Hl2) & (al2 & Hc2 & Hs2)).
  split; [congruence|]. split; [congruence|]. split.
  - exists (ps1 ++ ps2). rewrite Hp2, Hp1, app_assoc, length_app.
    split; [done|lia].
  - exists (al1 ++ al2). rewrite Hc2, Hc1, app_assoc.
    split; [done|]. by apply Forall_app.
Qed.

Lemma job_progress_mono n n' (st st' : state C) :
  (n ≤ n')%nat → job_progress n st st' → job_progress n' st st'.
Proof.
  intros Hn (Hr & Ha & (ps & Hp & Hl) & Hc).
  repeat split; try done. exists ps. split; [done|lia].
Qed.

(** A statement that only changes the world. *)
Lemma perform_progress {A} (c : call C A) st st' r :
  perform c st = (st', r) → job_progress 0 st st'.
Proof.
  unfold perform. destruct (c _) as [w r']. intros [= <- <-].
  repeat split; [exists []|exists []]; simpl; rewrite app_nil_r;
    (split; [done|]); [simpl; lia|constructor].
Qed.

(** One alert of a page: both keys are made sure of, the keys it had stay,
    and it joins the alerts of the job. *)
Lemma collect_alert_run alert st :
  ∃ st' alert',
    collect_alert C alert st = (st', inr ()) ∧
    stamped alert' = true ∧
    (∀ k v, dict_lookup k alert = Some v → dict_lookup k alert' = Some v) ∧
    self_results st' = self_results st ∧
    self_alerts st' = self_alerts st ∧
    results_by_page st' = results_by_page st ∧
    country_alerts st' = country_alerts st ++ [alert'].
Proof.
  unfold collect_alert. rewrite bind_run.
  set (a1 := if dict_has (u "status") alert then alert
             else alert ++ [(u "status", PStr (u "MISSING_COMPONENT"))]).
  assert (H1 : dict_has (u "status") a1 = true).
  { unfold a1. destruct (dict_has (u "status") alert) eqn:Hs; [done|].
    apply dict_has_added. }
  assert (Hk1 : ∀ k v, dict_lookup k alert = Some v → dict_lookup k a1 = Some v).
  { intros k v Hk. unfold a1. destruct (dict_has (u "status") alert); [done|].
    by apply dict_lookup_kept. }
  replace ((if dict_has (u "status") alert then ret alert
            else ret (alert ++ [(u "status", PStr (u "MISSING_COMPONENT"))])) st)
    with (st, @inr (exn C) _ a1)
    by (unfold a1; by destruct (dict_has (u "status") alert)).
  rewrite bind_run.
  destruct (dict_has (u "timestamp") a1) eqn:Ht.
  - exists (append_country_alert C a1 st).1, a1.
    split; [reflexivity|]. unfold stamped. rewrite H1, Ht. by repeat split.
  - rewrite bind_run. unfold read_clock. destruct (now C (the_world st)) as [w t].
    eexists _, (a1 ++ [(u "timestamp", PStr t)]).
    split; [reflexivity|]. unfold stamped.
    rewrite dict_has_added, (dict_has_kept _ _ _ _ H1).
    repeat split; try reflexivity.
    intros k v Hk. by apply dict_lookup_kept, Hk1.
Qed.

Lemma collect_alerts_run page_alerts st :
  ∃ st', for_loop (collect_alert C) page_alerts st = (st', inr ()) ∧
         job_progress 0 st st'.
Proof.
  revert st. induction page_alerts as [|a rest IH]; intros st; simpl.
  - exists st. split; [done|]. apply job_progress_refl.
  - rewrite bind_run.
    destruct (collect_alert_run a st) as (st1 & a' & -> & Hst & _ & Hr & Ha & Hp & Hc).
    destruct (IH st1) as (st' & -> & Hprog).
    exists st'. split; [done|].
    apply (job_progress_trans 0 0 st st1 st'); [|done].
    repeat split; try done.
    + exists []. rewrite app_nil_r. split; [done|simpl; lia].
    + exists [a']. split; [done|]. by constructor.
Qed.

(** One configured page: whatever the browser, the scraper or the alert
    generation do, the accumulators stay, at most one page result is kept
    and the alerts collected carry both keys. When these three raise
    instances of [Exception] only, the statement raises only on a page
    configuration that is no object: [AttributeError]. *)
Lemma scrape_page_type_spec sc country item st st' r :
  scrape_page_type C sc country item st = (st', r) →
  job_progress 1 st st' ∧
  (pages_raise_only_exceptions C →
   match r with
   | inr _ => True
   | inl e => page_config_ok item = false ∧ e = of_pyerr C AttributeError
   end).
Proof.
  destruct item as [page_type page_config]. unfold scrape_page_type, page_config_ok.
  cbn [fst snd].
  case_bool_decide as Hsetup.
  { intros [= <- <-]. split; [apply job_progress_refl|done]. }
  cbn [orb]. rewrite bind_run.
  destruct page_config as [| | | | |cfg]; cbn [py_get lift isinstance_dict];
    try (intros [= <- <-]; split; [apply job_progress_refl|done]).
  cbn [ret]. destruct (negb (truthy _)).
  { intros [= <- <-]. split; [apply job_progress_refl|done]. }
  rewrite try_except_run, bind_run.
  destruct (perform (fetch_page C sc _) st) as [st1 [e|done1]] eqn:E1;
    pose proof (perform_progress _ _ _ _ E1) as P1.
  { destruct (is_exception C e) eqn:Hx; intros [= <- <-];
      (split; [apply (job_progress_mono 0 1); [lia|done]|]); [done|].
    intros (Hf & _ & _).
    rewrite (perform_only_exceptions _ _ _ _ (Hf _ _) E1) in Hx. done. }
  rewrite bind_run.
  destruct (perform (scrape_page C sc country page_type _) st1)
    as [st2 [e|result]] eqn:E2;
    pose proof (perform_progress _ _ _ _ E2) as P2.
  { assert (P : job_progress 1 st st2).
    { apply (job_progress_trans 0 1 st st1 st2); [done|].
      apply (job_progress_mono 0 1); [lia|done]. }
    destruct (is_exception C e) eqn:Hx; intros [= <- <-]; (split; [done|]);
      [done|].
    intros (_ & Hs & _).
    rewrite (perform_only_exceptions _ _ _ _ (Hs _ _ _ _) E2) in Hx. done. }
  rewrite bind_run. cbn [append_page_result].
  set (st3 := {| the_world := the_world st2;
                 self_results := self_results st2;
                 self_alerts := self_alerts st2;
                 results_by_page := results_by_page st2 ++ [result];
                 country_alerts := country_alerts st2 |}).
  assert (P3 : job_progress 1 st st3).
  { apply (job_progress_trans 0 1 st st1 st3); [done|].
    apply (job_progress_trans 0 1 st1 st2 st3); [done|].
    repeat split; try done.
    - exists [result]. split; [done|simpl; lia].
    - exists []. simpl. rewrite app_nil_r. split; [done|constructor]. }
  destruct (truthy (PDict result) && negb (dict_has (u "error") result)).
  2:{ intros [= <- <-]. by split. }
  rewrite try_except_run, bind_run.
  destruct (perform (generate_alerts C sc result) st3) as [st4 [e|page_alerts]] eqn:E4;
    pose proof (perform_progress _ _ _ _ E4) as P4.
  { assert (P : job_progress 1 st st4).
    { apply (job_progress_trans 1 0 st st3 st4) in P4; [|done].
      by rewrite Nat.add_0_r in P4. }
    destruct (is_exception C e) eqn:Hx; cbn [ret]; rewrite ?Hx;
      intros [= <- <-]; (split; [done|]); [done|].
    intros (_ & _ & Hg).
    rewrite (perform_only_exceptions _ _ _ _ (Hg _ _) E4) in Hx. done. }
  destruct (collect_alerts_run page_alerts st4) as (st5 & -> & P5).
  intros [= <- <-]. split; [|done].
  apply (job_progress_trans 0 0 st3 st4 st5) in P5; [|done].
  apply (job_progress_trans 1 0 st st3 st5) in P5; [|done].
  by rewrite Nat.add_0_r in P5.
Qed.

Lemma scrape_pages_spec sc country items st st' r :
  for_loop (scrape_page_type C sc country) items st = (st', r) →
  job_progress (length items) st st' ∧
  (pages_raise_only_exceptions C →
   match r with
   | inr _ => True
   | inl e => forallb page_config_ok items = false ∧ e = of_pyerr C AttributeError
   end).
Proof.
  revert st. induction items as [|item items IH]; intros st; simpl.
  - intros [= <- <-]. split; [apply job_progress_refl|done].
  - rewrite bind_run.
    destruct (scrape_page_type C sc country item st) as [st1 [e|done1]] eqn:E1;
      destruct (scrape_page_type_spec _ _ _ _ _ _ E1) as [P1 R1].
    + intros [= <- <-]. split; [apply (job_progress_mono 1); [lia|done]|].
      intros Hp. destruct (R1 Hp) as [-> ->]. done.
    + intros [P2 R2]%IH. split.
      * by apply (job_progress_trans 1 (length items) st st1 st').
      * intros Hp. specialize (R2 Hp). destruct r as [e|]; [|done].
        destruct R2 as [-> ->]. by rewrite andb_false_r.
Qed.

(** Saving the alerts of the job changes none of its lists, and raises
    only what the store raises outside the class [Exception]. *)
Lemma save_alerts_run alerts st st' r :
  save_alerts C self alerts st = (st', r) →
  job_progress 0 st st' ∧
  (store_raises_only_exceptions C → r = inr ()).
Proof.
  unfold save_alerts. destruct alerts as [|a alerts].
  { intros [= <- <-]. split; [apply job_progress_refl|done]. }
  destruct (storage_available self).
  2:{ intros [= <- <-]. split; [apply job_progress_refl|done]. }
  rewrite try_except_run.
  destruct (perform (add_alerts C (a :: alerts)) st) as [st1 [e|done1]] eqn:E;
    pose proof (perform_progress _ _ _ _ E) as P.
  - destruct (is_exception C e) eqn:Hx; intros [= <- <-]; (split; [done|]);
      [done|].
    intros Ha. rewrite (perform_only_exceptions _ _ _ _ (Ha _) E) in Hx. done.
  - intros [= <- <-]. split; [done|]. by destruct done1.
Qed.

(** The statements inside the [try] of [_scrape_country]. The alerts of
    the job reach [self.alerts] in one [extend], each carrying both keys;
    the result returned is the success form; and what is raised comes from
    building the scraper, from a configuration that is no object, from the
    page loop, from the store, or - the only case after the [extend] - from
    closing the browser. *)
Lemma job_body_run country st st' r :
  job_body C self country st = (st', r) →
  self_results st' = self_results st ∧
  ∃ extra,
    self_alerts st' = self_alerts st ++ extra ∧
    Forall (λ a, stamped a = true) extra ∧
    match r with
    | inr res =>
        res.(Orchestrator.country) = country ∧
        status res = u "success" ∧
        alerts_count res = Some (length extra) ∧ error res = None ∧
        ∃ ps, pages res = Some ps ∧
              ∀ items, py_items (dict_get (config self) country (PDict [])) = Ok items →
                       (length ps ≤ length items)%nat
    | inl e =>
        (extra = [] ∧
         ((∃ w1, new_scraper C (config_path self) (the_world st) = (w1, inl e)) ∨
          (∃ pe, py_items (dict_get (config self) country (PDict [])) = Raise pe ∧
                 e = of_pyerr C pe) ∨
          (pages_raise_only_exceptions C →
           ∃ items, py_items (dict_get (config self) country (PDict [])) = Ok items ∧
                    forallb page_config_ok items = false ∧
                    e = of_pyerr C AttributeError) ∨
          (store_raises_only_exceptions C → False))) ∨
        (∃ sc w w', close_browser C sc w = (w', inl e))
    end.
Proof.
  unfold job_body. rewrite bind_run. unfold perform at 1.
  destruct (new_scraper C (config_path self) (the_world st)) as [w1 [e|sc]] eqn:E1.
  { intros [= <- <-]. split; [done|]. exists []. rewrite app_nil_r.
    split; [done|]. split; [constructor|]. left. split; [done|]. left. eauto. }
  rewrite bind_run. cbn [init_locals]. rewrite bind_run.
  destruct (py_items (dict_get (config self) country (PDict []))) as [items|pe] eqn:E3.
  2:{ intros [= <- <-]. split; [done|]. exists []. rewrite app_nil_r.
      split; [done|]. split; [constructor|]. left. split; [done|].
      right; left. eauto. }
  cbn [lift ret]. rewrite bind_run.
  match goal with
  | |- context [for_loop _ items ?s] => set (st2 := s)
  end.
  destruct (for_loop (scrape_page_type C sc country) items st2) as [st4 r4] eqn:E4.
  destruct (scrape_pages_spec _ _ _ _ _ _ E4)
    as [(Hr4 & Ha4 & (ps & Hp4 & Hl4) & (als & Hc4 & Hs4)) R4].
  cbn in Hr4, Ha4, Hp4, Hc4.
  destruct r4 as [e|done4].
  { intros [= <- <-]. split; [done|]. exists []. rewrite app_nil_r.
    split; [done|]. split; [constructor|]. left. split; [done|].
    right; right; left. intros Hp. exists items. split; [done|]. exact (R4 Hp). }
  rewrite bind_run. cbn [get_country_alerts]. rewrite bind_run.
  destruct (save_alerts C self (country_alerts st4) st4) as [st5 r5] eqn:E5.
  destruct (save_alerts_run _ _ _ _ E5)
    as [(Hr5 & Ha5 & (ps5 & Hp5 & Hl5) & (als5 & Hc5 & Hs5)) R5].
  destruct ps5; [|simpl in Hl5; lia]. rewrite app_nil_r in Hp5.
  destruct r5 as [e|done5].
  { intros [= <- <-]. split; [congruence|]. exists []. rewrite app_nil_r.
    split; [congruence|]. split; [constructor|]. left. split; [done|].
    right; right; right. intros Hs. by specialize (R5 Hs). }
  rewrite bind_run. cbn [extend_self_alerts]. rewrite bind_run.
  unfold perform at 1. cbn [the_world].
  destruct (close_browser C sc (the_world st5)) as [w6 [e|done6]] eqn:E6.
  { intros [= <- <-]. cbn. split; [congruence|].
    exists (country_alerts st5). rewrite Ha5, Ha4. split; [done|].
    rewrite Hc5, Hc4. split; [by apply Forall_app|]. right. eauto. }
  rewrite bind_run. cbn [get_country_alerts self_results self_alerts
    results_by_page country_alerts the_world].
  rewrite bind_run. cbn [get_results_by_page self_results self_alerts
    results_by_page country_alerts the_world].
  rewrite bind_run. unfold read_clock. cbn [the_world].
  destruct (now C w6) as [w7 t]. cbn [ret].
  intros [= <- <-]. cbn. split; [congruence|].
  exists (country_alerts st5). rewrite Ha5, Ha4. split; [done|].
  rewrite Hc5, Hc4. split; [by apply Forall_app|].
  repeat split; try reflexivity.
  eexists. split; [reflexivity|]. intros items' [= <-].
  rewrite Hp5, Hp4. exact Hl4.
Qed.

(** Under collaborators that raise instances of [Exception] only, so does
    the body of a job. *)
Lemma job_body_raises_exception country st st' e :
  job_raises_only_exceptions C →
  job_body C self country st = (st', inl e) → is_exception C e = true.
Proof.
  intros (Hnew & Hpages & Hstore & Hclose) E.
  destruct (job_body_run _ _ _ _ E) as (_ & extra & _ & _ & Hcase).
  destruct Hcase as [[_ [(w1 & H)|[(pe & _ & ->)|[H|H]]]]|(sc & w & w' & H)].
  - by eapply Hnew.
  - apply of_pyerr_is_exception.
  - destruct (H Hpages) as (items & _ & _ & ->). apply of_pyerr_is_exception.
  - destruct (H Hstore).
  - by eapply Hclose.
Qed.

(** C6, as amended. The job of a target turns every instance of
    [Exception] raised inside its [try] into a target result: when the
    body raises such an [e] the job returns the result of status [failed]
    and error [str(e)]; when the body returns, the job returns its result,
    of status [success]; what derives from [BaseException] only passes the
    handler and leaves the job. With collaborators that raise instances of
    [Exception] only, the job always returns a target result. *)
Theorem scrape_country_never_raises (country : list N) (st : state C) :
  match job_body C self country st with
  | (st1, inr res1) =>
      _scrape_country C self country st = (st1, inr res1) ∧
      res1.(Orchestrator.country) = country ∧
      status res1 = u "success" ∧ error res1 = None
  | (st1, inl e) =>
      if is_exception C e
      then ∃ st' res,
             _scrape_country C self country st = (st', inr res) ∧
             res.(Orchestrator.country) = country ∧
             status res = u "failed" ∧ error res = Some (str_exn C e) ∧
             alerts_count res = None
      else _scrape_country C self country st = (st1, inl e)
  end ∧
  (job_raises_only_exceptions C →
   ∃ st' res, _scrape_country C self country st = (st', inr res) ∧
              res.(Orchestrator.country) = country).
Proof.
  unfold _scrape_country. rewrite try_except_run.
  destruct (job_body C self country st) as [st1 [e|res]] eqn:E.
  - assert (is_exception C e = true →
            ∃ st' res, failed_result C country e st1 = (st', inr res) ∧
                       res.(Orchestrator.country) = country ∧
                       status res = u "failed" ∧ error res = Some (str_exn C e) ∧
                       alerts_count res = None) as Hfail.
    { intros _. destruct (failed_result_returns country e st1) as (st' & t & ->).
      by eexists _, _. }
    split.
    + destruct (is_exception C e); [by apply Hfail|done].
    + intros Honly. rewrite (job_body_raises_exception _ _ _ _ Honly E).
      destruct (Hfail (job_body_raises_exception _ _ _ _ Honly E))
        as (st' & res & -> & Hc & _). eauto.
  - destruct (job_body_run _ _ _ _ E) as (_ & extra & _ & _ & Hc & Hs & _ & He & _).
    split; [done|]. intros _. eauto.
Qed.

(** A job leaves the results alone and appends alerts carrying both keys
    to [self.alerts], however it ends. *)
Lemma scrape_country_run country st st' r :
  _scrape_country C self country st = (st', r) →
  self_results st' = self_results st ∧
  ∃ extra, self_alerts st' = self_alerts st ++ extra ∧
           Forall (λ a, stamped a = true) extra.
Proof.
  unfold _scrape_country. rewrite try_except_run.
  destruct (job_body C self country st) as [st1 [e|res]] eqn:E;
    destruct (job_body_run _ _ _ _ E) as (Hr & extra & Ha & Hst & _).
  - destruct (is_exception C e).
    + intros E2. destruct (keeps_failed_result _ _ _ _ _ E2) as [-> ->]. eauto.
    + intros [= <- <-]. eauto.
  - intros [= <- <-]. eauto.
Qed.

(** One job as the orchestrator sees it: the job's alerts appended to
    [self.alerts], and one more result, for that target - unless the job
    let through what is no instance of [Exception]. *)
Lemma collect_job_spec country st st' r :
  collect_job C self country st = (st', r) →
  ∃ extra,
    self_alerts st' = self_alerts st ++ extra ∧
    Forall (λ a, stamped a = true) extra ∧
    match r with
    | inr _ =>
        ∃ res, self_results st' = self_results st ++ [res] ∧
               res.(Orchestrator.country) = country ∧
               (status res = u "success" ∨ status res = u "failed") ∧
               (default 0 (alerts_count res) ≤ length extra)%nat ∧
               (release_never_fails C →
                length extra = default 0%nat (alerts_count res))
    | inl e => self_results st' = self_results st ∧ is_exception C e = false ∧
               (job_raises_only_exceptions C → False)
    end.
Proof.
  unfold collect_job. rewrite try_except_run, bind_run.
  unfold _scrape_country. rewrite try_except_run.
  destruct (job_body C self country st) as [st1 [e|res]] eqn:E;
    destruct (job_body_run _ _ _ _ E) as (Hr1 & extra & Ha1 & Hst & Hres).
  - destruct (is_exception C e) eqn:Hx.
    + destruct (failed_result_returns country e st1) as (st2 & t & E2).
      destruct (keeps_failed_result _ _ _ _ _ E2) as [Ha2 Hr2].
      rewrite E2. cbn [append_result]. intros [= <- <-]. cbn.
      exists extra. split; [congruence|]. split; [done|].
      eexists. split; [rewrite Hr2, Hr1; reflexivity|]. cbn.
      split; [done|]. split; [by right|]. split; [lia|].
      intros Hrel. destruct Hres as [[-> _]|(sc & w & w' & Hclose)]; [done|].
      destruct (Hrel sc w) as [w'' Hok]. congruence.
    + rewrite Hx. intros [= <- <-]. exists extra. split; [done|]. split; [done|].
      split; [done|]. split; [done|]. intros Honly.
      rewrite (job_body_raises_exception _ _ _ _ Honly E) in Hx. done.
  - destruct Hres as (Hc & Hs & Hn & _). cbn [append_result].
    intros [= <- <-]. cbn. exists extra. split; [done|]. split; [done|].
    exists res. rewrite Hn, Hr1. cbn. repeat split; try done. by left.
Qed.

(** The jobs the executor waits for when the [with] block is left early. *)
Lemma await_jobs_run countries st :
  self_results (await_jobs C self countries st).1 = self_results st ∧
  ∃ extra, self_alerts (await_jobs C self countries st).1 = self_alerts st ++ extra ∧
           Forall (λ a, stamped a = true) extra.
Proof.
  revert st. induction countries as [|c rest IH]; intros st; cbn [await_jobs].
  - split; [done|]. exists []. by rewrite app_nil_r.
  - destruct (_scrape_country C self c st) as [st1 r1] eqn:E.
    destruct (scrape_country_run _ _ _ _ E) as (Hr1 & extra1 & Ha1 & Hs1).
    destruct (IH st1) as (Hr & extra & Ha & Hs). cbn [fst].
    split; [congruence|]. exists (extra1 ++ extra).
    rewrite Ha, Ha1, app_assoc. split; [done|]. by apply Forall_app.
Qed.

(** All the jobs of a run, in completion order. *)
Lemma collect_jobs_spec order st st' r :
  collect_jobs C self order st = (st', r) →
  ∃ extra,
    self_alerts st' = self_alerts st ++ extra ∧
    Forall (λ a, stamped a = true) extra ∧
    match r with
    | inr _ =>
        ∃ rs, self_results st' = self_results st ++ rs ∧
              map Orchestrator.country rs = order ∧
              Forall (λ res, status res = u "success" ∨ status res = u "failed") rs ∧
              (sum_alerts_count rs ≤ length extra)%nat ∧
              (release_never_fails C → length extra = sum_alerts_count rs)
    | inl e => is_exception C e = false ∧ (job_raises_only_exceptions C → False)
    end.
Proof.
  revert st. induction order as [|country order IH]; intros st; cbn [collect_jobs].
  - intros [= <- <-]. exists []. rewrite app_nil_r. split; [done|].
    split; [constructor|]. exists []. rewrite app_nil_r. by repeat split.
  - destruct (collect_job C self country st) as [st1 r1] eqn:E1.
    destruct (collect_job_spec _ _ _ _ E1) as (extra1 & Ha1 & Hs1 & Hres1).
    destruct r1 as [e|done1].
    + intros [= <- <-].
      destruct (await_jobs_run order st1) as (_ & extra & Ha & Hs).
      exists (extra1 ++ extra). rewrite Ha, Ha1, app_assoc.
      split; [done|]. split; [by apply Forall_app|].
      by destruct Hres1 as (_ & Hx & Hno).
    + intros E. destruct (IH _ E) as (extra & Ha & Hs & Hres).
      exists (extra1 ++ extra). rewrite Ha, Ha1, app_assoc.
      split; [done|]. split; [by apply Forall_app|].
      destruct r as [e|done2]; [done|].
      destruct Hres1 as (res & Hr1 & Hc1 & Hst1 & Hle1 & Heq1).
      destruct Hres as (rs & Hr & Hc & Hst & Hle & Heq).
      exists (res :: rs). rewrite Hr, Hr1, <- app_assoc. cbn [map app].
      change (sum_alerts_count (res :: rs))
        with (default 0 (alerts_count res) + sum_alerts_count rs)%nat.
      rewrite Hc, Hc1, length_app. repeat split; try done.
      * by constructor.
      * lia.
      * intros Hrel. by rewrite Heq1, Heq.
Qed.

Lemma count_status_total rs :
  Forall (λ res, status res = u "success" ∨ status res = u "failed") rs →
  (count_status (u "success") rs + count_status (u "failed") rs = length rs)%nat.
Proof.
  unfold count_status. induction 1 as [|res rs [Hs|Hs] _ IH]; simpl; [done|..];
    rewrite Hs.
  - change (bool_decide (u "success" = u "success")) with true.
    change (bool_decide (u "success" = u "failed")) with false. simpl. lia.
  - change (bool_decide (u "failed" = u "success")) with false.
    change (bool_decide (u "failed" = u "failed")) with true. simpl. lia.
Qed.

Lemma print_summary_run st st' r :
  print_summary C self st = (st', r) →
  self_results st' = self_results st ∧ self_alerts st' = self_alerts st ∧
  match r with
  | inr _ => True
  | inl e => is_exception C e = false ∧ (raises_only_exceptions C → False)
  end.
Proof.
  unfold print_summary. destruct (storage_available self).
  2:{ by intros [= <- <-]. }
  rewrite try_except_run, bind_run.
  destruct (perform (load_alerts C) st) as [st1 [e|loaded]] eqn:E;
    destruct (keeps_perform _ _ _ _ E) as [Ha Hr].
  - destruct (is_exception C e) eqn:Hx; intros [= <- <-]; [done|].
    repeat split; try done. intros [_ Hload].
    rewrite (perform_only_exceptions _ _ _ _ Hload E) in Hx. done.
  - by intros [= <- <-].
Qed.

(** A run started by a new orchestrator: every alert in [self.alerts]
    carries both keys; a report is made of the collected results; and the
    run raises only when the executor cannot be created or a collaborator
    raises what is no instance of [Exception]. *)
Lemma run_spec order w st' r :
  run C self order (initial_state C w) = (st', r) →
  Forall (λ a, stamped a = true) (self_alerts st') ∧
  match r with
  | inr rep =>
      results rep = self_results st' ∧
      total_countries rep = length (config self) ∧
      map Orchestrator.country (results rep) = order ∧
      successful rep = count_status (u "success") (results rep) ∧
      failed rep = count_status (u "failed") (results rep) ∧
      (successful rep + failed rep = length order)%nat ∧
      total_alerts rep = length (self_alerts st') ∧
      (sum_alerts_count (results rep) ≤ total_alerts rep)%nat ∧
      (release_never_fails C → total_alerts rep = sum_alerts_count (results rep))
  | inl e =>
      ((max_workers self ≤ 0)%Z ∧ e = of_pyerr C ValueError) ∨
      (is_exception C e = false ∧ (raises_only_exceptions C → False))
  end.
Proof.
  unfold run. rewrite bind_run. unfold read_clock at 1. cbn [initial_state the_world].
  destruct (now C w) as [w1 t1]. rewrite bind_run. unfold new_executor.
  destruct (Z.leb_spec (max_workers self) 0) as [Hw|Hw].
  { intros [= <- <-]. cbn. split; [constructor|]. left. by split. }
  cbn [ret]. rewrite bind_run.
  match goal with
  | |- context [collect_jobs _ _ order ?s] => set (st1 := s)
  end.
  destruct (collect_jobs C self order st1) as [st2 r2] eqn:E.
  destruct (collect_jobs_spec _ _ _ _ E) as (extra & Ha & Hs & Hres).
  cbn in Ha. destruct r2 as [e|done2].
  { intros [= <- <-]. rewrite Ha. split; [done|]. right.
    destruct Hres as [Hx Hno]. split; [done|]. intros [Hjob _]. auto. }
  destruct Hres as (rs & Hr & Hc & Hst & Hle & Heq). cbn in Hr.
  rewrite bind_run. unfold read_clock at 1.
  destruct (now C (the_world st2)) as [w3 t3]. rewrite bind_run. cbn [fst snd].
  rewrite bind_run.
  match goal with
  | |- context [print_summary _ _ ?s] => set (st3 := s)
  end.
  destruct (print_summary C self st3) as [st4 r4] eqn:E4.
  destruct (print_summary_run _ _ _ E4) as (Hr4 & Ha4 & Hres4).
  cbn in Hr4, Ha4. destruct r4 as [e|done4].
  { intros [= <- <-]. rewrite Ha4, Ha. split; [done|]. by right. }
  intros [= <- <-]. rewrite Ha4, Ha, Hr4, Hr. cbn. split; [done|].
  repeat split; try done.
  rewrite count_status_total by done. by rewrite <- Hc, length_map.
Qed.

(** C7, as amended. A run whose executor can be created (a positive number
    of workers) and whose collaborators raise instances of [Exception] only
    returns a report in which [total_countries] is the number of configured
    targets, there is one result per target, [successful] and [failed]
    count the results of status [success] and [failed] (and add up to the
    number of targets), and [total_alerts] is the number of alerts the jobs
    appended to the orchestrator's alert list, never less than the sum of
    the targets' [alerts_count]; the two are equal provided closing the
    browser at the end of a job does not fail. *)
Theorem run_report_counters (order : list (list N)) (w : world C) :
  order ≡ₚ (config self).*1 →
  (0 < max_workers self)%Z →
  raises_only_exceptions C →
  ∃ st' rep,
    run C self order (initial_state C w) = (st', inr rep) ∧
    total_countries rep = length (config self) ∧
    length (results rep) = total_countries rep ∧
    successful rep = count_status (u "success") (results rep) ∧
    failed rep = count_status (u "failed") (results rep) ∧
    (successful rep + failed rep = total_countries rep)%nat ∧
    total_alerts rep = length (self_alerts st') ∧
    (sum_alerts_count (results rep) ≤ total_alerts rep)%nat ∧
    (release_never_fails C → total_alerts rep = sum_alerts_count (results rep)).
Proof.
  intros Hperm Hworkers Honly.
  destruct (run C self order (initial_state C w)) as [st' r] eqn:E.
  destruct (run_spec _ _ _ _ E) as [_ Hres].
  destruct r as [e|rep].
  { destruct Hres as [[Hw _]|[_ Hno]]; [lia|destruct (Hno Honly)]. }
  destruct Hres as (Hr & Ht & Hc & Hs & Hf & Hsum & Ha & Hle & Heq).
  assert (length order = length (config self)) as Hlen.
  { by rewrite Hperm, length_fmap. }
  exists st', rep. split; [done|]. rewrite Ht.
  repeat split; try done; try congruence.
  by rewrite <- Hlen, <- Hc, length_map.
Qed.

(** Without a positive number of workers the run raises [ValueError]
    before any job is started; with the default number of workers this is
    the case of an empty configuration. *)
Lemma run_without_workers order w :
  (max_workers self ≤ 0)%Z →
  (run C self order (initial_state C w)).2 = inl (of_pyerr C ValueError).
Proof.
  intros Hw. unfold run. rewrite bind_run. unfold read_clock at 1.
  destruct (now C _) as [w1 t1]. rewrite bind_run. unfold new_executor.
  destruct (Z.leb_spec (max_workers self) 0); [done|lia].
Qed.
End JobFacts.

Lemma init_max_workers_default (config : list (list N * pyval)) :
  (0 < Orchestrator.init_max_workers None config)%Z ↔ config ≠ [].
Proof.
  unfold Orchestrator.init_max_workers. destruct config as [|item config].
  - split; [simpl; lia|done].
  - split; [done|]. intros _. cbn [length]. lia.
Qed.

(** The sample collaborators raise instances of [Exception] only. *)
Lemma sample_raises_only_exceptions release :
  Orchestrator.raises_only_exceptions (Samples.sample_collaborators release).
Proof.
  unfold Orchestrator.raises_only_exceptions, Orchestrator.job_raises_only_exceptions,
    Orchestrator.pages_raise_only_exceptions,
    Orchestrator.store_raises_only_exceptions, Orchestrator.only_exceptions.
  repeat split; intros; cbn in *; try discriminate.
  destruct release; [discriminate|]. by simplify_eq.
Qed.

Lemma scrape_country_never_raises_witness :
  ∃ st' res,
    Orchestrator._scrape_country (Samples.sample_collaborators false)
      Samples.one_target (u "CL")
      (Orchestrator.initial_state (Samples.sample_collaborators false) 0%nat)
    = (st', inr res) ∧
    Orchestrator.country res = u "CL".
Proof.
  apply (scrape_country_never_raises (Samples.sample_collaborators false)
           Samples.one_target (u "CL")
           (Orchestrator.initial_state (Samples.sample_collaborators false) 0%nat)).
  apply sample_raises_only_exceptions.
Defined.

(** The claim as first stated fails on what is no instance of [Exception]:
    when [scrape_page] raises [SystemExit] neither handler of the job takes
    it, and the job raises it instead of returning a result. *)
Lemma scrape_country_exit_escapes :
  (Orchestrator._scrape_country Samples.exiting_collaborators Samples.one_target
     (u "CL") (Orchestrator.initial_state Samples.exiting_collaborators 0%nat)).2
  = inl Samples.SampleExit.
Proof. vm_compute. reflexivity. Qed.

Lemma run_report_counters_witness :
  ∃ st' rep,
    Orchestrator.run (Samples.sample_collaborators false) Samples.one_target [u "CL"]
      (Orchestrator.initial_state (Samples.sample_collaborators false) 0%nat)
    = (st', inr rep) ∧
    Orchestrator.total_countries rep = length (Orchestrator.config Samples.one_target) ∧
    length (Orchestrator.results rep) = Orchestrator.total_countries rep ∧
    Orchestrator.successful rep
      = Orchestrator.count_status (u "success") (Orchestrator.results rep) ∧
    Orchestrator.failed rep
      = Orchestrator.count_status (u "failed") (Orchestrator.results rep) ∧
    (Orchestrator.successful rep + Orchestrator.failed rep
     = Orchestrator.total_countries rep)%nat ∧
    Orchestrator.total_alerts rep = length (Orchestrator.self_alerts st') ∧
    (Orchestrator.sum_alerts_count (Orchestrator.results rep)
     ≤ Orchestrator.total_alerts rep)%nat ∧
    (Orchestrator.release_never_fails (Samples.sample_collaborators false) →
     Orchestrator.total_alerts rep
     = Orchestrator.sum_alerts_count (Orchestrator.results rep)).
Proof.
  apply (run_report_counters (Samples.sample_collaborators false) Samples.one_target
           [u "CL"] 0%nat).
  - reflexivity.
  - reflexivity.
  - apply sample_raises_only_exceptions.
Defined.

(** A run in which every browser is released, evaluated: one successful
    target with one alert. *)
Lemma run_one_target :
  (λ rep, (Orchestrator.total_countries rep, Orchestrator.successful rep,
           Orchestrator.failed rep, Orchestrator.total_alerts rep,
           map Orchestrator.alerts_count (Orchestrator.results rep)))
  <$> Samples.report_of (Samples.sample_collaborators true)
        (Orchestrator.run (Samples.sample_collaborators true) Samples.one_target
           [u "CL"]
           (Orchestrator.initial_state (Samples.sample_collaborators true) 0%nat))
  = Some (1, 1, 0, 1, [Some 1])%nat.
Proof. vm_compute. reflexivity. Qed.

(** The claim as first stated fails when closing the browser raises: the
    alert of the job is already in [self.alerts], so [total_alerts] is 1,
    while the job's result is the failure form, without [alerts_count], and
    the sum of the targets' [alerts_count] is 0. *)
Lemma run_total_alerts_exceeds_sum :
  (λ rep, (Orchestrator.total_alerts rep,
           Orchestrator.sum_alerts_count (Orchestrator.results rep),
           map Orchestrator.status (Orchestrator.results rep),
           map Orchestrator.error (Orchestrator.results rep)))
  <$> Samples.report_of (Samples.sample_collaborators false)
        (Orchestrator.run (Samples.sample_collaborators false) Samples.one_target
           [u "CL"]
           (Orchestrator.initial_state (Samples.sample_collaborators false) 0%nat))
  = Some (1%nat, 0%nat, [u "failed"], [Some (u "Target closed")]).
Proof. vm_compute. reflexivity. Qed.

(** On an empty configuration, with the default number of workers, the run
    raises instead of returning an all-zero report. *)
Lemma run_empty_configuration :
  Samples.report_of (Samples.sample_collaborators true)
    (Orchestrator.run (Samples.sample_collaborators true) Samples.no_target []
       (Orchestrator.initial_state (Samples.sample_collaborators true) 0%nat))
  = None.
Proof. vm_compute. reflexivity. Qed.

(** A job whose browser fails to close still returns a result. *)
Lemma scrape_country_sample :
  (λ res, (Orchestrator.status res, Orchestrator.alerts_count res))
  <$> (match Orchestrator._scrape_country (Samples.sample_collaborators false)
               Samples.one_target (u "CL")
               (Orchestrator.initial_state (Samples.sample_collaborators false) 0%nat) with
       | (_, inr res) => Some res
       | (_, inl _) => None
       end)
  = Some (u "failed", None).
Proof. vm_compute. reflexivity. Qed.

(** ** The model on small inputs *)

Lemma split_sample : split (u "  a   c ") = [u "a"; u "c"].
Proof. vm_compute. reflexivity. Qed.

Lemma strip_sample : strip (u "  Top sellers ") = u "Top sellers".
Proof. vm_compute. reflexivity. Qed.

Lemma str_contains_sample :
  str_contains (u "para") (u "recomendados para ti") = true ∧
  str_contains (u "parati") (u "recomendados para ti") = false ∧
  str_contains (u "") (u "") = true.
Proof. vm_compute. done. Qed.

Lemma get_text_strip_sample :
  get_text_strip Samples.el_recommended = u "RECOMENDADOS para ti...".
Proof. vm_compute. reflexivity. Qed.

(** A class search for one string: a tag matches when one of its tokens is
    the string, or when its tokens joined by a space are. *)
Lemma find_all_class_string_sample :
  length (find_all_class Samples.page_a_b (SStr (u "a b"))) = 1%nat ∧
  length (find_all_class Samples.page_a_b (SStr (u "b"))) = 1%nat ∧
  length (find_all_class Samples.page_a_b (SStr (u "b a"))) = 0%nat ∧
  length (find_all_class Samples.page_a_b (SList [u "c"; u "d"])) = 0%nat.
Proof. vm_compute. done. Qed.

(** The end-to-end scenario: three distinct issues, [Cross Sell] on [PDP]
    and the two strategy names on [HOME]; the present component's own name
    is no issue. *)
Lemma scenario_digest :
  let r := doc ← Samples.scenario; TeamsService.extract_components_issues doc in
  pages_for r (PStr (u "Cross Sell")) = Some [HStr (u "PDP")] ∧
  pages_for r (PStr (u "Strategy 1")) = Some [HStr (u "HOME")] ∧
  pages_for r (PStr (u "Strategy 2")) = Some [HStr (u "HOME")] ∧
  pages_for r (PStr (u "Purchased With Recently Purchased")) = None ∧
  distinct_count r = Some 3%nat.
Proof. vm_compute. done. Qed.

(** ** Digest and matcher together *)

(** A component's own name is no label of the digest unless some component
    stands for it: a component with a [strategies] object never adds it. *)
Lemma own_name_not_recorded (alert : pyval) (name : list N) m :
  target_result_wf alert = true →
  TeamsService.extract_components_issues alert = Ok m →
  (∀ page c, page ∈ pages_of alert → c ∈ components_of page →
             PStr name ∉ issue_labels c) →
  m !! HStr name = None.
Proof.
  intros Hwf Hm Hno.
  destruct (extract_components_issues_records alert Hwf) as (m' & Hm' & _ & Hdom).
  rewrite Hm in Hm'. injection Hm' as <-.
  apply eq_None_not_Some. rewrite Hdom.
  intros (p & page & c & label & Hpage & Hc & Hlab & Hl & _).
  apply (Hno page c Hpage Hc).
  destruct label; simpl in Hl; try done; try (by destruct b).
  by injection Hl as ->.
Qed.

(** The record [check_component] returns has the shape the digest expects:
    [details] is present only for a found component and then holds a
    [strategies] object. *)
Lemma check_component_reachable nfkd soup c r printed :
  Scraper.check_component nfkd soup c = Ok (r, printed) →
  reachable_component (Scraper.match_result_to_py r) = true.
Proof.
  unfold Scraper.check_component.
  destruct (Scraper._check_component_by_identifier_type soup c) as [[found els]|];
    [|done].
  simpl. destruct found; [|by intros [= <- _]].
  unfold Scraper._build_component_details.
  destruct els as [[|el els]|]; try by intros [= <- _].
  destruct (Scraper.carousel_strategies c) as [ss|].
  - unfold Scraper._extract_strategies.
    destruct (Scraper.find_strategies_in_elements _ _ _) as [[out pr]|]; [|done].
    simpl. by intros [= <- _].
  - destruct (Scraper.text_strategies c) as [ss|]; [|by intros [= <- _]].
    unfold Scraper._extract_strategies.
    destruct (Scraper.find_strategies_in_elements _ _ _) as [[out pr]|]; [|done].
    simpl. by intros [= <- _].
Qed.

Lemma scrape_fetched_page_reachable nfkd soup country page_type url timestamp cs page :
  Scraper.scrape_fetched_page nfkd soup country page_type url timestamp cs = Ok page →
  forallb reachable_component (components_of page) = true.
Proof.
  unfold Scraper.scrape_fetched_page.
  assert (∀ acc rs,
    Forall (λ r, reachable_component (Scraper.match_result_to_py r) = true) acc →
    for_each (λ results c0, '(r, _) ← Scraper.check_component nfkd soup c0;
                            Ok (results ++ [r])) acc cs = Ok rs →
    Forall (λ r, reachable_component (Scraper.match_result_to_py r) = true) rs) as H.
  { induction cs as [|c cs IH]; intros acc rs Hacc; simpl.
    - by intros [= <-].
    - destruct (Scraper.check_component nfkd soup c) as [[r pr]|] eqn:E; [|done].
      simpl. apply IH. apply Forall_app. split; [done|].
      constructor; [|constructor]. by eapply check_component_reachable. }
  destruct (for_each _ [] cs) as [rs|] eqn:E; [|done]. simpl. intros [= <-].
  apply H in E; [|constructor].
  apply forallb_forall. intros x Hx.
  change (components_of _) with (map Scraper.match_result_to_py rs) in Hx.
  apply in_map_iff in Hx as (r & <- & Hr).
  rewrite Forall_forall in E. by apply E, list_elem_of_In.
Qed.

(** ** Strategy search on any input *)

Section StrategySearchAny.
Import Scraper.
Variable nfkd : list N → list N.

Lemma entry_consistent_keys (names : list (list N)) st :
  (∀ n, n ∈ names → entry_consistent st n) → keys_ok names st.
Proof.
  intros H n Hn. destruct (H n Hn) as [Hc [[-> ->]|[-> [l ->]]]]; eauto.
Qed.

Lemma entry_consistent_same name st st' :
  same_entries name st st' → entry_consistent st name → entry_consistent st' name.
Proof. intros (Hf & Hd & Hp). unfold entry_consistent. by rewrite Hf, Hd, Hp. Qed.

(** One strategy on one element keeps every entry consistent. *)
Lemma check_strategy_consistent (names : list (list N)) el label st s :
  (∀ n, n ∈ names → entry_consistent st n) → strategy_name s ∈ names →
  ∃ st', check_strategy nfkd el label st s = Ok st' ∧
         ∀ n, n ∈ names → entry_consistent st' n.
Proof.
  intros Hinv Hs.
  destruct (check_strategy_ok nfkd names el label st s
              (entry_consistent_keys _ _ Hinv) Hs) as (st' & Hrun & _ & Hother).
  exists st'. split; [done|]. intros n Hn.
  destruct (decide (n = strategy_name s)) as [->|Hne];
    [|by eapply entry_consistent_same; [apply Hother|apply Hinv]].
  destruct (Hinv _ Hs) as [[cands Hc] Hcase].
  unfold check_strategy, od_getitem in Hrun.
  destruct Hcase as [[Hf Hd]|[Hf [l Hd]]]; unfold entry_found in Hf;
    rewrite Hf in Hrun; simpl in Hrun.
  - destruct (scan_containers_effect nfkd s label (search_scope s el) st [] cands Hd Hc)
      as (st2 & Hscan & Hf2 & Hd2 & Hp2 & _).
    rewrite Hscan in Hrun. injection Hrun as <-.
    split; [rewrite Hp2; eauto|]. rewrite Hf2, Hd2.
    destruct (existsb _ _); [right|left]; eauto.
  - injection Hrun as <-. split; [eauto|]. right. eauto.
Qed.

Lemma check_element_consistent strategies st idx_el :
  (∀ n, n ∈ map strategy_name strategies → entry_consistent st n) →
  ∃ st', check_element nfkd strategies st idx_el = Ok st' ∧
         ∀ n, n ∈ map strategy_name strategies → entry_consistent st' n.
Proof.
  unfold check_element. generalize (element_label (u "el") idx_el.1 idx_el.2).
  intros label.
  assert (∀ ss, (∀ s, s ∈ ss → strategy_name s ∈ map strategy_name strategies) →
            ∀ st, (∀ n, n ∈ map strategy_name strategies → entry_consistent st n) →
            ∃ st', for_each (check_strategy nfkd idx_el.2 label) st ss = Ok st' ∧
                   ∀ n, n ∈ map strategy_name strategies → entry_consistent st' n) as H.
  { induction ss as [|s ss IH]; intros Hss st1 H1; [by exists st1|].
    destruct (check_strategy_consistent _ idx_el.2 label st1 s H1) as (st2 & Hrun & H2).
    { apply Hss. by left. }
    destruct (IH (λ s' Hs', Hss s' (list_elem_of_further _ _ _ Hs')) st2 H2)
      as (st' & Hrun' & H').
    exists st'. simpl. by rewrite Hrun. }
  intros Hinv. apply H; [|done]. intros s Hs. by apply list_elem_of_fmap_2.
Qed.

(** X6. The search returns on every list of elements and of strategies - also
    when strategies share a name - and, under every strategy name, the
    result is either unsatisfied with an empty [found_in] or satisfied with
    a [found_in] of exactly one label. *)
Lemma find_strategies_one_label (elements : list node) (strategies : list strategy) :
  ∃ out printed,
    find_strategies_in_elements nfkd elements strategies = Ok (out, printed) ∧
    ∀ s, s ∈ strategies → entry_consistent out (strategy_name s).
Proof.
  unfold find_strategies_in_elements.
  set (st0 := {| strategies_found := _ |}).
  assert (∀ n, n ∈ map strategy_name strategies → entry_consistent st0 n) as H0.
  { intros n Hn. unfold entry_consistent, entry_found, entry_found_in, entry_candidates.
    simpl. rewrite !od_comprehension_lookup, !bool_decide_eq_true_2 by done.
    split; [eauto|]. by left. }
  assert (∀ els k st,
            (∀ n, n ∈ map strategy_name strategies → entry_consistent st n) →
            ∃ st', for_each (check_element nfkd strategies) st (enumerate_from k els)
                   = Ok st' ∧
                   ∀ n, n ∈ map strategy_name strategies → entry_consistent st' n) as H.
  { induction els as [|el els IH]; intros k st Hst; [by exists st|].
    destruct (check_element_consistent strategies st (k, el) Hst) as (st1 & Hrun & H1).
    destruct (IH (S k) st1 H1) as (st' & Hrun' & H').
    exists st'. simpl. by rewrite Hrun. }
  destruct (H elements 0%nat st0 H0) as (st' & Hrun & H').
  rewrite Hrun. simpl. eexists _, _. split; [done|].
  intros s Hs. by apply H', list_elem_of_fmap_2.
Qed.
End StrategySearchAny.

(** ** Partial match *)

Lemma starts_with_app (p rest : list N) : starts_with p (p ++ rest) = true.
Proof.
  induction p as [|c p IH]; simpl; [done|]. by rewrite N.eqb_refl, IH.
Qed.

Lemma str_contains_starts (needle hay : list N) :
  starts_with needle hay = true → str_contains needle hay = true.
Proof. intros H. destruct hay; simpl; by rewrite H. Qed.

Lemma str_contains_app (pre needle post : list N) :
  str_contains needle (pre ++ needle ++ post) = true.
Proof.
  induction pre as [|c pre IH]; simpl.
  - apply str_contains_starts, starts_with_app.
  - rewrite IH. apply orb_true_r.
Qed.

Lemma str_contains_refl (s : list N) : str_contains s s = true.
Proof.
  pose proof (str_contains_app [] s []) as H. simpl in H. by rewrite app_nil_r in H.
Qed.

Lemma encode_ascii_ignore_app (s t : list N) :
  encode_ascii_ignore (s ++ t) = encode_ascii_ignore s ++ encode_ascii_ignore t.
Proof. unfold encode_ascii_ignore. apply filter_app. Qed.

Lemma lower_app (s t : list N) : lower (s ++ t) = lower s ++ lower t.
Proof. unfold lower. apply map_app. Qed.

Lemma forallb_is_ascii_app (s t : list N) :
  forallb is_ascii (s ++ t) = forallb is_ascii s && forallb is_ascii t.
Proof. apply forallb_app. Qed.

Section PartialMatchFacts.
Variable nfkd : list N → list N.

(** Every text is a partial match of itself, whatever it contains. *)
Lemma partial_match_refl (s : list N) :
  _partial_match nfkd (PStr s) (PStr s) = Ok true.
Proof.
  unfold _partial_match. rewrite !normalize_text_str. simpl.
  by rewrite str_contains_refl.
Qed.

Hypothesis nfkd_ascii : ∀ s, forallb is_ascii s = true → nfkd s = s.

(** X1. An ASCII text that holds the pattern, in any letter case, between any
    two other pieces of text matches the pattern. *)
Theorem partial_match_ascii_substring (pre occurrence post pattern : list N) :
  forallb is_ascii (pre ++ occurrence ++ post) = true →
  forallb is_ascii pattern = true →
  lower occurrence = lower pattern →
  _partial_match nfkd (PStr (pre ++ occurrence ++ post)) (PStr pattern) = Ok true.
Proof.
  intros Htext Hpat Hcase. unfold _partial_match. rewrite !normalize_text_str. simpl.
  rewrite !nfkd_ascii, !encode_ascii_ignore_ascii by done.
  by rewrite !lower_app, Hcase, str_contains_app.
Qed.
End PartialMatchFacts.

Lemma partial_match_ascii_substring_witness :
  _partial_match Samples.nfkd_sample
    (PStr (u "Los mas " ++ u "RECOMENDADOS" ++ u " para ti")) (PStr (u "Recomendados"))
  = Ok true.
Proof.
  apply (partial_match_ascii_substring Samples.nfkd_sample nfkd_sample_ascii
           (u "Los mas ") (u "RECOMENDADOS") (u " para ti") (u "Recomendados"));
    vm_compute; reflexivity.
Defined.

Lemma starts_with_split (p s : list N) :
  starts_with p s = true → ∃ rest, s = p ++ rest.
Proof.
  revert s. induction p as [|a p IH]; intros s; simpl; [by exists s|].
  destruct s as [|b s]; [done|]. intros [Hab Hps]%andb_prop.
  apply N.eqb_eq in Hab as ->. destruct (IH s Hps) as [rest ->]. by exists rest.
Qed.

(** [needle in hay] holds exactly when [hay] is some text, the needle, and
    some more text. *)
Lemma str_contains_iff (needle hay : list N) :
  str_contains needle hay = true ↔ ∃ pre post, hay = pre ++ needle ++ post.
Proof.
  split; [|intros (pre & post & ->); apply str_contains_app].
  induction hay as [|c hay IH]; simpl.
  - rewrite orb_false_r. intros [rest E]%starts_with_split. by exists [], rest.
  - intros [H|H]%orb_prop.
    + apply starts_with_split in H as [rest E]. by exists [], rest.
    + destruct (IH H) as (pre & post & ->). by exists (c :: pre), post.
Qed.

(** ** Component matcher: the identifier dispatch *)

(** X3. The helper [find_component_by_data_testid] accepts a page as soon as
    the dispatch of [check_component] would accept it under either of the
    two attribute names. *)
Theorem data_testid_helper_either_alias (soup : node) (value : list N) :
  Scraper.find_component_by_data_testid soup value = true ↔
  ∃ c, (Scraper.identifier_type c = u "data-testid" ∨
        Scraper.identifier_type c = u "data-test-id") ∧
       Scraper.identifier_value c = value ∧
       ∃ elements, Scraper._check_component_by_identifier_type soup c
                   = Ok (true, elements).
Proof.
  unfold Scraper.find_component_by_data_testid. split.
  - intros H.
    destruct (find_attr soup (u "data-testid") value) as [el|] eqn:E1.
    + exists {| Scraper.name := []; Scraper.identifier_type := u "data-testid";
               Scraper.identifier_value := value;
               Scraper.carousel_strategies := None; Scraper.text_strategies := None |}.
      split; [by left|]. split; [done|].
      rewrite check_by_attribute_found by (by left). simpl. rewrite E1. eauto.
    + destruct (find_attr soup (u "data-test-id") value) as [el|] eqn:E2; [|done].
      exists {| Scraper.name := []; Scraper.identifier_type := u "data-test-id";
               Scraper.identifier_value := value;
               Scraper.carousel_strategies := None; Scraper.text_strategies := None |}.
      split; [by right|]. split; [done|].
      rewrite check_by_attribute_found by (by right). simpl. rewrite E2. eauto.
  - intros (c & Ht & <- & elements & Hc).
    rewrite check_by_attribute_found in Hc by done.
    destruct Ht as [Ht|Ht]; rewrite Ht in Hc.
    + by destruct (find_attr soup (u "data-testid") _).
    + destruct (find_attr soup (u "data-testid") _); [done|].
      by destruct (find_attr soup (u "data-test-id") _).
Qed.

(** X4. An identifier type other than [data-testid], [data-test-id], [class]
    and [id] is no error: the component is reported absent, without
    details and without a diagnostic line. *)
Theorem check_component_unknown_identifier_type (nfkd : list N → list N)
    (soup : node) (c : Scraper.component) :
  Scraper.identifier_type c ∉ [u "data-testid"; u "data-test-id"; u "class"; u "id"] →
  Scraper.check_component nfkd soup c
  = Ok ({| Scraper.result_name := Scraper.name c;
           Scraper.found := false;
           Scraper.details := None |}, []).
Proof.
  intros Hnot.
  unfold Scraper.check_component, Scraper._check_component_by_identifier_type,
    Scraper._log_component_not_found.
  rewrite !bool_decide_eq_false_2 by set_solver. reflexivity.
Qed.

Lemma check_component_unknown_identifier_type_witness :
  Scraper.check_component Samples.nfkd_sample Samples.page_with_id
    (Samples.component_of_type (u "xpath"))
  = Ok ({| Scraper.result_name := u "Cart";
           Scraper.found := false;
           Scraper.details := None |}, []).
Proof.
  apply (check_component_unknown_identifier_type Samples.nfkd_sample
           Samples.page_with_id (Samples.component_of_type (u "xpath"))).
  apply (bool_decide_unpack _). vm_compute. exact I.
Defined.

(** ** Strategy search: found exactly when the pattern occurs *)

Lemma existsb_first_split {A} (P : A → bool) (l : list A) :
  (existsb P l = false ∧ Forall (λ x, P x = false) l) ∨
  (existsb P l = true ∧
   ∃ pre x post, l = pre ++ x :: post ∧ Forall (λ y, P y = false) pre ∧ P x = true).
Proof.
  induction l as [|a l IH]; simpl; [by left|].
  destruct (P a) eqn:Ea; simpl.
  - right. split; [done|]. by exists [], a, l.
  - destruct IH as [[-> Hall]|[-> (pre & x & post & -> & Hpre & Hx)]].
    + left. split; [done|]. by constructor.
    + right. split; [done|]. exists (a :: pre), x, post. split; [done|].
      split; [by constructor|done].
Qed.

Lemma distinct_names_split (strategies : list Scraper.strategy) (strat : Scraper.strategy) :
  strat ∈ strategies →
  NoDup (map Scraper.strategy_name strategies) →
  ∃ before after, strategies = before ++ strat :: after ∧
    ∀ s, s ∈ before ++ after →
         Scraper.strategy_name s ≠ Scraper.strategy_name strat.
Proof.
  intros Hin Hnd. apply list_elem_of_split in Hin as (before & after & ->).
  exists before, after. split; [done|]. intros s Hs Heq.
  rewrite map_app in Hnd. simpl in Hnd.
  apply NoDup_app in Hnd as (Hnd1 & Hdisj & Hnd2).
  apply NoDup_cons in Hnd2 as [Hnotin _].
  apply elem_of_app in Hs as [Hs|Hs].
  - apply (Hdisj (Scraper.strategy_name strat)).
    + rewrite <- Heq. by apply list_elem_of_fmap_2.
    + by left.
  - apply Hnotin. rewrite <- Heq. by apply list_elem_of_fmap_2.
Qed.

Section StrategyFound.
Import Scraper.
Variable nfkd : list N → list N.

Lemma find_strategies_no_match_split before after strat elements :
  (∀ s, s ∈ before ++ after → strategy_name s ≠ strategy_name strat) →
  Forall (λ e, pattern_occurs_in nfkd strat e = false) elements →
  ∃ out printed,
    find_strategies_in_elements nfkd elements (before ++ strat :: after)
    = Ok (out, printed) ∧
    entry_found out (strategy_name strat) = Some false ∧
    entry_found_in out (strategy_name strat) = Some [] ∧
    entry_candidates out (strategy_name strat)
      = Some (flat_map (candidate_texts nfkd strat) elements).
Proof.
  intros Hothers Hno. unfold find_strategies_in_elements.
  set (st0 := {| strategies_found := _ |}).
  assert (strategy_name strat ∈ map strategy_name (before ++ strat :: after)) as Hin.
  { apply list_elem_of_fmap_2. set_solver. }
  assert (keys_ok (map strategy_name (before ++ strat :: after)) st0) as Hk0.
  { intros n Hn. unfold entry_found, entry_found_in, entry_candidates. simpl.
    rewrite !od_comprehension_lookup, !bool_decide_eq_true_2 by done. eauto. }
  assert (entry_found st0 (strategy_name strat) = Some false ∧
          entry_found_in st0 (strategy_name strat) = Some [] ∧
          entry_candidates st0 (strategy_name strat) = Some []) as (Hb0 & Hfi0 & Hc0).
  { unfold entry_found, entry_found_in, entry_candidates. simpl.
    by rewrite !od_comprehension_lookup, !bool_decide_eq_true_2. }
  destruct (elements_without_pattern nfkd before after strat Hothers elements 0 st0
              [] [] Hno Hk0 Hb0 Hfi0 Hc0) as (st1 & Hrun & _ & Hb & Hfi & Hc).
  rewrite Hrun. simpl. by eexists _, _.
Qed.

(** X5. With distinct strategy names, the search marks a strategy found exactly
    when its pattern occurs in one of the elements; a strategy that is not
    found has an empty [found_in] and the candidate texts of every element. *)
Theorem find_strategies_found_iff (elements : list node)
    (strategies : list strategy) (strat : strategy) :
  strat ∈ strategies →
  NoDup (map strategy_name strategies) →
  ∃ out printed,
    find_strategies_in_elements nfkd elements strategies = Ok (out, printed) ∧
    entry_found out (strategy_name strat)
      = Some (existsb (pattern_occurs_in nfkd strat) elements) ∧
    (existsb (pattern_occurs_in nfkd strat) elements = false →
     entry_found_in out (strategy_name strat) = Some [] ∧
     entry_candidates out (strategy_name strat)
       = Some (flat_map (candidate_texts nfkd strat) elements)).
Proof.
  intros Hin Hnd.
  destruct (distinct_names_split _ _ Hin Hnd) as (before & after & -> & Hothers).
  destruct (existsb_first_split (pattern_occurs_in nfkd strat) elements)
    as [[-> Hall]|[-> (pre & el & post & -> & Hpre & Hel)]].
  - destruct (find_strategies_no_match_split before after strat elements Hothers Hall)
      as (out & printed & Hrun & Hb & Hfi & Hc).
    by exists out, printed.
  - destruct (find_strategies_first_match_split nfkd before after strat Hothers
                pre el post Hpre Hel) as (out & printed & Hrun & Hb & _).
    exists out, printed. split; [done|]. split; [done|]. done.
Qed.
End StrategyFound.

Lemma find_strategies_found_iff_witness :
  ∃ out printed,
    Scraper.find_strategies_in_elements Samples.nfkd_sample
      [Samples.el_sellers; Samples.el_recommended]
      [Samples.strategy_sellers; Samples.strategy_recommended]
    = Ok (out, printed) ∧
    Scraper.entry_found out (u "Strategy 1")
      = Some (existsb (Scraper.pattern_occurs_in Samples.nfkd_sample
                         Samples.strategy_recommended)
                      [Samples.el_sellers; Samples.el_recommended]) ∧
    (existsb (Scraper.pattern_occurs_in Samples.nfkd_sample Samples.strategy_recommended)
             [Samples.el_sellers; Samples.el_recommended] = false →
     Scraper.entry_found_in out (u "Strategy 1") = Some [] ∧
     Scraper.entry_candidates out (u "Strategy 1")
       = Some (flat_map (Scraper.candidate_texts Samples.nfkd_sample
                           Samples.strategy_recommended)
                        [Samples.el_sellers; Samples.el_recommended])).
Proof.
  apply (find_strategies_found_iff Samples.nfkd_sample
           [Samples.el_sellers; Samples.el_recommended]
           [Samples.strategy_sellers; Samples.strategy_recommended]
           Samples.strategy_recommended).
  - right. left.
  - apply (bool_decide_unpack _). vm_compute. exact I.
Defined.

(** ** Alerts of a page *)

Lemma truncate_candidate_length (c : list N) :
  (length (Alerts.truncate_candidate c) ≤ 83)%nat.
Proof.
  unfold Alerts.truncate_candidate. rewrite length_app, length_take.
  destruct (80 <? length c)%nat;
    [change (length (u "...")) with 3%nat
    |change (length (@nil N)) with 0%nat]; lia.
Qed.

Lemma truncate_candidate_short (c : list N) :
  (length c ≤ 80)%nat → Alerts.truncate_candidate c = c.
Proof.
  intros H. unfold Alerts.truncate_candidate.
  rewrite take_ge by done. destruct (Nat.ltb_spec 80 (length c)); [lia|].
  apply app_nil_r.
Qed.

(** X9. The candidate texts collected by the strategy search grow without
    bound, but the sample quoted in an alert message does not: at most three
    candidates, each cut to 80 characters plus the ellipsis, hence at most
    253 characters; a candidate of up to 80 characters is quoted whole. *)
Theorem sample_of_bounded (candidates : list (list N)) :
  (length (Alerts.sample_of candidates) ≤ 253)%nat ∧
  (∀ c, candidates = [c] → (length c ≤ 80)%nat → Alerts.sample_of candidates = c).
Proof.
  split.
  - unfold Alerts.sample_of.
    assert (Hsep : length (u "; ") = 2%nat) by reflexivity.
    destruct candidates as [|a [|b [|c rest]]];
      rewrite ?firstn_cons, ?firstn_O;
      cbn [take map join]; rewrite ?length_app, ?Hsep.
    + simpl. lia.
    + pose proof (truncate_candidate_length a). lia.
    + pose proof (truncate_candidate_length a).
      pose proof (truncate_candidate_length b). lia.
    + pose proof (truncate_candidate_length a).
      pose proof (truncate_candidate_length b).
      pose proof (truncate_candidate_length c). lia.
  - intros c -> Hc. unfold Alerts.sample_of. cbn [take map join].
    by apply truncate_candidate_short.
Qed.

(** One alert per strategy not found. *)
Lemma strategy_alerts_count country page_type timestamp name
    (o : Scraper.strategy_outcome) :
  length (flat_map (Alerts.strategy_alert country page_type timestamp name
                      (Scraper.potential_matches o))
                   (Scraper.strategies_found o))
  = length (ResultDoc.failing_strategies (Scraper.strategy_outcome_to_py o)).
Proof.
  destruct o as [found sd pm].
  unfold ResultDoc.failing_strategies, Scraper.strategy_outcome_to_py,
    Scraper.bool_dict_to_py.
  change (truthy (PDict _)) with true. cbv iota.
  change (ResultDoc.field _ (u "strategies_found") (PDict []))
    with (PDict (map (λ kv : list N * bool, (kv.1, PBool kv.2)) found)).
  cbv iota. rewrite length_map. cbn [Scraper.strategies_found Scraper.potential_matches].
  induction found as [|[n b] found IH]; [done|].
  rewrite map_cons, filter_cons. cbn [flat_map]. rewrite length_app, IH.
  destruct b; cbn [Alerts.strategy_alert]; case_decide as Hd; simpl in Hd;
    try discriminate; try (by exfalso; apply Hd); reflexivity.
Qed.

(** The [strategies] object of a consistent record, read back from its dict. *)
Lemma strategies_of_consistent (r : Scraper.match_result) :
  Alerts.consistent_result r = true →
  ResultDoc.strategies_of (Scraper.match_result_to_py r)
  = (λ d, Scraper.strategy_outcome_to_py (Scraper.strategies d))
      <$> Scraper.details r.
Proof.
  destruct r as [name found [d|]]; unfold Alerts.consistent_result;
    cbn [Scraper.details Scraper.found]; [|reflexivity].
  intros [_ Hk%negb_true_iff%bool_decide_eq_false]%andb_prop.
  unfold ResultDoc.strategies_of.
  change (ResultDoc.details_of (Scraper.match_result_to_py _))
    with (Scraper.component_details_to_py d).
  unfold Scraper.component_details_to_py. cbn [dict_lookup].
  rewrite bool_decide_eq_false_2 by done.
  rewrite bool_decide_eq_true_2 by done. reflexivity.
Qed.

Lemma component_alerts_contributions country page_type timestamp
    (r : Scraper.match_result) :
  Alerts.consistent_result r = true →
  length (Alerts._create_missing_component_alert country page_type timestamp r)
  = length (ResultDoc.issue_labels (Scraper.match_result_to_py r)).
Proof.
  intros Hc. unfold ResultDoc.issue_labels.
  rewrite strategies_of_consistent by done.
  destruct r as [name found [d|]]; unfold Alerts.consistent_result in Hc;
    cbn [Scraper.details Scraper.found] in *.
  - apply andb_prop in Hc as [-> _]. cbn [fmap option_fmap option_map].
    rewrite length_map,
      <- (strategy_alerts_count country page_type timestamp name).
    reflexivity.
  - cbn [fmap option_fmap option_map].
    change (ResultDoc.found_of (Scraper.match_result_to_py _)) with (PBool found).
    unfold Alerts._create_missing_component_alert.
    cbn [Scraper.details Scraper.found truthy]. by destruct found.
Qed.

Lemma page_alerts_contributions (pr : Alerts.page_result) :
  Alerts.consistent_page pr = true →
  Alerts.page_alert_count pr
  = length (ResultDoc.contributions_page (Alerts.page_result_to_py pr)).
Proof.
  destruct pr as [e t|country page_type url t cs]; [reflexivity|].
  cbn [Alerts.consistent_page Alerts.page_alert_count Alerts.generate_alerts].
  intros Hc. unfold ResultDoc.contributions_page.
  change (ResultDoc.components_of (Alerts.page_result_to_py _))
    with (map Scraper.match_result_to_py cs).
  rewrite !length_flat_map, map_map. f_equal.
  apply map_ext_in. intros r Hr.
  unfold ResultDoc.contributions_component. rewrite length_map.
  apply component_alerts_contributions.
  rewrite forallb_forall in Hc. by apply Hc.
Qed.

Lemma component_wf_consistent (r : Scraper.match_result) :
  Alerts.consistent_result r = true →
  ResultDoc.component_wf (Scraper.match_result_to_py r) = true.
Proof.
  intros Hc. unfold ResultDoc.component_wf.
  rewrite strategies_of_consistent by done.
  change (ResultDoc.name_of (Scraper.match_result_to_py r))
    with (PStr (Scraper.result_name r)).
  destruct (Scraper.details r); reflexivity.
Qed.

Lemma page_wf_consistent (pr : Alerts.page_result) :
  Alerts.consistent_page pr = true →
  ResultDoc.page_wf (Alerts.page_result_to_py pr) = true.
Proof.
  destruct pr as [e t|country page_type url t cs]; [reflexivity|].
  cbn [Alerts.consistent_page]. intros Hc. unfold ResultDoc.page_wf.
  change (ResultDoc.field (Alerts.page_result_to_py _) (u "components") (PList []))
    with (PList (map Scraper.match_result_to_py cs)).
  change (ResultDoc.page_type_of (Alerts.page_result_to_py _)) with (PStr page_type).
  cbn [Alerts.page_result_to_py isinstance_dict ResultDoc.hashable py_hash andb].
  rewrite forallb_forall. intros x [r [<- Hr]]%in_map_iff.
  apply component_wf_consistent. rewrite forallb_forall in Hc. by apply Hc.
Qed.

(** Recording pairs adds at most one label per pair. *)
Lemma record_pairs_size (pairs : list (pyval * pyval)) (m m' : gmap hkey (gset hkey)) :
  for_each record_pair m pairs = Ok m' →
  (size m' ≤ size m + length pairs)%nat.
Proof.
  revert m. induction pairs as [|[l p] pairs IH]; intros m; simpl.
  - intros [= ->]. lia.
  - destruct (py_hash l) as [k|e] eqn:El;
      [|by unfold add_issue; rewrite El].
    destruct (py_hash p) as [q|e] eqn:Ep;
      [|by unfold add_issue; rewrite El, Ep].
    rewrite (add_issue_hashed _ _ k q) by done. simpl.
    intros Hrun%IH. etrans; [exact Hrun|].
    rewrite map_size_insert. destruct (m !! k); simpl; lia.
Qed.

(** X11. The digest of a target's result never counts more failing components
    than the job counted alerts: for a result assembled from page results
    whose component records have the shape [check_component] builds, the
    dedup-aware extraction succeeds and its number of distinct labels is at
    most [alerts_count]. *)
Theorem digest_labels_bounded_by_alerts (country status timestamp : list N)
    (pages : list Alerts.page_result) :
  forallb Alerts.consistent_page pages = true →
  ∃ n, distinct_count
         (TeamsService.extract_components_issues
            (Alerts.target_result_doc country status timestamp pages)) = Some n ∧
       (n ≤ list_sum (map Alerts.page_alert_count pages))%nat.
Proof.
  intros Hc.
  assert (Hwf : target_result_wf
                  (Alerts.target_result_doc country status timestamp pages) = true).
  { unfold target_result_wf, Alerts.target_result_doc.
    change (field _ (u "pages") (PList []))
      with (PList (map Alerts.page_result_to_py pages)).
    cbn [isinstance_dict andb]. rewrite forallb_forall.
    intros x [pr [<- Hpr]]%in_map_iff. apply page_wf_consistent.
    rewrite forallb_forall in Hc. by apply Hc. }
  destruct (extract_components_issues_records _ Hwf) as (m & Hrun & _).
  exists (size m). rewrite Hrun. split; [reflexivity|].
  rewrite extract_components_issues_flat in Hrun by done.
  apply record_pairs_size in Hrun. rewrite map_size_empty in Hrun.
  etrans; [exact Hrun|]. simpl. unfold contributions.
  change (pages_of (Alerts.target_result_doc country status timestamp pages))
    with (map Alerts.page_result_to_py pages).
  rewrite length_flat_map, map_map. apply Nat.eq_le_incl. f_equal.
  apply map_ext_in. intros pr Hpr. symmetry. apply page_alerts_contributions.
  rewrite forallb_forall in Hc. by apply Hc.
Qed.

(** X10. For a page that was scraped, [generate_alerts] returns exactly as many
    alerts as the digest extraction meets (label, page type) pairs on that
    page: one per absent component, one per failing strategy of a present
    one. *)
Theorem generate_alerts_count (country page_type url timestamp : list N)
    (components : list Scraper.match_result) :
  forallb Alerts.consistent_result components = true →
  length (Alerts.generate_alerts
            (Alerts.PageResult country page_type url timestamp components))
  = length (contributions_page
              (Alerts.page_result_to_py
                 (Alerts.PageResult country page_type url timestamp components))).
Proof.
  intros Hc.
  apply (page_alerts_contributions
           (Alerts.PageResult country page_type url timestamp components) Hc).
Qed.

Lemma digest_labels_bounded_by_alerts_witness :
  forallb Alerts.consistent_page Samples.scraped_pages = true ∧
  ∃ n, distinct_count
         (TeamsService.extract_components_issues
            (Alerts.target_result_doc (u "CL") (u "success")
               (u "2025-01-01T00:00:09") Samples.scraped_pages)) = Some n ∧
       (n ≤ list_sum (map Alerts.page_alert_count Samples.scraped_pages))%nat.
Proof.
  split; [reflexivity|].
  apply (digest_labels_bounded_by_alerts (u "CL") (u "success")
           (u "2025-01-01T00:00:09") Samples.scraped_pages).
  reflexivity.
Defined.

Lemma generate_alerts_count_witness :
  forallb Alerts.consistent_result
    [Samples.banner_absent; Samples.carousel_partly_found] = true ∧
  length (Alerts.generate_alerts
            (Alerts.PageResult (u "CL") (u "pdp") (u "https://example.test/p")
               (u "2025-01-01T00:00:00")
               [Samples.banner_absent; Samples.carousel_partly_found]))
  = length (contributions_page
              (Alerts.page_result_to_py
                 (Alerts.PageResult (u "CL") (u "pdp") (u "https://example.test/p")
                    (u "2025-01-01T00:00:00")
                    [Samples.banner_absent; Samples.carousel_partly_found]))).
Proof.
  split; [reflexivity|].
  apply (generate_alerts_count (u "CL") (u "pdp") (u "https://example.test/p")
           (u "2025-01-01T00:00:00")
           [Samples.banner_absent; Samples.carousel_partly_found]).
  reflexivity.
Defined.

(** The alerts of the sample page: one for the absent banner, one for the
    strategy that was not found, quoting the candidate title. *)
Lemma generate_alerts_sample :
  map (λ a, (Alerts.component a, Alerts.status a))
      (flat_map Alerts.generate_alerts Samples.scraped_pages)
  = [(u "Banner", u "MISSING_COMPONENT");
     (u "Carousel - Top sellers", u "MISSING_COMPONENT");
     (u "N/A", u "ERROR")].
Proof. vm_compute. reflexivity. Qed.

(** X8. Every alert of a scraped page has the status [MISSING_COMPONENT] and
    the page's own [country], [page_type] (as stored, not upper-cased) and
    [timestamp]; a page in the error form gives exactly one alert, of status
    [ERROR], whose country and page type read [Unknown]. *)
Theorem generate_alerts_identity (r : Alerts.page_result) :
  match r with
  | Alerts.PageResult country page_type url timestamp components =>
      Forall (λ a, Alerts.status a = u "MISSING_COMPONENT" ∧
                   Alerts.country a = country ∧
                   Alerts.page_type a = page_type ∧
                   Alerts.date a = timestamp)
             (Alerts.generate_alerts r)
  | Alerts.PageError error timestamp =>
      ∃ a, Alerts.generate_alerts r = [a] ∧
           Alerts.status a = u "ERROR" ∧ Alerts.message a = error ∧
           Alerts.country a = u "Unknown" ∧ Alerts.page_type a = u "Unknown" ∧
           Alerts.date a = timestamp
  end.
Proof.
  destruct r as [error timestamp|country page_type url timestamp components].
  - eexists. split; [reflexivity|]. by repeat split.
  - cbn [Alerts.generate_alerts].
    induction components as [|c cs IH]; [constructor|].
    cbn [flat_map]. apply Forall_app. split; [|exact IH].
    unfold Alerts._create_missing_component_alert.
    destruct (Scraper.found c); cbn [negb].
    + destruct (Scraper.details c) as [d|]; [|constructor].
      induction (Scraper.strategies_found (Scraper.strategies d))
        as [|[n b] found IHf]; [constructor|].
      cbn [flat_map]. apply Forall_app. split; [|exact IHf].
      destruct b; cbn [Alerts.strategy_alert]; [constructor|].
      constructor; [|constructor]. by repeat split.
    + constructor; [|constructor]. by repeat split.
Qed.

(** ** The job of a target: what survives failing pages *)

Section JobOutcome.
Import Orchestrator.
Context (C : collaborators) (self : orchestrator).

Lemma for_loop_app {A} (body : A → M C unit) xs ys st :
  for_loop body (xs ++ ys) st
  = bind (for_loop body xs) (λ _, for_loop body ys) st.
Proof.
  revert st. induction xs as [|x xs IH]; intros st; simpl; [done|].
  rewrite !bind_run. destruct (body x st) as [st1 [e|done1]]; [done|].
  rewrite IH. by rewrite bind_run.
Qed.

(** A page entry that is neither the special key nor an object stops the
    loop with [AttributeError], the state as it was. *)
Lemma scrape_page_type_malformed sc country item st :
  page_config_ok item = false →
  scrape_page_type C sc country item st = (st, inl (of_pyerr C AttributeError)).
Proof.
  destruct item as [page_type page_config]. unfold page_config_ok, scrape_page_type.
  cbn [fst snd]. intros [Hk Hd]%orb_false_elim.
  rewrite Hk. by destruct page_config.
Qed.

(** X13. A job outlives its pages: when the scraper object can be built,
    the target's configuration is an object whose pages are objects, the
    browser can be released, and loading a page, scraping it, generating
    its alerts and saving them raise instances of [Exception] only, the
    job reports success whatever those calls return or raise. Its
    [alerts_count] is the number of alerts it added to [self.alerts], each
    carrying [status] and [timestamp], and it keeps at most one page result
    per configured entry. *)
Theorem scrape_country_survives_page_failures (country : list N) (st : state C)
    (w1 : world C) (sc : scraper C) (items : list (list N * pyval)) :
  new_scraper C (config_path self) (the_world st) = (w1, inr sc) →
  py_items (dict_get (config self) country (PDict [])) = Ok items →
  forallb page_config_ok items = true →
  pages_raise_only_exceptions C →
  store_raises_only_exceptions C →
  release_never_fails C →
  ∃ st' res extra ps,
    _scrape_country C self country st = (st', inr res) ∧
    status res = u "success" ∧
    alerts_count res = Some (length extra) ∧
    self_alerts st' = self_alerts st ++ extra ∧
    Forall (λ a, stamped a = true) extra ∧
    pages res = Some ps ∧ (length ps ≤ length items)%nat.
Proof.
  intros Hnew Hitems Hok Hpages Hstore Hrel.
  unfold _scrape_country. rewrite try_except_run.
  destruct (job_body C self country st) as [st1 [e|res]] eqn:E;
    destruct (job_body_run C self _ _ _ _ E) as (_ & extra & Ha & Hst & Hres).
  - exfalso.
    destruct Hres as [[_ [(w & H)|[(pe & H & _)|[H|H]]]]|(sc' & w & w' & H)].
    + congruence.
    + congruence.
    + destruct (H Hpages) as (items' & Hi & Hbad & _). congruence.
    + exact (H Hstore).
    + destruct (Hrel sc' w) as [w'' Hw]. congruence.
  - destruct Hres as (_ & Hs & Hc & _ & ps & Hp & Hl).
    exists st1, res, extra, ps. repeat split; try done. by apply Hl.
Qed.

(** X14. A page entry that is no object fails the whole job: with page
    calls that raise instances of [Exception] only, the entries before it
    are processed, then [page_config.get] raises [AttributeError] outside
    the inner [try]; the job returns the failure form, and the alerts it
    had collected are neither saved nor added to [self.alerts]. *)
Theorem scrape_country_fails_on_malformed_page (country : list N) (st : state C)
    (w1 : world C) (sc : scraper C)
    (before after : list (list N * pyval)) (entry : list N * pyval) :
  new_scraper C (config_path self) (the_world st) = (w1, inr sc) →
  py_items (dict_get (config self) country (PDict []))
    = Ok (before ++ entry :: after) →
  forallb page_config_ok before = true →
  page_config_ok entry = false →
  pages_raise_only_exceptions C →
  ∃ st' res,
    _scrape_country C self country st = (st', inr res) ∧
    status res = u "failed" ∧
    error res = Some (str_exn C (of_pyerr C AttributeError)) ∧
    alerts_count res = None ∧
    self_alerts st' = self_alerts st.
Proof.
  intros Hnew Hitems Hok Hbad Hpages. unfold _scrape_country. rewrite try_except_run.
  assert (∃ st1, job_body C self country st = (st1, inl (of_pyerr C AttributeError))
                 ∧ self_alerts st1 = self_alerts st) as (st1 & -> & Ha1).
  { unfold job_body. rewrite bind_run. unfold perform at 1. rewrite Hnew.
    rewrite bind_run. cbn [init_locals]. rewrite bind_run, Hitems. cbn [lift ret].
    rewrite bind_run, for_loop_app, bind_run.
    match goal with
    | |- context [for_loop _ before ?s] => set (st2 := s)
    end.
    destruct (for_loop (scrape_page_type C sc country) before st2) as [st3 r3] eqn:E3.
    destruct (scrape_pages_spec C _ _ _ _ _ _ E3) as [(_ & Ha3 & _) R3].
    destruct r3 as [e|done3].
    { destruct (R3 Hpages) as [Hno _]. congruence. }
    cbn [for_loop]. rewrite bind_run.
    rewrite scrape_page_type_malformed by done.
    exists st3. split; [done|]. exact Ha3. }
  rewrite of_pyerr_is_exception.
  destruct (failed_result_returns C country (of_pyerr C AttributeError) st1)
    as (st' & t & E2).
  destruct (keeps_failed_result _ _ _ _ _ _ E2) as [Ha2 _].
  rewrite E2. eexists _, _. split; [reflexivity|]. cbn.
  repeat split. congruence.
Qed.

(** X15. Every alert a run accumulates in [self.alerts] carries the keys
    [status] and [timestamp], whatever the scraper's alerts looked like and
    however the jobs and the run ended. *)
Theorem run_alerts_stamped (order : list (list N)) (w : world C) :
  Forall (λ a, stamped a = true)
         (self_alerts (run C self order (initial_state C w)).1).
Proof.
  destruct (run C self order (initial_state C w)) as [st' r] eqn:E.
  exact (proj1 (run_spec C self _ _ _ _ E)).
Qed.

(** X16. An alert of [generate_alerts] reaches the job's list with its own
    status - an [ERROR] alert is not relabelled - and, having a [date] but
    no [timestamp], with a [timestamp] read from the clock at collection
    time appended. *)
Theorem collect_alert_of_scraper_alert (a : Alerts.alert) (st : state C) :
  ∃ st',
    collect_alert C (Alerts.alert_to_py a) st = (st', inr ()) ∧
    the_world st' = (now C (the_world st)).1 ∧
    country_alerts st'
    = country_alerts st
      ++ [Alerts.alert_to_py a
          ++ [(u "timestamp", PStr (now C (the_world st)).2)]].
Proof.
  unfold collect_alert. rewrite bind_run.
  change (dict_has (u "status") (Alerts.alert_to_py a)) with true. cbn [ret].
  rewrite bind_run.
  change (dict_has (u "timestamp") (Alerts.alert_to_py a)) with false. cbv iota.
  rewrite bind_run. unfold read_clock.
  destruct (now C (the_world st)) as [w t]. cbn [ret].
  eexists. split; [reflexivity|]. by split.
Qed.
End JobOutcome.

Lemma unreachable_raises_only_exceptions :
  Orchestrator.raises_only_exceptions Samples.unreachable_collaborators.
Proof.
  unfold Orchestrator.raises_only_exceptions, Orchestrator.job_raises_only_exceptions,
    Orchestrator.pages_raise_only_exceptions,
    Orchestrator.store_raises_only_exceptions, Orchestrator.only_exceptions.
  repeat split; intros; cbn in *; simplify_eq; reflexivity.
Qed.

Lemma scrape_country_survives_page_failures_witness :
  ∃ st' res extra ps,
    Orchestrator._scrape_country Samples.unreachable_collaborators
      Samples.one_target (u "CL")
      (Orchestrator.initial_state Samples.unreachable_collaborators 0%nat)
    = (st', inr res) ∧
    Orchestrator.status res = u "success" ∧
    Orchestrator.alerts_count res = Some (length extra) ∧
    Orchestrator.self_alerts st' = [] ++ extra ∧
    Forall (λ a, Orchestrator.stamped a = true) extra ∧
    Orchestrator.pages res = Some ps ∧ (length ps ≤ 2)%nat.
Proof.
  apply (scrape_country_survives_page_failures Samples.unreachable_collaborators
           Samples.one_target (u "CL")
           (Orchestrator.initial_state Samples.unreachable_collaborators 0%nat)
           0%nat tt
           [(u "setup_product_url", PStr (u "https://shop.test/p/1"));
            (u "PDP", PDict [(u "url_example", PStr (u "https://shop.test/p/2"));
                             (u "components", PList [])])]).
  - reflexivity.
  - reflexivity.
  - reflexivity.
  - apply unreachable_raises_only_exceptions.
  - apply unreachable_raises_only_exceptions.
  - intros sc w. exists w. reflexivity.
Defined.

Lemma scrape_country_fails_on_malformed_page_witness :
  ∃ st' res,
    Orchestrator._scrape_country (Samples.sample_collaborators true)
      Samples.malformed_target (u "CL")
      (Orchestrator.initial_state (Samples.sample_collaborators true) 0%nat)
    = (st', inr res) ∧
    Orchestrator.status res = u "failed" ∧
    Orchestrator.error res = Some (u "error") ∧
    Orchestrator.alerts_count res = None ∧
    Orchestrator.self_alerts st' = [].
Proof.
  apply (scrape_country_fails_on_malformed_page (Samples.sample_collaborators true)
           Samples.malformed_target (u "CL")
           (Orchestrator.initial_state (Samples.sample_collaborators true) 0%nat)
           0%nat tt
           [(u "PDP", PDict [(u "url_example", PStr (u "https://shop.test/p/2"));
                             (u "components", PList [])])]
           []
           (u "notes", PStr (u "pending"))).
  - reflexivity.
  - reflexivity.
  - reflexivity.
  - reflexivity.
  - apply sample_raises_only_exceptions.
Defined.

(** The job on pages that cannot be loaded, evaluated: success, no page
    result, no alert. *)
Lemma scrape_country_unreachable_pages :
  (λ res, (Orchestrator.status res, Orchestrator.alerts_count res,
           Orchestrator.pages res))
  <$> (match Orchestrator._scrape_country Samples.unreachable_collaborators
               Samples.one_target (u "CL")
               (Orchestrator.initial_state Samples.unreachable_collaborators 0%nat) with
       | (_, inr res) => Some res
       | (_, inl _) => None
       end)
  = Some (u "success", Some 0%nat, Some []).
Proof. vm_compute. reflexivity. Qed.

(** ** services/report_service.py: the summary of a stored report *)

Lemma country_summary_target (r : Orchestrator.target_result) :
  ReportService.country_summary (Orchestrator.target_result_to_py r)
  = match Orchestrator.alerts_count r with
    | Some n =>
        Ok (PDict [(u "country", PStr (Orchestrator.country r));
                   (u "total_alerts", PInt (Z.of_nat n));
                   (u "status", PStr (Orchestrator.status r));
                   (u "timestamp", PStr (Orchestrator.timestamp r))])
    | None => Raise KeyError
    end.
Proof. destruct r as [c s [n|] [ps|] [e|] t]; reflexivity. Qed.

Lemma results_summary_loop (rs : list Orchestrator.target_result) (acc : list pyval) :
  for_each (λ acc country, x ← ReportService.country_summary country; Ok (acc ++ [x]))
           acc (map Orchestrator.target_result_to_py rs)
  = if forallb (λ r, bool_decide (is_Some (Orchestrator.alerts_count r))) rs
    then Ok (acc ++ map (λ r, PDict [(u "country", PStr (Orchestrator.country r));
                                     (u "total_alerts",
                                      PInt (Z.of_nat (default 0%nat
                                                        (Orchestrator.alerts_count r))));
                                     (u "status", PStr (Orchestrator.status r));
                                     (u "timestamp", PStr (Orchestrator.timestamp r))])
                        rs)
    else Raise KeyError.
Proof.
  revert acc. induction rs as [|r rs IH]; intros acc; simpl.
  - by rewrite app_nil_r.
  - rewrite country_summary_target.
    destruct (Orchestrator.alerts_count r) as [n|]; simpl; [|done].
    rewrite IH. destruct (forallb _ rs); [|done].
    by rewrite <- app_assoc.
Qed.

(** X17. The latest-report summary reads [alerts_count] of every target result
    with a subscript, and the failure form of a job has no such key: on a
    stored report in which some target failed the summary raises [KeyError];
    when every target succeeded it has one entry per target, with the
    target's [alerts_count] as [total_alerts]. *)
Theorem results_summary_needs_alerts_count (d : list (list N * pyval))
    (rs : list Orchestrator.target_result) :
  dict_lookup (u "results") d
    = Some (PList (map Orchestrator.target_result_to_py rs)) →
  (Exists (λ r, Orchestrator.alerts_count r = None) rs →
   ReportService.results_summary (PDict d) = Raise KeyError) ∧
  (Forall (λ r, is_Some (Orchestrator.alerts_count r)) rs →
   ∃ summary,
     ReportService.results_summary (PDict d) = Ok summary ∧
     length summary = length rs ∧
     ∀ i r, rs !! i = Some r →
       (λ s, ReportService.py_getitem s (u "total_alerts")) <$> summary !! i
       = Some (Ok (PInt (Z.of_nat (default 0%nat (Orchestrator.alerts_count r)))))).
Proof.
  intros Hd.
  assert (Hrun : ReportService.results_summary (PDict d)
                 = for_each (λ acc country,
                               x ← ReportService.country_summary country;
                               Ok (acc ++ [x]))
                            [] (map Orchestrator.target_result_to_py rs)).
  { unfold ReportService.results_summary. cbn [py_get]. unfold dict_get.
    rewrite Hd. reflexivity. }
  rewrite Hrun, results_summary_loop. split.
  - intros Hex.
    destruct (forallb _ rs) eqn:Hall; [|done].
    rewrite forallb_forall in Hall. apply Exists_exists in Hex as (r & Hr & Hnone).
    apply list_elem_of_In, Hall in Hr. apply bool_decide_eq_true in Hr.
    rewrite Hnone in Hr. by destruct Hr.
  - intros Hall.
    assert (forallb (λ r, bool_decide (is_Some (Orchestrator.alerts_count r))) rs
            = true) as ->.
    { apply forallb_forall. intros r Hr%list_elem_of_In.
      rewrite Forall_forall in Hall. apply bool_decide_eq_true. by apply Hall. }
    eexists. split; [reflexivity|]. simpl. split; [by rewrite length_map|].
    intros i r Hi. rewrite list_lookup_fmap, Hi. reflexivity.
Qed.

Lemma results_summary_needs_alerts_count_witness :
  ReportService.results_summary
    (PDict [(u "total_countries", PInt 1);
            (u "results",
             PList (map Orchestrator.target_result_to_py Samples.one_failed_target))])
  = Raise KeyError.
Proof.
  apply (results_summary_needs_alerts_count
           [(u "total_countries", PInt 1);
            (u "results",
             PList (map Orchestrator.target_result_to_py Samples.one_failed_target))]
           Samples.one_failed_target).
  - reflexivity.
  - constructor. reflexivity.
Defined.

(** ** services/scraper_service.py: the shared state around a run *)

Lemma od_set_keeps {V} k k' (v : V) d :
  is_Some (Scraper.od_lookup k d) →
  is_Some (Scraper.od_lookup k (Scraper.od_set k' v d)).
Proof. intros H. rewrite od_lookup_set. by case_bool_decide. Qed.

Ltac od_other :=
  let H := fresh in intros H; vm_compute in H; discriminate H.
Ltac od_lookups :=
  repeat first [ rewrite od_lookup_set_eq
               | rewrite od_lookup_set_ne by od_other ].

Section ServiceFacts.
Import ScraperService.
Context (E : environment).

(** X18. Whatever the orchestrator class does, [run_scraper] leaves the
    shared state not running, with the start time it read first. When it
    returns a report, [error] is [None], [results] holds that report and an
    end time is set. When it raises an instance of [Exception], [error] is
    [str(e)] and an end time is set. When what is raised derives from
    [BaseException] only, the handler is passed by: [error] is [None], and
    [end_time], [results] and [alerts_count] keep the entries they had. *)
Theorem run_scraper_final_state (config_path mongo_uri : list N)
    (scraper_state : list (list N * pyval)) (w : world E) :
  let '(state', _, outcome) := run_scraper E config_path mongo_uri scraper_state w in
  Scraper.od_lookup (u "is_running") state' = Some (PBool false) ∧
  Scraper.od_lookup (u "start_time") state' = Some (PStr (now E w).2) ∧
  match outcome with
  | inr report =>
      Scraper.od_lookup (u "error") state' = Some PNone ∧
      Scraper.od_lookup (u "results") state' = Some report ∧
      (∃ t, Scraper.od_lookup (u "end_time") state' = Some (PStr t)) ∧
      ∃ n, py_get report (u "total_alerts") (PInt 0) = Ok n ∧
           Scraper.od_lookup (u "alerts_count") state' = Some n
  | inl e =>
      if is_exception E e
      then Scraper.od_lookup (u "error") state' = Some (PStr (str_exn E e)) ∧
           ∃ t, Scraper.od_lookup (u "end_time") state' = Some (PStr t)
      else Scraper.od_lookup (u "error") state' = Some PNone ∧
           Scraper.od_lookup (u "end_time") state'
             = Scraper.od_lookup (u "end_time") scraper_state ∧
           Scraper.od_lookup (u "results") state'
             = Scraper.od_lookup (u "results") scraper_state ∧
           Scraper.od_lookup (u "alerts_count") state'
             = Scraper.od_lookup (u "alerts_count") scraper_state
  end.
Proof.
  unfold run_scraper, run_scraper_body.
  destruct (now E w) as [w0 t0]. cbn [snd].
  destruct (construct E config_path mongo_uri w0) as [w1 [e|o]].
  { destruct (is_exception E e) eqn:Hx.
    - destruct (now E w1) as [w2 t2]. rewrite ?Hx. od_lookups. eauto.
    - rewrite ?Hx. od_lookups. eauto 10. }
  destruct (run_orchestrator E o w1) as [w2 [e|report]].
  { destruct (is_exception E e) eqn:Hx.
    - destruct (now E w2) as [w3 t3]. rewrite ?Hx. od_lookups. eauto.
    - rewrite ?Hx. od_lookups. eauto 10. }
  destruct (now E w2) as [w3 t3].
  destruct (py_get report (u "total_alerts") (PInt 0)) as [n|pe] eqn:Hn.
  - od_lookups. eauto 10.
  - rewrite of_pyerr_is_exception. destruct (now E w3) as [w4 t4].
    rewrite ?of_pyerr_is_exception. od_lookups. eauto.
Qed.

(** X19. When the orchestrator cannot be built, or its run raises, the
    state keeps the [results] and [alerts_count] of the run before, and
    what was raised is raised again; the [error] entry is [str(e)] for an
    instance of [Exception] and stays [None] otherwise. *)
Theorem run_scraper_failure_keeps_results (config_path mongo_uri : list N)
    (scraper_state : list (list N * pyval)) (w : world E) (e : exn E) :
  (∃ w1, construct E config_path mongo_uri (now E w).1 = (w1, inl e)) ∨
  (∃ w1 o w2, construct E config_path mongo_uri (now E w).1 = (w1, inr o) ∧
              run_orchestrator E o w1 = (w2, inl e)) →
  ∃ state' w',
    run_scraper E config_path mongo_uri scraper_state w = (state', w', inl e) ∧
    Scraper.od_lookup (u "results") state'
      = Scraper.od_lookup (u "results") scraper_state ∧
    Scraper.od_lookup (u "alerts_count") state'
      = Scraper.od_lookup (u "alerts_count") scraper_state ∧
    Scraper.od_lookup (u "error") state'
      = Some (if is_exception E e then PStr (str_exn E e) else PNone) ∧
    Scraper.od_lookup (u "is_running") state' = Some (PBool false).
Proof.
  unfold run_scraper, run_scraper_body.
  destruct (now E w) as [w0 t0]. cbn [fst].
  intros [(w1 & ->)|(w1 & o & w2 & -> & ->)].
  - destruct (is_exception E e).
    + destruct (now E w1) as [w2 t2]. eexists _, _. split; [reflexivity|].
      od_lookups. by repeat split.
    + eexists _, _. split; [reflexivity|]. od_lookups. by repeat split.
  - destruct (is_exception E e).
    + destruct (now E w2) as [w3 t3]. eexists _, _. split; [reflexivity|].
      od_lookups. by repeat split.
    + eexists _, _. split; [reflexivity|]. od_lookups. by repeat split.
Qed.

Lemma run_scraper_keys (config_path mongo_uri : list N)
    (scraper_state : list (list N * pyval)) (w : world E) :
  Forall (λ k, is_Some (Scraper.od_lookup k scraper_state)) state_keys →
  Scraper.od_lookup (u "is_running")
    (run_scraper E config_path mongo_uri scraper_state w).1.1 = Some (PBool false) ∧
  Forall (λ k, is_Some (Scraper.od_lookup k
                          (run_scraper E config_path mongo_uri scraper_state w).1.1))
         state_keys.
Proof.
  intros Hkeys. unfold run_scraper, run_scraper_body.
  destruct (now E w) as [w0 t0].
  assert (Hall : ∀ d : list (list N * pyval),
                 Forall (λ k, is_Some (Scraper.od_lookup k d)) state_keys →
                 ∀ k' v, Forall (λ k, is_Some (Scraper.od_lookup k (Scraper.od_set k' v d)))
                                state_keys).
  { intros d Hd k' v. eapply Forall_impl; [exact Hd|].
    intros k Hk. by apply od_set_keeps. }
  destruct (construct E config_path mongo_uri w0) as [w1 [e|o]].
  { destruct (is_exception E e); [destruct (now E w1) as [w2 t2]|];
      cbn [fst]; (split; [by od_lookups|]); by repeat apply Hall. }
  destruct (run_orchestrator E o w1) as [w2 [e|report]].
  { destruct (is_exception E e); [destruct (now E w2) as [w3 t3]|];
      cbn [fst]; (split; [by od_lookups|]); by repeat apply Hall. }
  destruct (now E w2) as [w3 t3].
  destruct (py_get report (u "total_alerts") (PInt 0)) as [n|pe].
  - cbn [fst]. split; [by od_lookups|]. by repeat apply Hall.
  - rewrite of_pyerr_is_exception. destruct (now E w3) as [w4 t4]. cbn [fst].
    split; [by od_lookups|]. by repeat apply Hall.
Qed.

(** X20. On a state holding the six keys the application creates it with, the
    status read after a run - successful or not - does not raise, and
    reports [idle]. *)
Theorem get_scraper_status_after_run (config_path mongo_uri : list N)
    (scraper_state : list (list N * pyval)) (w : world E) :
  Forall (λ k, is_Some (Scraper.od_lookup k scraper_state)) state_keys →
  ∃ status,
    get_scraper_status (run_scraper E config_path mongo_uri scraper_state w).1.1
      = Ok status ∧
    Scraper.od_lookup (u "status") status = Some (PStr (u "idle")) ∧
    Scraper.od_lookup (u "is_running") status = Some (PBool false).
Proof.
  intros Hkeys.
  pose proof (run_scraper_keys config_path mongo_uri scraper_state w Hkeys)
    as (Hrun & Hk).
  unfold state_keys in Hk.
  repeat match goal with
         | H : Forall _ (_ :: _) |- _ => apply Forall_cons in H as [? H]
         end.
  unfold get_scraper_status, Scraper.od_getitem. rewrite Hrun.
  repeat match goal with
         | H : is_Some _ |- _ => destruct H as [? ->]
         end.
  cbn. eexists. split; [reflexivity|]. split; reflexivity.
Qed.
End ServiceFacts.

Lemma run_scraper_failure_keeps_results_witness :
  ∃ state' w',
    ScraperService.run_scraper (Samples.service_environment false)
      (u "config_components.json") (u "mongodb://db") Samples.state_after_earlier_run
      0%nat
    = (state', w', inl (Samples.SampleError (u "config not found"))) ∧
    Scraper.od_lookup (u "results") state'
      = Scraper.od_lookup (u "results") Samples.state_after_earlier_run ∧
    Scraper.od_lookup (u "alerts_count") state'
      = Scraper.od_lookup (u "alerts_count") Samples.state_after_earlier_run ∧
    Scraper.od_lookup (u "error") state' = Some (PStr (u "config not found")) ∧
    Scraper.od_lookup (u "is_running") state' = Some (PBool false).
Proof.
  apply (run_scraper_failure_keeps_results (Samples.service_environment false)
           (u "config_components.json") (u "mongodb://db")
           Samples.state_after_earlier_run 0%nat
           (Samples.SampleError (u "config not found"))).
  left. exists 1%nat. reflexivity.
Defined.

Lemma get_scraper_status_after_run_witness :
  ∃ status,
    ScraperService.get_scraper_status
      (ScraperService.run_scraper (Samples.service_environment true)
         (u "config_components.json") (u "mongodb://db")
         Samples.state_after_earlier_run 0%nat).1.1
      = Ok status ∧
    Scraper.od_lookup (u "status") status = Some (PStr (u "idle")) ∧
    Scraper.od_lookup (u "is_running") status = Some (PBool false).
Proof.
  apply (get_scraper_status_after_run (Samples.service_environment true)
           (u "config_components.json") (u "mongodb://db")
           Samples.state_after_earlier_run 0%nat).
  repeat constructor; eexists; reflexivity.
Defined.

(** The run after a failed construction, evaluated: the alert count shown
    is still that of the earlier run. *)
Lemma run_scraper_stale_count :
  Scraper.od_lookup (u "alerts_count")
    (ScraperService.run_scraper (Samples.service_environment false)
       (u "config_components.json") (u "mongodb://db")
       Samples.state_after_earlier_run 0%nat).1.1
  = Some (PInt 3).
Proof. vm_compute. reflexivity. Qed.

(** A run that ends the interpreter, evaluated: the state is left not
    running, with no error recorded and the end time of the earlier run. *)
Lemma run_scraper_exit_sample :
  (λ state', (Scraper.od_lookup (u "is_running") state',
              Scraper.od_lookup (u "error") state',
              Scraper.od_lookup (u "end_time") state'))
    (ScraperService.run_scraper Samples.exiting_environment
       (u "config_components.json") (u "mongodb://db")
       Samples.state_after_earlier_run 0%nat).1.1
  = (Some (PBool false), Some PNone, Some (PStr (u "2025-01-01T00:05:00"))).
Proof. vm_compute. reflexivity. Qed.

(** ** The count in the Teams message against the alerts of the jobs *)

Lemma record_pairs_size_mono (pairs : list (pyval * pyval))
    (m m' : gmap hkey (gset hkey)) :
  for_each record_pair m pairs = Ok m' → (size m ≤ size m')%nat.
Proof.
  revert m. induction pairs as [|[l p] pairs IH]; intros m; simpl.
  - by intros [= ->].
  - destruct (py_hash l) as [k|e] eqn:El;
      [|by unfold add_issue; rewrite El].
    destruct (py_hash p) as [q|e] eqn:Ep;
      [|by unfold add_issue; rewrite El, Ep].
    rewrite (add_issue_hashed _ _ k q) by done. simpl.
    intros Hrun%IH. etrans; [|exact Hrun].
    rewrite map_size_insert. destruct (m !! k); simpl; lia.
Qed.

Lemma record_pairs_nonempty (pairs : list (pyval * pyval))
    (m m' : gmap hkey (gset hkey)) :
  for_each record_pair m pairs = Ok m' → pairs ≠ [] → (0 < size m')%nat.
Proof.
  destruct pairs as [|[l p] pairs]; [done|]. simpl. intros Hrun _.
  destruct (py_hash l) as [k|e] eqn:El;
    [|by unfold add_issue in Hrun; rewrite El in Hrun].
  destruct (py_hash p) as [q|e] eqn:Ep;
    [|by unfold add_issue in Hrun; rewrite El, Ep in Hrun].
  rewrite (add_issue_hashed _ _ k q) in Hrun by done. simpl in Hrun.
  apply record_pairs_size_mono in Hrun. eapply Nat.lt_le_trans; [|exact Hrun].
  rewrite map_size_insert. destruct (m !! k) as [s|] eqn:Hk; simpl; [|lia].
  destruct (decide (size m = 0%nat)) as [Hz|]; [|lia].
  apply map_size_empty_inv in Hz. subst m. by rewrite lookup_empty in Hk.
Qed.

Lemma target_doc_wf (t : list N * list N * list N * list Alerts.page_result) :
  forallb Alerts.consistent_page t.2 = true →
  target_result_wf (TeamsReport.target_doc t) = true.
Proof.
  destruct t as [[[country status] timestamp] pages]. cbn [snd]. intros Hc.
  unfold target_result_wf, TeamsReport.target_doc, Alerts.target_result_doc.
  cbn [fst snd].
  change (field _ (u "pages") (PList []))
    with (PList (map Alerts.page_result_to_py pages)).
  cbn [isinstance_dict andb]. rewrite forallb_forall.
  intros x [pr [<- Hpr]]%in_map_iff. apply page_wf_consistent.
  rewrite forallb_forall in Hc. by apply Hc.
Qed.

Lemma target_doc_contributions
    (t : list N * list N * list N * list Alerts.page_result) :
  forallb Alerts.consistent_page t.2 = true →
  length (contributions (TeamsReport.target_doc t)) = TeamsReport.target_alerts t.
Proof.
  destruct t as [[[country status] timestamp] pages]. cbn [snd]. intros Hc.
  unfold contributions, TeamsReport.target_alerts, TeamsReport.target_doc.
  cbn [fst snd].
  change (pages_of (Alerts.target_result_doc country status timestamp pages))
    with (map Alerts.page_result_to_py pages).
  rewrite length_flat_map, map_map. f_equal.
  apply map_ext_in. intros pr Hpr. symmetry. apply page_alerts_contributions.
  rewrite forallb_forall in Hc. by apply Hc.
Qed.

(** The digest of a target: no larger than the number of its alerts, and
    empty only when there are none. *)
Lemma target_doc_digest (t : list N * list N * list N * list Alerts.page_result) :
  forallb Alerts.consistent_page t.2 = true →
  ∃ m, TeamsService.extract_components_issues (TeamsReport.target_doc t) = Ok m ∧
       (size m ≤ TeamsReport.target_alerts t)%nat ∧
       (size m = 0%nat ↔ TeamsReport.target_alerts t = 0%nat).
Proof.
  intros Hc. pose proof (target_doc_wf t Hc) as Hwf.
  destruct (extract_components_issues_records _ Hwf) as (m & Hrun & _).
  exists m. split; [done|].
  rewrite extract_components_issues_flat in Hrun by done.
  rewrite <- (target_doc_contributions t Hc).
  pose proof (record_pairs_size _ _ _ Hrun) as Hup.
  rewrite map_size_empty in Hup. split; [exact Hup|]. split.
  - intros Hz. destruct (contributions (TeamsReport.target_doc t)) as [|p ps] eqn:Ec;
      [done|].
    apply record_pairs_nonempty in Hrun; [lia|done].
  - intros Hz. lia.
Qed.

Lemma list_sum_step (a : nat) (l : list nat) :
  list_sum (a :: l) = (a + list_sum l)%nat.
Proof. reflexivity. Qed.

Lemma bind_ok {A B} (x : A) (f : A → result B) : (Ok x ≫= f) = f x.
Proof. reflexivity. Qed.

Lemma results_with_components_run
    (targets : list (list N * list N * list N * list Alerts.page_result))
    (acc : list (pyval * gmap hkey (gset hkey)) * nat) :
  Forall (λ t, forallb Alerts.consistent_page t.2 = true) targets →
  ∃ kept total,
    for_each (λ acc r,
                components_issues ← TeamsService.extract_components_issues r;
                if (0 <? size components_issues)%nat
                then Ok (acc.1 ++ [(r, components_issues)],
                         (acc.2 + size components_issues)%nat)
                else Ok acc)
             acc (map TeamsReport.target_doc targets)
    = Ok (acc.1 ++ kept, (acc.2 + total)%nat) ∧
    (total ≤ list_sum (map TeamsReport.target_alerts targets))%nat ∧
    (total = 0%nat ↔ list_sum (map TeamsReport.target_alerts targets) = 0%nat) ∧
    map fst kept
    = map TeamsReport.target_doc
          (List.filter (λ t, (0 <? TeamsReport.target_alerts t)%nat) targets).
Proof.
  intros Hall. revert acc. induction Hall as [|t targets Ht _ IH]; intros acc.
  - exists [], 0%nat. simpl. rewrite app_nil_r, Nat.add_0_r.
    by destruct acc.
  - destruct (target_doc_digest t Ht) as (m & Hm & Hle & Hz).
    cbn [map for_each]. rewrite Hm, bind_ok.
    destruct (Nat.ltb_spec 0 (size m)) as [Hpos|Hzero]; rewrite bind_ok.
    + destruct (IH (acc.1 ++ [(TeamsReport.target_doc t, m)],
                    (acc.2 + size m)%nat)) as (kept & total & Hrun & Hle' & Hz' & Hk).
      exists ((TeamsReport.target_doc t, m) :: kept), (size m + total)%nat.
      cbn [fst snd] in Hrun. rewrite Hrun.
      split; [by rewrite <- app_assoc, Nat.add_assoc|].
      cbn [map List.filter]. rewrite list_sum_step.
      destruct (Nat.ltb_spec 0 (TeamsReport.target_alerts t)); [|lia].
      cbn [map fst]. rewrite Hk. split; [lia|]. split; [lia|reflexivity].
    + destruct (IH acc) as (kept & total & Hrun & Hle' & Hz' & Hk).
      exists kept, total. rewrite Hrun. split; [done|].
      cbn [map List.filter]. rewrite list_sum_step.
      assert (TeamsReport.target_alerts t = 0%nat) as -> by (apply Hz; lia).
      cbn [Nat.ltb Nat.leb]. split; [lia|]. split; [lia|exact Hk].
Qed.

(** X12. The Teams message counts no alerts exactly when the jobs counted none:
    on the results of targets whose component records have the shape
    [check_component] builds, the first loop of [generate_teams_message]
    keeps exactly the targets with a nonzero [alerts_count], its total is at
    most the sum of their [alerts_count], and the no-alerts text is
    returned if and only if that sum is zero. *)
Theorem teams_total_against_alerts
    (targets : list (list N * list N * list N * list Alerts.page_result)) :
  Forall (λ t, forallb Alerts.consistent_page t.2 = true) targets →
  ∃ kept total,
    TeamsReport.results_with_components (map TeamsReport.target_doc targets)
      = Ok (kept, total) ∧
    map fst kept
      = map TeamsReport.target_doc
            (List.filter (λ t, (0 <? TeamsReport.target_alerts t)%nat) targets) ∧
    (total ≤ list_sum (map TeamsReport.target_alerts targets))%nat ∧
    TeamsReport.says_no_alerts (map TeamsReport.target_doc targets)
      = Ok (list_sum (map TeamsReport.target_alerts targets) =? 0)%nat.
Proof.
  intros Hall.
  destruct (results_with_components_run targets ([], 0%nat) Hall)
    as (kept & total & Hrun & Hle & Hz & Hk).
  exists kept, total. unfold TeamsReport.says_no_alerts, TeamsReport.results_with_components.
  rewrite Hrun, bind_ok. cbn [fst snd app Nat.add].
  repeat split; try done. f_equal.
  destruct (Nat.eqb_spec total 0) as [H0|H0];
    destruct (Nat.eqb_spec (list_sum (map TeamsReport.target_alerts targets)) 0);
    try done; tauto.
Qed.

Lemma teams_total_against_alerts_witness :
  ∃ kept total,
    TeamsReport.results_with_components
      (map TeamsReport.target_doc
           [(u "CL", u "success", u "2025-01-01T00:00:09", Samples.scraped_pages)])
      = Ok (kept, total) ∧
    map fst kept
      = map TeamsReport.target_doc
            (List.filter (λ t, (0 <? TeamsReport.target_alerts t)%nat)
               [(u "CL", u "success", u "2025-01-01T00:00:09", Samples.scraped_pages)]) ∧
    (total ≤ list_sum (map TeamsReport.target_alerts
               [(u "CL", u "success", u "2025-01-01T00:00:09", Samples.scraped_pages)]))%nat ∧
    TeamsReport.says_no_alerts
      (map TeamsReport.target_doc
           [(u "CL", u "success", u "2025-01-01T00:00:09", Samples.scraped_pages)])
      = Ok (list_sum (map TeamsReport.target_alerts
               [(u "CL", u "success", u "2025-01-01T00:00:09", Samples.scraped_pages)])
            =? 0)%nat.
Proof.
  apply (teams_total_against_alerts
           [(u "CL", u "success", u "2025-01-01T00:00:09", Samples.scraped_pages)]).
  constructor; [reflexivity|constructor].
Defined.

(** ** Edge of the partial match: a pattern without ASCII content *)

Section PartialMatchEdge.
Variable nfkd : list N → list N.

(** X2. A pattern that normalises to the empty string - the empty pattern, or
    one whose decomposition holds no ASCII character - is a partial match of
    every text. *)
Theorem partial_match_blank_pattern (text pattern : list N) :
  encode_ascii_ignore (nfkd pattern) = [] →
  _partial_match nfkd (PStr text) (PStr pattern) = Ok true.
Proof.
  intros Hp. unfold _partial_match. rewrite !normalize_text_str, Hp. simpl.
  by destruct (lower (encode_ascii_ignore (nfkd text))).
Qed.
End PartialMatchEdge.

Lemma partial_match_blank_pattern_witness :
  _partial_match Samples.nfkd_sample (PStr (u "Ofertas")) (PStr [26032; 30528])
  = Ok true.
Proof.
  apply (partial_match_blank_pattern Samples.nfkd_sample (u "Ofertas") [26032; 30528]).
  reflexivity.
Defined.

(** ** The records of a scraped page *)

Lemma check_component_consistent nfkd soup c r printed :
  Scraper.check_component nfkd soup c = Ok (r, printed) →
  Alerts.consistent_result r = true ∧ Scraper.result_name r = Scraper.name c.
Proof.
  unfold Scraper.check_component.
  destruct (Scraper._check_component_by_identifier_type soup c) as [[found els]|];
    [|done].
  simpl. destruct found; [|by intros [= <- _]].
  unfold Scraper._build_component_details.
  destruct els as [[|el els]|]; try by intros [= <- _].
  destruct (Scraper.carousel_strategies c) as [ss|].
  - unfold Scraper._extract_strategies.
    destruct (Scraper.find_strategies_in_elements _ _ _) as [[out pr]|]; [|done].
    simpl. by intros [= <- _].
  - destruct (Scraper.text_strategies c) as [ss|]; [|by intros [= <- _]].
    unfold Scraper._extract_strategies.
    destruct (Scraper.find_strategies_in_elements _ _ _) as [[out pr]|]; [|done].
    simpl. by intros [= <- _].
Qed.

(** X7. A page that is scraped without an exception gives the page result of
    one record per configured component, in the order of the configuration
    and under the component's name; each record has the shape the alert
    generation and the digest rely on: details only when found, under the
    key [carousels] or [elements]. *)
Theorem scrape_fetched_page_consistent (nfkd : list N → list N) (soup : node)
    (country page_type url timestamp : list N) (cs : list Scraper.component)
    (page : pyval) :
  Scraper.scrape_fetched_page nfkd soup country page_type url timestamp cs = Ok page →
  ∃ rs, page = Alerts.page_result_to_py
                 (Alerts.PageResult country page_type url timestamp rs) ∧
        map Scraper.result_name rs = map Scraper.name cs ∧
        forallb Alerts.consistent_result rs = true.
Proof.
  unfold Scraper.scrape_fetched_page.
  assert (∀ acc rs,
    for_each (λ results c0, '(r, _) ← Scraper.check_component nfkd soup c0;
                            Ok (results ++ [r])) acc cs = Ok rs →
    ∃ new, rs = acc ++ new ∧
           map Scraper.result_name new = map Scraper.name cs ∧
           forallb Alerts.consistent_result new = true) as H.
  { induction cs as [|c cs IH]; intros acc rs; simpl.
    - intros [= <-]. exists []. by rewrite app_nil_r.
    - destruct (Scraper.check_component nfkd soup c) as [[r pr]|] eqn:E; [|done].
      simpl. intros (new & -> & Hn & Hc)%IH.
      destruct (check_component_consistent _ _ _ _ _ E) as [Hr Hname].
      exists (r :: new). rewrite <- app_assoc. simpl.
      by rewrite Hn, Hname, Hr, Hc. }
  destruct (for_each _ [] cs) as [rs|] eqn:E; [|done]. simpl. intros [= <-].
  apply H in E as (new & -> & Hn & Hc). by exists new.
Qed.

Lemma scrape_fetched_page_consistent_witness :
  ∃ page,
    Scraper.scrape_fetched_page Samples.nfkd_sample Samples.page_home
      (u "CL") (u "HOME") (u "https://shop.test/") (u "2026-02-09T17:34:00")
      [Samples.component_purchased_with] = Ok page ∧
    ∃ rs, page = Alerts.page_result_to_py
                   (Alerts.PageResult (u "CL") (u "HOME") (u "https://shop.test/")
                      (u "2026-02-09T17:34:00") rs) ∧
          map Scraper.result_name rs
            = map Scraper.name [Samples.component_purchased_with] ∧
          forallb Alerts.consistent_result rs = true.
Proof.
  eexists. split; [vm_compute; reflexivity|].
  apply (scrape_fetched_page_consistent Samples.nfkd_sample Samples.page_home
           (u "CL") (u "HOME") (u "https://shop.test/") (u "2026-02-09T17:34:00")
           [Samples.component_purchased_with]).
  vm_compute. reflexivity.
Defined.
